(** * Census A5a normalisation: a shallow embedding of [etl/normalize_census_a5a.py]

    The development follows the Python module function by function:
    [clean_percentage_like], [is_year_str], [find_header_blocks],
    [parse_block] and [normalize_a5a], together with the column choice of
    [etl/normalize_census_a5b.py] and the merge step of
    [etl/normalize_turnout.py].

    Conventions.
    - Python [str] values are lists of code points.  The model covers the
      code points U+0000..U+00FF, one [ascii] per code point (this is the
      Latin-1 range, not UTF-8 bytes); the character classes below are the
      ones CPython uses on that range.
    - Python [float] is IEEE binary64, modelled with [spec_float] at
      precision 53 and exponent bound 1024.
    - A Python call either returns or raises: [result]. *)

From Stdlib Require Import Ascii String DecimalString.
From Stdlib Require Import ZArith NArith Arith Bool Lia List.
From Stdlib Require Import Sorting.Sorted Sorting.Permutation.
From Stdlib Require Import Floats.SpecFloat.
Import ListNotations.


(* ===================================================================== *)
(** ** Text *)
(* ===================================================================== *)

Definition text := list ascii.

Definition txt (s : string) : text := list_ascii_of_string s.

Definition code (c : ascii) : N := N_of_ascii c.

Definition between (lo hi : N) (c : ascii) : bool :=
  (lo <=? code c)%N && (code c <=? hi)%N.

Definition is_code (n : N) (c : ascii) : bool := (code c =? n)%N.

(** [str.isspace] on one character: TAB..CR, FS..US, SPACE, NEL, NBSP. *)
Definition isspace_char (c : ascii) : bool :=
  between 9 13 c || between 28 32 c || is_code 133 c || is_code 160 c.

(** The white space that [int()] and [float()] skip around a literal: the
    same set without FS..US (U+001C..U+001F). *)
Definition isspace_num (c : ascii) : bool :=
  between 9 13 c || is_code 32 c || is_code 133 c || is_code 160 c.

(** [str.isdecimal] on one character. *)
Definition isdecimal_char (c : ascii) : bool := between 48 57 c.

(** [str.isdigit] on one character: the decimal digits and the superscript
    digits U+00B2, U+00B3, U+00B9. *)
Definition isdigit_char (c : ascii) : bool :=
  isdecimal_char c || is_code 178 c || is_code 179 c || is_code 185 c.

(** [str.lower] on one character: A..Z and U+00C0..U+00DE except U+00D7. *)
Definition lower_char (c : ascii) : ascii :=
  if between 65 90 c || (between 192 222 c && negb (is_code 215 c))
  then ascii_of_N (code c + 32)
  else c.

Definition lower (s : text) : text := map lower_char s.

Fixpoint lstrip_by (sp : ascii -> bool) (s : text) : text :=
  match s with
  | [] => []
  | c :: r => if sp c then lstrip_by sp r else s
  end.

Definition rstrip_by (sp : ascii -> bool) (s : text) : text :=
  rev (lstrip_by sp (rev s)).

Definition strip_by (sp : ascii -> bool) (s : text) : text :=
  rstrip_by sp (lstrip_by sp s).

(** [s.strip()] *)
Definition strip (s : text) : text := strip_by isspace_char s.

Definition nonempty {A} (l : list A) : bool :=
  match l with [] => false | _ :: _ => true end.

(** [s.isdigit()] *)
Definition isdigit (s : text) : bool := nonempty s && forallb isdigit_char s.

Definition text_eqb (a b : text) : bool :=
  if list_eq_dec ascii_dec a b then true else false.

(** [s.startswith(p)] *)
Fixpoint startswith (p s : text) : bool :=
  match p, s with
  | [], _ => true
  | _ :: _, [] => false
  | a :: p', b :: s' => (code a =? code b)%N && startswith p' s'
  end.

(** [s.replace(c, '')] for a one-character [c] *)
Definition remove_char (c : ascii) (s : text) : text :=
  filter (fun x => negb (code x =? code c)%N) s.

(* ===================================================================== *)
(** ** Results and exceptions *)
(* ===================================================================== *)

Inductive exn : Type :=
| ValueError_int (literal : text)      (* int(): invalid literal, base 10 *)
| ValueError_float (literal : text)    (* float(): could not convert    *)
| ValueError_msg (msg : string)        (* raise ValueError(msg)         *)
| OverflowError_float (n : Z)          (* float(n): int too large       *)
| IndexError_iat (r c : nat).          (* df.iat out of bounds          *)

(** [OutOfFuel] is not a Python outcome: it marks a [while] loop of the
    model that used up its iteration budget.  The loops below are run with
    a budget that is shown to suffice. *)
Inductive result (A : Type) : Type :=
| Ok (a : A)
| Raise (e : exn)
| OutOfFuel.

Arguments Ok {A} a.
Arguments Raise {A} e.
Arguments OutOfFuel {A}.

Definition bind {A B} (m : result A) (k : A -> result B) : result B :=
  match m with
  | Ok a => k a
  | Raise e => Raise e
  | OutOfFuel => OutOfFuel
  end.

Notation "x <- m ;; k" := (bind m (fun x => k))
  (at level 61, m at next level, right associativity).

(** [for x in l: s = f(s, x)] *)
Fixpoint for_each {A S} (f : S -> A -> result S) (l : list A) (s : S)
  : result S :=
  match l with
  | [] => Ok s
  | x :: r => s' <- f s x ;; for_each f r s'
  end.

(** [range(lo, hi)] *)
Definition range (lo hi : nat) : list nat := seq lo (hi - lo).

(* ===================================================================== *)
(** ** Numbers: [int(str)], [float(int)], [float(str)] *)
(* ===================================================================== *)

Definition digit_val (c : ascii) : Z := Z.of_N (code c) - 48.

Definition digits_val (ds : text) : Z :=
  fold_left (fun acc c => acc * 10 + digit_val c)%Z ds 0%Z.

(** Digit grouping: an underscore is accepted only between two decimal
    digits.  Returns the literal without its underscores. *)
Fixpoint ungroup (prev : option ascii) (s : text) : option text :=
  match s with
  | [] =>
      match prev with
      | Some p => if is_code 95 p then None else Some []
      | None => Some []
      end
  | c :: r =>
      if is_code 95 c then
        match prev with
        | Some p => if isdecimal_char p then ungroup (Some c) r else None
        | None => None
        end
      else
        match prev with
        | Some p =>
            if is_code 95 p && negb (isdecimal_char c) then None
            else option_map (cons c) (ungroup (Some c) r)
        | None => option_map (cons c) (ungroup (Some c) r)
        end
  end.

Definition split_sign (s : text) : bool * text :=
  match s with
  | c :: r =>
      if is_code 43 c then (false, r)
      else if is_code 45 c then (true, r)
      else (false, s)
  | [] => (false, [])
  end.

Definition signed (neg : bool) (z : Z) : Z := if neg then (- z)%Z else z.

(** [int(s)] for a [str] argument, base 10.  (The limit on the number of
    digits of CPython 3.11 is not modelled; [is_year_str] converts
    four-character strings only.) *)
Definition py_int (s : text) : result Z :=
  let '(neg, body) := split_sign (strip_by isspace_num s) in
  match ungroup None body with
  | Some ds =>
      if nonempty ds && forallb isdecimal_char ds
      then Ok (signed neg (digits_val ds))
      else Raise (ValueError_int s)
  | None => Raise (ValueError_int s)
  end.

Definition prec : Z := 53.
Definition emax : Z := 1024.

Definition float := spec_float.

Definition is_nan (x : float) : bool :=
  match x with S754_nan => true | _ => false end.

(** The binary64 value nearest to [(-1)^neg * m * 10^e] (ties to even),
    infinite on overflow. *)
Definition decimal_to_double (neg : bool) (m : Z) (e : Z) : float :=
  match m with
  | Zpos p =>
      if (0 <=? e)%Z
      then binary_normalize prec emax (signed neg (m * 10 ^ e)) 0 neg
      else
        match (10 ^ (- e))%Z with
        | Zpos q => SFdiv prec emax (S754_finite neg p 0) (S754_finite false q 0)
        | _ => S754_nan
        end
  | _ => S754_zero neg
  end.

(** [float(n)] for an [int] argument *)
Definition py_float_of_int (n : Z) : result float :=
  match binary_normalize prec emax n 0 false with
  | S754_infinity _ => Raise (OverflowError_float n)
  | x => Ok x
  end.

Definition is_exp_mark (c : ascii) : bool := is_code 101 c || is_code 69 c.

Definition parse_exponent (s : text) : option Z :=
  match s with
  | [] => Some 0%Z
  | c :: r =>
      if is_exp_mark c then
        let '(neg, ds) := split_sign r in
        if nonempty ds && forallb isdecimal_char ds
        then Some (signed neg (digits_val ds))
        else None
      else None
  end.

Fixpoint span (p : ascii -> bool) (s : text) : text * text :=
  match s with
  | [] => ([], [])
  | c :: r => if p c then let '(a, b) := span p r in (c :: a, b) else ([], s)
  end.

(** A decimal literal [digits [. digits] [e [sign] digits]] with at least
    one mantissa digit, as a mantissa and a power of ten. *)
Definition parse_decimal (s : text) : option (Z * Z) :=
  let '(ip, r1) := span isdecimal_char s in
  let '(fp, r2) :=
    match r1 with
    | c :: r => if is_code 46 c then span isdecimal_char r else ([], r1)
    | [] => ([], [])
    end in
  if nonempty (ip ++ fp) then
    match parse_exponent r2 with
    | Some e => Some (digits_val (ip ++ fp), (e - Z.of_nat (length fp))%Z)
    | None => None
    end
  else None.

(** [float(s)] for a [str] argument *)
Definition py_float_of_text (s : text) : result float :=
  match ungroup None (strip_by isspace_num s) with
  | None => Raise (ValueError_float s)
  | Some u =>
      let '(neg, body) := split_sign u in
      if text_eqb (lower body) (txt "inf")
         || text_eqb (lower body) (txt "infinity")
      then Ok (S754_infinity neg)
      else if text_eqb (lower body) (txt "nan") then Ok S754_nan
      else
        match parse_decimal body with
        | Some (m, e) => Ok (decimal_to_double neg m e)
        | None => Raise (ValueError_float s)
        end
  end.

(* ===================================================================== *)
(** ** [str(x)] for numbers *)
(* ===================================================================== *)

(** [str(n)] for an [int] *)
Definition py_str_of_int (n : Z) : text :=
  txt (DecimalString.NilZero.string_of_int (Z.to_int n)).

(** For a positive rational [num/den]: is [10^k <= num/den]? *)
Definition pow10_le (k : Z) (num den : Z) : bool :=
  if (0 <=? k)%Z then (10 ^ k * den <=? num)%Z
  else (den <=? num * 10 ^ (- k))%Z.

(** [floor (log10 (num/den))], from the binary logarithms and a bounded
    correction. *)
Definition ilog10 (num den : Z) : Z :=
  let est := ((Z.log2 num - Z.log2 den) * 30103 / 100000)%Z in
  let up k := if pow10_le (k + 1) num den then (k + 1)%Z else k in
  let down k := if pow10_le k num den then k else (k - 1)%Z in
  down (down (down (up (up (up est))))).

(** [floor (num/den / 10^k)] and whether that quotient is exact *)
Definition scaled_floor (k : Z) (num den : Z) : Z * Z * Z :=
  let '(n, d) :=
    if (0 <=? k)%Z then (num, den * 10 ^ k)%Z else (num * 10 ^ (- k), den)%Z in
  (n / d, n mod d, d)%Z.

(** The shortest decimal [c * 10^k] with at most [n] digits that converts
    back to [x], if there is one: the closer of the two neighbours of [x]
    on the grid of step [10^k]. *)
Definition shortest_at (x : float) (num den : Z) (n : Z) : option (Z * Z) :=
  let k := (ilog10 num den - (n - 1))%Z in
  let '(q, r, d) := scaled_floor k num den in
  let same c :=
    match SFcompare (decimal_to_double false c k) x with
    | Some Eq => true
    | _ => false
    end in
  let lo := same q in
  let hi := same (q + 1)%Z in
  if lo && hi then
    match (2 * r ?= d)%Z with
    | Lt => Some (q, k)
    | Gt => Some ((q + 1)%Z, k)
    | Eq => if Z.even q then Some (q, k) else Some ((q + 1)%Z, k)
    end
  else if lo then Some (q, k)
  else if hi then Some ((q + 1)%Z, k)
  else None.

Fixpoint shortest_from (x : float) (num den : Z) (n : Z) (tries : nat)
  : Z * Z :=
  match tries with
  | O => (num / den, 0)%Z
  | S t =>
      match shortest_at x num den n with
      | Some ck => ck
      | None => shortest_from x num den (n + 1)%Z t
      end
  end.

Fixpoint drop_zeros (c k : Z) (fuel : nat) : Z * Z :=
  match fuel with
  | O => (c, k)
  | S f =>
      if (c mod 10 =? 0)%Z then drop_zeros (c / 10)%Z (k + 1)%Z f else (c, k)
  end.

Definition zeros (n : Z) : text := repeat "0"%char (Z.to_nat n).

Definition two_digits (e : Z) : text :=
  if (e <? 10)%Z then "0"%char :: py_str_of_int e else py_str_of_int e.

(** Python's formatting of the shortest digits [ds] with the decimal point
    after [decpt] digits: positional for [-4 < decpt <= 16], otherwise with
    an exponent. *)
Definition format_repr (ds : text) (decpt : Z) : text :=
  let n := Z.of_nat (length ds) in
  if ((decpt <=? -4) || (16 <? decpt))%Z then
    let e := (decpt - 1)%Z in
    let mant :=
      match ds with
      | [] => []
      | [c] => [c]
      | c :: r => c :: "."%char :: r
      end in
    mant ++ "e"%char :: (if (e <? 0)%Z then "-"%char else "+"%char)
         :: two_digits (Z.abs e)
  else if (decpt <=? 0)%Z then
    "0"%char :: "."%char :: zeros (- decpt) ++ ds
  else if (n <=? decpt)%Z then
    ds ++ zeros (decpt - n) ++ txt ".0"
  else
    firstn (Z.to_nat decpt) ds ++ "."%char :: skipn (Z.to_nat decpt) ds.

(** [repr(x)] for a [float]: the shortest digits that read back as [x]. *)
Definition py_str_of_float (x : float) : text :=
  match x with
  | S754_nan => txt "nan"
  | S754_infinity neg => if neg then txt "-inf" else txt "inf"
  | S754_zero neg => if neg then txt "-0.0" else txt "0.0"
  | S754_finite neg m e =>
      let '(num, den) :=
        if (0 <=? e)%Z then (Zpos m * 2 ^ e, 1)%Z else (Zpos m, 2 ^ (- e))%Z in
      let '(c0, k0) := shortest_from (S754_finite false m e) num den 1 17 in
      let '(c, k) := drop_zeros c0 k0 20 in
      let ds := py_str_of_int c in
      (if neg then [ "-"%char ] else [])
        ++ format_repr ds (Z.of_nat (length ds) + k)
  end.

(* ===================================================================== *)
(** ** Cells and frames *)
(* ===================================================================== *)

(** A raw cell: the Python scalars a sheet holds. *)
Inductive cell : Type :=
| PyNone
| PyBool (b : bool)
| PyInt (n : Z)
| PyFloat (x : float)
| PyStr (s : text).

(** [str(v)] *)
Definition py_str (v : cell) : text :=
  match v with
  | PyNone => txt "None"
  | PyBool b => if b then txt "True" else txt "False"
  | PyInt n => py_str_of_int n
  | PyFloat x => py_str_of_float x
  | PyStr s => s
  end.

(** A [pandas.DataFrame] read with [header=None]: a rectangular grid with
    positional access. *)
Record DataFrame : Type := {
  n_rows : nat;
  n_cols : nat;
  values : nat -> nat -> cell
}.

(** [df.iat[r, c]] for non-negative positions *)
Definition iat (df : DataFrame) (r c : nat) : result cell :=
  if (r <? n_rows df) && (c <? n_cols df) then Ok (values df r c)
  else Raise (IndexError_iat r c).

Definition NaN : cell := PyFloat S754_nan.

(** A frame from its rows; short rows are padded with NaN. *)
Definition frame (rows : list (list cell)) : DataFrame :=
  {| n_rows := length rows;
     n_cols := fold_right (fun r => Nat.max (length r)) 0 rows;
     values := fun r c => nth c (nth r rows []) NaN |}.

(** [pandas.isna] on a scalar *)
Definition isna (v : cell) : bool :=
  match v with
  | PyNone => true
  | PyFloat x => is_nan x
  | _ => false
  end.

(** [df.dropna(how='all')] *)
Definition dropna_rows (df : DataFrame) : DataFrame :=
  let keep :=
    filter (fun r => negb (forallb (fun c => isna (values df r c))
                                   (seq 0 (n_cols df))))
           (seq 0 (n_rows df)) in
  {| n_rows := length keep;
     n_cols := n_cols df;
     values := fun r c => values df (nth r keep 0) c |}.

(** [df.dropna(axis=1, how='all')] *)
Definition dropna_cols (df : DataFrame) : DataFrame :=
  let keep :=
    filter (fun c => negb (forallb (fun r => isna (values df r c))
                                   (seq 0 (n_rows df))))
           (seq 0 (n_cols df)) in
  {| n_rows := n_rows df;
     n_cols := length keep;
     values := fun r c => values df r (nth c keep 0) |}.

(* ===================================================================== *)
(** ** [clean_percentage_like] and [is_year_str] *)
(* ===================================================================== *)

(** [try: return float(s)  except ValueError: return None] *)
Definition float_or_None (s : text) : result (option float) :=
  match py_float_of_text s with
  | Ok x => Ok (Some x)
  | Raise (ValueError_int _) => Ok None
  | Raise (ValueError_float _) => Ok None
  | Raise (ValueError_msg _) => Ok None
  | Raise e => Raise e
  | OutOfFuel => OutOfFuel
  end.

Definition clean_percentage_like (value : cell) : result (option float) :=
  match value with
  | PyNone => Ok None
  | PyBool b => x <- py_float_of_int (if b then 1 else 0)%Z ;; Ok (Some x)
  | PyInt n => x <- py_float_of_int n ;; Ok (Some x)
  | PyFloat x => if is_nan x then Ok None else Ok (Some x)
  | PyStr _ =>
      let s := strip (py_str value) in
      if negb (nonempty s) || text_eqb (lower s) (txt "nan") then Ok None
      else
        let s := strip (remove_char ","%char (remove_char "%"%char s)) in
        float_or_None s
  end.

Definition is_year_str (s : text) : result (option Z) :=
  let s := strip s in
  if (length s =? 4) && isdigit s then
    y <- py_int s ;;
    if ((1900 <=? y) && (y <=? 2100))%Z then Ok (Some y) else Ok None
  else Ok None.

(* ===================================================================== *)
(** ** [find_header_blocks] *)
(* ===================================================================== *)

(** [year_map]: a [dict] from year to [(total_col, citizen_col)], in
    insertion order. *)
Definition year_map := list (Z * (option nat * option nat)).

(** [d[k] = v]: an existing key keeps its place. *)
Fixpoint dict_set {V} (k : Z) (v : V) (d : list (Z * V)) : list (Z * V) :=
  match d with
  | [] => [(k, v)]
  | (k', v') :: r =>
      if (k' =? k)%Z then (k', v) :: r else (k', v') :: dict_set k v r
  end.

Definition block : Type := nat * year_map.

(** Lines 64-69: the [(j, y)] pairs of row [i]. *)
Definition years_in_row (df : DataFrame) (i : nat) : result (list (nat * Z)) :=
  for_each
    (fun years j =>
       v <- iat df i j ;;
       let cell := strip (py_str v) in
       y <- is_year_str cell ;;
       match y with
       | Some y => Ok (years ++ [(j, y)])
       | None => Ok years
       end)
    (range 1 (n_cols df)) [].

(** [str(df.iat[sub_r, j]).strip().lower() if j < n_cols else ''] *)
Definition subheader (df : DataFrame) (sub_r j : nat) : result text :=
  if j <? n_cols df
  then v <- iat df sub_r j ;; Ok (lower (strip (py_str v)))
  else Ok [].

(** Lines 79-90: the columns of the two variants for the year at column [j]. *)
Definition subheader_columns (df : DataFrame) (sub_r j : nat)
  : result (option nat * option nat) :=
  sub_j <- subheader df sub_r j ;;
  sub_j1 <- subheader df sub_r (j + 1) ;;
  let total_idx : option nat := None in
  let citizen_idx : option nat := None in
  let total_idx := if startswith (txt "total") sub_j then Some j else total_idx in
  let citizen_idx :=
    if startswith (txt "citizen") sub_j then Some j else citizen_idx in
  let total_idx :=
    if startswith (txt "total") sub_j1
    then match total_idx with None => Some (j + 1) | Some _ => total_idx end
    else total_idx in
  let citizen_idx :=
    if startswith (txt "citizen") sub_j1
    then match citizen_idx with None => Some (j + 1) | Some _ => citizen_idx end
    else citizen_idx in
  Ok (total_idx, citizen_idx).

(** Lines 76-93 *)
Definition build_year_map (df : DataFrame) (sub_r : nat)
    (years : list (nat * Z)) : result year_map :=
  for_each
    (fun (ym : year_map) (jy : nat * Z) =>
       let '(j, y) := jy in
       cols <- subheader_columns df sub_r j ;;
       Ok (dict_set y cols ym))
    years [].

(** The [while i < n_rows - 1] loop of lines 62-100. *)
Fixpoint scan_rows (df : DataFrame) (fuel : nat) (i : nat)
    (blocks : list block) : result (list block) :=
  if i <? n_rows df - 1 then
    match fuel with
    | O => OutOfFuel
    | S fuel' =>
        years <- years_in_row df i ;;
        if 3 <=? length years then
          let sub_r := i + 1 in
          if sub_r <? n_rows df then
            ym <- build_year_map df sub_r years ;;
            if nonempty ym
            then scan_rows df fuel' (sub_r + 1) (blocks ++ [(i, ym)])
            else scan_rows df fuel' (i + 1) blocks
          else scan_rows df fuel' (i + 1) blocks
        else scan_rows df fuel' (i + 1) blocks
    end
  else Ok blocks.

Definition find_header_blocks (df : DataFrame) : result (list block) :=
  scan_rows df (n_rows df) 0 [].

(* ===================================================================== *)
(** ** [parse_block] *)
(* ===================================================================== *)

Record record : Type := { year : Z; state : text; turnout : float }.

(** Lines 120-123 *)
Definition years_here (df : DataFrame) (r : nat) : result nat :=
  for_each
    (fun n j =>
       v <- iat df r j ;;
       y <- is_year_str (py_str v) ;;
       match y with
       | Some _ => Ok (n + 1)
       | None => Ok n
       end)
    (range 1 (n_cols df)) 0.

(** Line 141: [citizen_idx if citizen_idx is not None else total_idx] *)
Definition col_idx (total_idx citizen_idx : option nat) : option nat :=
  match citizen_idx with
  | Some c => Some c
  | None => total_idx
  end.

(** Lines 140-152 for one entry of [year_map] *)
Definition extract_year (df : DataFrame) (r : nat) (state : text)
    (records : list record) (entry : Z * (option nat * option nat))
  : result (list record) :=
  let '(year, (total_idx, citizen_idx)) := entry in
  match col_idx total_idx citizen_idx with
  | None => Ok records
  | Some c =>
      if n_cols df <=? c then Ok records
      else
        value <- iat df r c ;;
        turnout <- clean_percentage_like value ;;
        match turnout with
        | None => Ok records
        | Some t =>
            Ok (records ++ [ {| year := year; state := state; turnout := t |} ])
        end
  end.

(** Lines 127-128 *)
Definition state_label (state_raw : cell) : text :=
  match state_raw with
  | PyNone => []
  | _ => strip (py_str state_raw)
  end.

(** Lines 131 and 135: the rows that are passed over *)
Definition skip_state (state : text) : bool :=
  (negb (nonempty state)
   || startswith (txt "table") (lower state)
   || text_eqb (lower state) (txt "nan"))
  || text_eqb (lower state) (txt "united states").

(** Lines 127-152: what one data row adds to [records] *)
Definition parse_row (df : DataFrame) (year_map : year_map) (r : nat)
    (records : list record) : result (list record) :=
  state_raw <- iat df r 0 ;;
  let state := state_label state_raw in
  if skip_state state then Ok records
  else for_each (extract_year df r state) year_map records.

(** The [while r < n_rows] loop of lines 118-154 *)
Fixpoint parse_rows (df : DataFrame) (year_map : year_map) (fuel : nat)
    (r : nat) (records : list record) : result (list record) :=
  if r <? n_rows df then
    match fuel with
    | O => OutOfFuel
    | S fuel' =>
        n <- years_here df r ;;
        if 3 <=? n then Ok records
        else
          records' <- parse_row df year_map r records ;;
          parse_rows df year_map fuel' (r + 1) records'
    end
  else Ok records.

Definition parse_block (df : DataFrame) (header_row : nat)
    (year_map : year_map) : result (list record) :=
  let start_r := header_row + 2 in
  parse_rows df year_map (n_rows df) start_r [].

(* ===================================================================== *)
(** ** Sorting and [normalize_a5a] *)
(* ===================================================================== *)

(** [a < b] on [str]: lexicographic on code points *)
Fixpoint text_ltb (a b : text) : bool :=
  match a, b with
  | _, [] => false
  | [], _ :: _ => true
  | x :: a', y :: b' =>
      (code x <? code y)%N || ((code x =? code y)%N && text_ltb a' b')
  end.

Definition sort_key (r : record) : Z * text := (year r, state r).

(** [a < b] on the key tuples [(year, state)] *)
Definition key_ltb (a b : Z * text) : bool :=
  (fst a <? fst b)%Z || ((fst a =? fst b)%Z && text_ltb (snd a) (snd b)).

Fixpoint insert_record (x : record) (l : list record) : list record :=
  match l with
  | [] => [x]
  | y :: t =>
      if key_ltb (sort_key y) (sort_key x) then y :: insert_record x t
      else x :: y :: t
  end.

(** [records.sort(key=lambda r: (r['year'], r['state']))]: [list.sort] is
    stable, so its result is the one stable ordering of the list by key
    (see [sort_records_unique]); it is computed here by insertion. *)
Fixpoint sort_records (l : list record) : list record :=
  match l with
  | [] => []
  | x :: t => insert_record x (sort_records t)
  end.

Definition no_blocks_message : string :=
  "Could not detect any header blocks in a5a.xlsx".

(** Lines 165-176, with the row extractor as a parameter. *)
Definition normalize_frame_with
    (parse : DataFrame -> nat -> year_map -> result (list record))
    (df : DataFrame) : result (list record) :=
  blocks <- find_header_blocks df ;;
  if negb (nonempty blocks) then Raise (ValueError_msg no_blocks_message)
  else
    all_records <-
      for_each
        (fun (all_records : list record) (b : block) =>
           let '(header_row, year_map) := b in
           block_recs <- parse df header_row year_map ;;
           Ok (all_records ++ block_recs))
        blocks [] ;;
    Ok (sort_records all_records).

Definition normalize_frame : DataFrame -> result (list record) :=
  normalize_frame_with parse_block.

(** [normalize_a5a], from the sheet that [pd.read_excel] returns. *)
Definition normalize_a5a (sheet : DataFrame) : result (list record) :=
  normalize_frame (dropna_cols (dropna_rows sheet)).

(* ===================================================================== *)
(** ** The sibling modules *)
(* ===================================================================== *)

(** [normalize_census_a5b.py], line 114:
    [total_idx if total_idx is not None else citizen_idx] *)
Definition a5b_col_idx (total_idx citizen_idx : option nat) : option nat :=
  match total_idx with
  | Some c => Some c
  | None => citizen_idx
  end.

(** [normalize_turnout.py], lines 191-237: the records of the input files
    are appended in this order, then sorted.  [records_2024] is absent
    when no 2024 file exists. *)
Definition turnout_main_records
    (records_1980_2014 records_2016 records_2020 : list record)
    (records_2024 : option (list record)) : list record :=
  let all_records := [] ++ records_1980_2014 in
  let all_records := all_records ++ records_2016 in
  let all_records := all_records ++ records_2020 in
  let all_records :=
    match records_2024 with
    | Some rs => all_records ++ rs
    | None => all_records
    end in
  sort_records all_records.

(* ===================================================================== *)
(** ** Notions used in the statements *)
(* ===================================================================== *)

(** [collect g l]: run [g] on every element and concatenate what it yields. *)
Fixpoint collect {A B} (g : A -> result (list B)) (l : list A)
  : result (list B) :=
  match l with
  | [] => Ok []
  | x :: r => ys <- g x ;; zs <- collect g r ;; Ok (ys ++ zs)
  end.

Definition returns {A} (m : result A) : Prop := m <> OutOfFuel.

(** The cell at [(r, j)] is a period token for the year [y]. *)
Definition period_token (df : DataFrame) (r j : nat) (y : Z) : Prop :=
  is_year_str (py_str (values df r j)) = Ok (Some y).

(** Row [r] holds period tokens in at least three cells of the columns 1
    and beyond. *)
Definition three_period_tokens (df : DataFrame) (r : nat) : Prop :=
  exists j1 j2 j3 y1 y2 y3,
    1 <= j1 /\ j1 < j2 /\ j2 < j3 /\ j3 < n_cols df /\
    period_token df r j1 y1 /\ period_token df r j2 y2 /\
    period_token df r j3 y3.

(** What the cell at [(r, j)] adds to [years_in_row] *)
Definition cell_years (df : DataFrame) (r j : nat) : result (list (nat * Z)) :=
  v <- iat df r j ;;
  y <- is_year_str (py_str v) ;;
  Ok (match y with Some y => [(j, y)] | None => [] end).

(** The test of the detector (line 72) and of the extractor (line 124) *)
Definition header_like (df : DataFrame) (r : nat) : result bool :=
  years <- years_in_row df r ;; Ok (3 <=? length years).

(** The sub-header cell at [(sub_r, j)] names the variant [v]. *)
Definition names_variant (df : DataFrame) (sub_r : nat) (v : text) (j : nat)
  : bool :=
  (j <? n_cols df) && startswith v (lower (strip (py_str (values df sub_r j)))).

(** The column of variant [v] for the year at column [j]: column [j] if
    its sub-header names the variant, else column [j + 1] if that one
    does. *)
Definition variant_column (df : DataFrame) (sub_r : nat) (v : text) (j : nat)
  : option nat :=
  if names_variant df sub_r v j then Some j
  else if names_variant df sub_r v (j + 1) then Some (j + 1)
  else None.

(** [detected df i blocks]: scanning from row [i] finds exactly [blocks]. *)
Inductive detected (df : DataFrame) : nat -> list block -> Prop :=
| detected_end i :
    (forall r, i <= r -> r + 1 < n_rows df -> ~ three_period_tokens df r) ->
    detected df i []
| detected_block i a years ym rest :
    i <= a -> a + 1 < n_rows df ->
    (forall r, i <= r < a -> ~ three_period_tokens df r) ->
    years_in_row df a = Ok years -> 3 <= length years ->
    build_year_map df (a + 1) years = Ok ym ->
    detected df (a + 2) rest ->
    detected df i ((a, ym) :: rest).

Inductive variant : Type := Total | Citizen.

Definition mapped (cols : option nat * option nat) (v : variant) : option nat :=
  match v with
  | Total => fst cols
  | Citizen => snd cols
  end.

(** The resolver in the specification's words: the column of the first
    variant of the preference list that is present in the mapping. *)
Fixpoint resolve (prefs : list variant) (cols : option nat * option nat)
  : option nat :=
  match prefs with
  | [] => None
  | v :: rest =>
      match mapped cols v with
      | Some c => Some c
      | None => resolve rest cols
      end
  end.

Definition record_of (y : Z) (st : text) (v : option float) : list record :=
  match v with
  | Some x => [ {| year := y; state := st; turnout := x |} ]
  | None => []
  end.

(** What a data row with label [st] yields for one period of the block *)
Definition year_outcome (df : DataFrame) (r : nat) (st : text)
    (entry : Z * (option nat * option nat)) (recs : list record) : Prop :=
  match resolve [Citizen; Total] (snd entry) with
  | Some col =>
      exists v, clean_percentage_like (values df r col) = Ok v /\
                recs = record_of (fst entry) st v
  | None => recs = []
  end.

(** Lexicographic order on code points *)
Inductive text_lt : text -> text -> Prop :=
| text_lt_nil c s : text_lt [] (c :: s)
| text_lt_head x y a b : (code x < code y)%N -> text_lt (x :: a) (y :: b)
| text_lt_tail x a b : text_lt a b -> text_lt (x :: a) (x :: b).

Definition key_eqb (a b : Z * text) : bool :=
  (fst a =? fst b)%Z && text_eqb (snd a) (snd b).

(** [key_lt a b]: the pair [a] of a year and a state comes before [b]: an
    earlier year, or the same year and a state that is smaller in the
    lexicographic order on code points. *)
Definition key_lt (a b : Z * text) : Prop :=
  (fst a < fst b)%Z \/ (fst a = fst b /\ text_lt (snd a) (snd b)).

(** [key_le a b]: [a] is not after [b]. *)
Definition key_le (a b : Z * text) : Prop := key_lt a b \/ a = b.

(** Ascending by year, then by state *)
Definition ordered (l : list record) : Prop :=
  StronglySorted
    (fun a b => key_le (year a, state a) (year b, state b)) l.

(** The record has the year and the state of [k]. *)
Definition same_key (k : Z * text) (r : record) : bool :=
  (year r =? fst k)%Z && text_eqb (state r) (snd k).

(** [out] is the stable sort of [input]: the same records, ascending by
    key, the records of equal key in their input order. *)
Definition stable_sort_of (input out : list record) : Prop :=
  Permutation input out /\ ordered out /\
  forall k, filter (same_key k) out = filter (same_key k) input.

(** A plain decimal numeral [ip] or [ip.fp] reads as the nearest double. *)
Definition numeral (ip fp : text) : text :=
  ip ++ (if nonempty fp then "."%char :: fp else []).

(** [s.replace('%', '').replace(',', '')] *)
Definition remove_marks (s : text) : text :=
  remove_char ","%char (remove_char "%"%char s).

Definition is_mark (c : ascii) : bool := is_code 37 c || is_code 44 c.

(** The claim's pattern [^\s*\d+(\.\d+)?%?\s*$]: white space, the digits
    [ip], optionally a point and the digits [fp], optionally a percent
    sign, white space. *)
Definition percent_pattern (s ip fp : text) : Prop :=
  exists ws1 ws2 pct,
    forallb isspace_char ws1 = true /\ forallb isspace_char ws2 = true /\
    (pct = [] \/ pct = [ "%"%char ]) /\
    ip <> [] /\ forallb isdecimal_char ip = true /\
    forallb isdecimal_char fp = true /\
    s = ws1 ++ numeral ip fp ++ pct ++ ws2.

Definition in_bounds {A} (m : result A) : Prop :=
  forall r c, m <> Raise (IndexError_iat r c).

Definition anchors (blocks : list block) : list nat := map fst blocks.

(** The data region of the [k]-th block: from two rows below its anchor up
    to the next block's anchor, or the end of the frame. *)
Definition data_region (df : DataFrame) (blocks : list block) (k : nat)
  : option (nat * nat) :=
  match nth_error (anchors blocks) k with
  | Some a =>
      Some (a + 2,
            match nth_error (anchors blocks) (S k) with
            | Some b => b
            | None => n_rows df
            end)
  | None => None
  end.

Definition anchors_spaced (blocks : list block) : Prop :=
  forall k1 k2 a b, k1 < k2 ->
    nth_error (anchors blocks) k1 = Some a ->
    nth_error (anchors blocks) k2 = Some b -> a + 2 <= b.

Definition regions_disjoint (df : DataFrame) (blocks : list block) : Prop :=
  forall k1 k2 lo1 hi1 lo2 hi2, k1 <> k2 ->
    data_region df blocks k1 = Some (lo1, hi1) ->
    data_region df blocks k2 = Some (lo2, hi2) ->
    forall r, ~ (lo1 <= r < hi1 /\ lo2 <= r < hi2).

(** *** Sample frames *)

Definition str (s : string) : cell := PyStr (txt s).

(** Two stacked blocks, a caption row between them, and a last row that
    holds three years. *)
Definition census_frame : DataFrame :=
  frame
    [ [str ""; PyInt 2020; NaN; PyInt 2016; NaN; PyInt 2012; NaN];
      [str ""; str "Total"; str "Citizen, VEP"; str "Total"; str "Citizen";
       str "Total"; NaN];
      [str "United States"; str "66.8"; str "70.0%"; str "61.4"; str "65.0";
       str "61.8"; NaN];
      [str "Alabama"; str "60.5"; str "63.6%"; str "55.1"; str "n/a";
       PyInt 58; NaN];
      [str "Table 2"; NaN; NaN; NaN; NaN; NaN; NaN];
      [NaN; str "2008"; str " 2004 "; PyInt 2000; NaN; NaN; NaN];
      [NaN; str "Total"; str "total (000s)"; str "Registered"; NaN; NaN; NaN];
      [str "Alaska"; str "1,234.5"; NaN; str "62"; NaN; NaN; NaN];
      [str "Source"; str "1996"; str "1992"; str "1988"; NaN; NaN; NaN] ].

Definition census_blocks : list block :=
  [ (0, [ (2020%Z, (Some 1, Some 2)); (2016%Z, (Some 3, Some 4));
          (2012%Z, (Some 5, None)) ]);
    (5, [ (2008%Z, (Some 1, None)); (2004%Z, (Some 2, None));
          (2000%Z, (None, None)) ]) ].

Definition census_year_map : year_map :=
  [ (2020%Z, (Some 1, Some 2)); (2016%Z, (Some 3, Some 4));
    (2012%Z, (Some 5, None)) ].

Definition records_or_nil (m : result (list record)) : list record :=
  match m with Ok l => l | _ => [] end.

Definition census_block0_records : list record :=
  Eval vm_compute in records_or_nil (parse_block census_frame 0 census_year_map).

Definition census_records : list record :=
  Eval vm_compute in records_or_nil (normalize_frame census_frame).


Definition census_row3_records : list record :=
  Eval vm_compute in records_or_nil (parse_row census_frame census_year_map 3 []).

(** A sheet as read, with a blank row that [dropna] removes. *)
Definition census_sheet : DataFrame :=
  frame
    [ [str ""; PyInt 2020; NaN; PyInt 2016; NaN; PyInt 2012; NaN];
      [str ""; str "Total"; str "Citizen, VEP"; str "Total"; str "Citizen";
       str "Total"; NaN];
      [NaN; NaN; NaN; NaN; NaN; NaN; NaN];
      [str "United States"; str "66.8"; str "70.0%"; str "61.4"; str "65.0";
       str "61.8"; NaN];
      [str "Alabama"; str "60.5"; str "63.6%"; str "55.1"; str "n/a";
       PyInt 58; NaN];
      [PyNone; NaN; NaN; NaN; NaN; NaN; NaN];
      [str "Table 2"; NaN; NaN; NaN; NaN; NaN; NaN];
      [NaN; str "2008"; str " 2004 "; PyInt 2000; NaN; NaN; NaN];
      [NaN; str "Total"; str "total (000s)"; str "Registered"; NaN; NaN; NaN];
      [str "Alaska"; str "1,234.5"; NaN; str "62"; NaN; NaN; NaN];
      [str "Source"; str "1996"; str "1992"; str "1988"; NaN; NaN; NaN] ].

(** The frame of the specification's scenario A: two years only. *)
Definition two_year_frame : DataFrame :=
  frame
    [ [str ""; PyInt 2020; PyInt 2016];
      [str ""; str "Total"; str "Total"];
      [str "Alabama"; str "63.6%"; str "59.1"] ].

(** The trimmed text without one trailing percent sign and without its
    commas: what the claim C3, as it is worded, has parsed. *)
Definition strip_trailing_percent (s : text) : text :=
  match rev s with
  | c :: r => if is_code 37 c then rev r else s
  | [] => s
  end.

Definition claimed_numeral (s : text) : text :=
  remove_char ","%char (strip_trailing_percent (strip s)).

(** What the cleaner returns for a text cell *)
Definition text_value (s : text) : option float :=
  if negb (nonempty (strip s)) || text_eqb (lower (strip s)) (txt "nan")
  then None
  else
    match py_float_of_text (strip (remove_marks s)) with
    | Ok x => Some x
    | _ => None
    end.

Definition double_63_6 : float := S754_finite false 8950904259398861 (-47).
Definition double_1234_5 : float := S754_finite false 5429388417957888 (-42).
Definition double_63 : float := S754_finite false 8866461766385664 (-47).
Definition double_1 : float := S754_finite false 4503599627370496 (-52).

(** The text [201] followed by a superscript two (U+00B2) *)
Definition footnoted_year : text :=
  [ "2"%char; "0"%char; "1"%char; "178"%char ].

Definition footnoted_frame : DataFrame :=
  frame
    [ [str ""; PyInt 2020; PyInt 2016; PyInt 2012];
      [str ""; str "Total"; str "Total"; str "Total"];
      [str "Alabama"; PyStr footnoted_year; str "59.1"; str "55.0"];
      [str "Alaska"; str "60.2"; str "61.3"; str "58.7"] ].

(** Row [r] holds tokens of at least three different periods: "three
    distinct period tokens" read by period. *)
Definition three_distinct_periods (df : DataFrame) (r : nat) : Prop :=
  exists j1 j2 j3 y1 y2 y3,
    1 <= j1 < n_cols df /\ 1 <= j2 < n_cols df /\ 1 <= j3 < n_cols df /\
    period_token df r j1 y1 /\ period_token df r j2 y2 /\
    period_token df r j3 y3 /\
    y1 <> y2 /\ y1 <> y3 /\ y2 <> y3.

(** A header row that repeats one year *)
Definition repeated_year_frame : DataFrame :=
  frame
    [ [str ""; PyInt 2020; PyInt 2020; PyInt 2020];
      [str ""; str "Total"; str "Citizen"; str "Total"];
      [str "Alabama"; str "60.5"; str "63.6%"; str "61.0"] ].

(* ===================================================================== *)
(** ** More of the run-time: [repr(str)], [x in s], [int()] on long texts *)
(* ===================================================================== *)

Definition hex_digit (n : N) : ascii :=
  if (n <? 10)%N then ascii_of_N (48 + n) else ascii_of_N (87 + n).

(** [repr] of one character inside the quotes [q] *)
Definition repr_char (q : ascii) (c : ascii) : text :=
  let n := code c in
  if (n =? code q)%N || (n =? 92)%N then [ "\"%char; c ]
  else if (n =? 9)%N then txt "\t"
  else if (n =? 10)%N then txt "\n"
  else if (n =? 13)%N then txt "\r"
  else if (n <? 32)%N || (n =? 127)%N
          || ((128 <=? n)%N && (n <=? 160)%N) || (n =? 173)%N
  then [ "\"%char; "x"%char; hex_digit (n / 16); hex_digit (n mod 16) ]
  else [c].

(** [repr(s)] for a [str]: single quotes, unless [s] holds a single quote
    and no double quote. *)
Definition py_repr_text (s : text) : text :=
  let q :=
    if existsb (is_code 39) s && negb (existsb (is_code 34) s)
    then "034"%char else "'"%char in
  q :: flat_map (repr_char q) s ++ [q].

Fixpoint join (sep : text) (l : list text) : text :=
  match l with
  | [] => []
  | [x] => x
  | x :: r => x ++ sep ++ join sep r
  end.

(** [repr(l)] for a list of [str] *)
Definition py_repr_text_list (l : list text) : text :=
  "["%char :: join (txt ", ") (map py_repr_text l) ++ [ "]"%char ].

(** [needle in hay] for two [str] *)
Fixpoint contains (needle hay : text) : bool :=
  startswith needle hay
  || match hay with
     | [] => false
     | _ :: rest => contains needle rest
     end.

(** The digits that [int()] scans at the head of a literal: their number,
    whether the run ends in an underscore, or [None] for a doubled
    underscore. *)
Fixpoint scan_int (prev_underscore : bool) (s : text) (digits : nat)
  : option (nat * bool) :=
  match s with
  | [] => Some (digits, prev_underscore)
  | c :: r =>
      if is_code 95 c then
        if prev_underscore then None else scan_int true r digits
      else if isdecimal_char c then scan_int false r (digits + 1)
      else Some (digits, prev_underscore)
  end.

Definition int_max_str_digits : nat := 4300.

Definition digit_limit_message (n : nat) : string :=
  string_of_list_ascii
    (txt "Exceeds the limit (4300 digits) for integer string conversion: value has "
     ++ py_str_of_int (Z.of_nat n)
     ++ txt " digits; use sys.set_int_max_str_digits() to increase the limit").

(** [int(s)] with CPython's limit on the number of digits: a literal whose
    leading run of digits is well grouped and longer than 4300 digits is
    refused before anything else is looked at. *)
Definition py_int_limited (s : text) : result Z :=
  let '(neg, body) := split_sign (strip_by isspace_num s) in
  match body with
  | c :: _ =>
      if is_code 95 c then py_int s
      else
        match scan_int false body 0 with
        | Some (n, false) =>
            if int_max_str_digits <? n
            then Raise (ValueError_msg (digit_limit_message n))
            else py_int s
        | _ => py_int s
        end
  | [] => py_int s
  end.

(** A [dict] with [str] keys, in insertion order *)
Fixpoint tdict_set {V} (k : text) (v : V) (d : list (text * V))
  : list (text * V) :=
  match d with
  | [] => [(k, v)]
  | (k', v') :: r =>
      if text_eqb k' k then (k', v) :: r else (k', v') :: tdict_set k v r
  end.

(** [d.get(k)] *)
Fixpoint tdict_get {V} (k : text) (d : list (text * V)) : option V :=
  match d with
  | [] => None
  | (k', v) :: r => if text_eqb k' k then Some v else tdict_get k r
  end.

(** [dict(pairs)]: later pairs overwrite earlier ones. *)
Definition tdict_of {V} (pairs : list (text * V)) : list (text * V) :=
  fold_left (fun d kv => tdict_set (fst kv) (snd kv) d) pairs [].

(* ===================================================================== *)
(** ** [normalize_census_a5b.py] *)
(* ===================================================================== *)

Module A5b.

(** Lines 34-47 *)
Definition clean_percentage_like (value : cell) : result (option float) :=
  match value with
  | PyNone => Ok None
  | PyFloat x => if is_nan x then Ok None else Ok (Some x)
  | PyBool b => x <- py_float_of_int (if b then 1 else 0)%Z ;; Ok (Some x)
  | PyInt n => x <- py_float_of_int n ;; Ok (Some x)
  | PyStr _ =>
      let s := strip (py_str value) in
      if negb (nonempty s) then Ok None
      else
        let s := strip (remove_char ","%char (remove_char "%"%char s)) in
        float_or_None s
  end.

(** Lines 50-61.  [lower] maps each lower-cased column name to the last
    column that has it. *)
Definition pick_column (columns candidates : list text) : option text :=
  let lower_map := tdict_of (map (fun c => (lower c, c)) columns) in
  match
    find (fun cand => match tdict_get (lower cand) lower_map with
                      | Some _ => true
                      | None => false
                      end) candidates
  with
  | Some cand => tdict_get (lower cand) lower_map
  | None =>
      find (fun c => existsb (fun tok => contains tok (lower c)) candidates)
           columns
  end.

(** [re.fullmatch(r'(19|20)\d{2}', cell)] *)
Definition is_year_cell (cell : text) : bool :=
  match cell with
  | [a; b; c; d] =>
      ((is_code 49 a && is_code 57 b) || (is_code 50 a && is_code 48 b))
      && isdecimal_char c && isdecimal_char d
  | _ => false
  end.

Definition no_state_row_message : string :=
  String.append "Could not locate header row with "
    (String "034"%char (String.append "State" (String "034"%char " in column A"))).

Definition no_year_columns_message : string :=
  "Failed to detect year columns in a5b.xlsx".

(** Lines 77-81: the first of the top 20 rows whose column 0 reads
    [state] *)
Fixpoint find_state_row (df : DataFrame) (rows : list nat)
  : result (option nat) :=
  match rows with
  | [] => Ok None
  | i :: rest =>
      cell0 <- iat df i 0 ;;
      let v := strip (py_str cell0) in
      if text_eqb (lower v) (txt "state") then Ok (Some i)
      else find_state_row df rest
  end.

(** [str(df.iat[r, j]).strip() if j < df.shape[1] else ''] *)
Definition subheader (df : DataFrame) (r j : nat) : result text :=
  if j <? n_cols df
  then v <- iat df r j ;; Ok (strip (py_str v))
  else Ok [].

(** Lines 92-100 *)
Definition subheader_columns (df : DataFrame) (header_row j : nat)
  : result (option nat * option nat) :=
  sub_total <- subheader df (header_row + 1) j ;;
  sub_cit <- subheader df (header_row + 1) (j + 1) ;;
  let total_idx :=
    if startswith (txt "total") (lower sub_total) then Some j else None in
  let citizen_idx :=
    if startswith (txt "citizen") (lower sub_cit) then Some (j + 1) else None in
  let citizen_idx :=
    match total_idx with
    | None =>
        if startswith (txt "citizen") (lower sub_total) then Some j
        else citizen_idx
    | Some _ => citizen_idx
    end in
  let total_idx :=
    match citizen_idx with
    | None =>
        if startswith (txt "total") (lower sub_cit) then Some (j + 1)
        else total_idx
    | Some _ => total_idx
    end in
  Ok (total_idx, citizen_idx).

(** Lines 86-101 *)
Definition build_year_map (df : DataFrame) (header_row : nat)
  : result year_map :=
  for_each
    (fun (ym : year_map) j =>
       v <- iat df header_row j ;;
       let cell := strip (py_str v) in
       if is_year_cell cell then
         year <- py_int cell ;;
         cols <- subheader_columns df header_row j ;;
         Ok (dict_set year cols ym)
       else Ok ym)
    (range 1 (n_cols df)) [].

(** Lines 113-121 for one entry of [year_map] *)
Definition extract_year (df : DataFrame) (i : nat) (state : text)
    (records : list record) (entry : Z * (option nat * option nat))
  : result (list record) :=
  let '(year, (total_idx, citizen_idx)) := entry in
  match a5b_col_idx total_idx citizen_idx with
  | None => Ok records
  | Some c =>
      if n_cols df <=? c then Ok records
      else
        val <- iat df i c ;;
        turnout <- clean_percentage_like val ;;
        match turnout with
        | None => Ok records
        | Some t =>
            Ok (records ++ [ {| year := year; state := state; turnout := t |} ])
        end
  end.

(** Line 110 *)
Definition skip_state (state : text) : bool :=
  negb (nonempty state) || text_eqb state (txt "nan")
  || text_eqb (lower state) (txt "united states").

(** Lines 108-121 for one data row *)
Definition parse_row (df : DataFrame) (year_map : year_map) (i : nat)
    (records : list record) : result (list record) :=
  cell0 <- iat df i 0 ;;
  let state := strip (py_str cell0) in
  if skip_state state then Ok records
  else for_each (extract_year df i state) year_map records.

(** Lines 75-124 on the frame that [dropna] leaves *)
Definition normalize_frame (df : DataFrame) : result (list record) :=
  header_row <- find_state_row df (range 0 (Nat.min 20 (n_rows df))) ;;
  match header_row with
  | None => Raise (ValueError_msg no_state_row_message)
  | Some header_row =>
      year_map <- build_year_map df header_row ;;
      if negb (nonempty year_map)
      then Raise (ValueError_msg no_year_columns_message)
      else
        records <-
          for_each (fun records i => parse_row df year_map i records)
                   (range (header_row + 2) (n_rows df)) [] ;;
        Ok (sort_records records)
  end.

(** [normalize_a5b], from the sheet that [pd.read_excel] returns *)
Definition normalize_a5b (sheet : DataFrame) : result (list record) :=
  normalize_frame (dropna_cols (dropna_rows sheet)).

End A5b.
(* ===================================================================== *)
(** ** [normalize_turnout.py] *)
(* ===================================================================== *)

Module Turnout.

(** What a call can raise here, beyond the exceptions of the census
    modules: [next()] on an exhausted reader, and iterating [None]. *)
Inductive raised : Type :=
| Py (e : exn)
| StopIteration
| TypeError_not_iterable.

Inductive outcome (A : Type) : Type :=
| Done (a : A)
| Fail (e : raised).

Arguments Done {A} a.
Arguments Fail {A} e.

Definition and_then {A B} (m : outcome A) (k : A -> outcome B) : outcome B :=
  match m with
  | Done a => k a
  | Fail e => Fail e
  end.

Notation "x <~ m ;; k" := (and_then m (fun x => k))
  (at level 61, m at next level, right associativity).

(** [for x in l: s = f(s, x)] *)
Fixpoint each {A S} (f : S -> A -> outcome S) (l : list A) (s : S)
  : outcome S :=
  match l with
  | [] => Done s
  | x :: r => s' <~ f s x ;; each f r s'
  end.

(** [float(s)]: the value, or [ValueError] *)
Definition py_float (s : text) : outcome float :=
  match py_float_of_text s with
  | Ok x => Done x
  | _ => Fail (Py (ValueError_float s))
  end.

(** [int(s)]: the value, or the [ValueError] that [int()] raises *)
Definition py_int_of (s : text) : outcome Z :=
  match py_int_limited s with
  | Ok z => Done z
  | Raise e => Fail (Py e)
  | OutOfFuel => Fail (Py (ValueError_int s))
  end.

(** Lines 15-20.  [value] is a [str] or [None]. *)
Definition clean_percentage (value : option text) : outcome (option float) :=
  match value with
  | None => Done None
  | Some v =>
      if negb (nonempty v) || text_eqb (strip v) [] then Done None
      else
        x <~ py_float (remove_char "%"%char (strip v)) ;;
        Done (Some x)
  end.

(** [row[idx]] once [len(row)] has been checked *)
Definition field (row : list text) (idx : nat) : text := nth idx row [].

Fixpoint index_where {A} (p : A -> bool) (l : list A) : option nat :=
  match l with
  | [] => None
  | x :: r => if p x then Some 0 else option_map S (index_where p r)
  end.

Definition possible_turnout_columns : list text :=
  [ txt "VEP Highest Office";
    txt "VEP Turnout Rate (Highest Office)";
    txt "VEP Turnout Rate (highest office)";
    txt "VEP turnout rate (Highest Office)" ].

Definition no_turnout_column_message (file_path : text) (headers : list text)
  : string :=
  string_of_list_ascii
    (txt "Could not find VEP turnout column in " ++ file_path
     ++ txt ". Headers: " ++ py_repr_text_list headers).

(** Lines 55-73 for one row *)
Definition row_2016_2020 (year : Z) (turnout_idx : nat)
    (records : list record) (row : list text) : outcome (list record) :=
  if length row <=? Nat.max 0 turnout_idx then Done records
  else
    let state := strip (field row 0) in
    let turnout_raw := strip (field row turnout_idx) in
    if negb (nonempty state) || text_eqb state (txt "United States")
       || startswith (txt "Note:") state || startswith (txt "*") state
    then Done records
    else
      turnout <~ clean_percentage (Some turnout_raw) ;;
      match turnout with
      | Some t =>
          Done (records ++ [ {| year := year; state := state; turnout := t |} ])
      | None => Done records
      end.

(** Lines 23-75, on the rows that [csv.reader] yields; [file_path] is the
    path as text. *)
Definition process_2016_2020 (file_path : text) (rows : list (list text))
    (year : Z) : outcome (list record) :=
  match rows with
  | [] => Fail StopIteration
  | _ :: [] => Fail StopIteration
  | _ :: headers :: data =>
      match
        index_where (fun header => existsb (text_eqb header)
                                           possible_turnout_columns) headers
      with
      | None =>
          Fail (Py (ValueError_msg (no_turnout_column_message file_path headers)))
      | Some turnout_idx => each (row_2016_2020 year turnout_idx) data []
      end
  end.

Definition no_vep_column_message : string :=
  "Could not find 'VEP Highest Office' column".

(** Lines 103-122 for one row *)
Definition row_1980_2014 (turnout_idx : nat) (records : list record)
    (row : list text) : outcome (list record) :=
  if length row <=? Nat.max (Nat.max 0 3) turnout_idx then Done records
  else
    let year := strip (field row 0) in
    let state := strip (field row 3) in
    let turnout_raw := strip (field row turnout_idx) in
    if negb (nonempty year) || negb (isdigit year)
       || text_eqb state (txt "United States")
    then Done records
    else
      turnout <~ clean_percentage (Some turnout_raw) ;;
      match turnout with
      | Some t =>
          y <~ py_int_of year ;;
          Done (records ++ [ {| year := y; state := state; turnout := t |} ])
      | None => Done records
      end.

(** Lines 78-124 *)
Definition process_1980_2014 (rows : list (list text))
  : outcome (list record) :=
  match rows with
  | [] => Fail StopIteration
  | _ :: [] => Fail StopIteration
  | _ :: headers :: data =>
      match index_where (fun header => text_eqb header (txt "VEP Highest Office"))
                        headers with
      | None => Fail (Py (ValueError_msg no_vep_column_message))
      | Some turnout_idx => each (row_1980_2014 turnout_idx) data []
      end
  end.

(** The [dict] that [csv.DictReader] builds for one row: the fields by
    name, [None] for the names beyond the end of a short row. *)
Definition dict_row (fieldnames row : list text) : list (text * option text) :=
  fold_left (fun d key => tdict_set key None d)
            (skipn (length row) fieldnames)
            (tdict_of (combine fieldnames (map Some row))).

(** [row.get(key)] for a [str] key *)
Definition row_get (d : list (text * option text)) (key : text) : option text :=
  match tdict_get key d with
  | Some v => v
  | None => None
  end.

Definition vep_keys : list text :=
  [ txt "vep_turnout_rate"; txt "vep turnout rate";
    txt "vep turnout rate (highest office)" ].

(** [str(key)] inside the message, [None] for a missing key *)
Definition show_key (key : option text) : text :=
  match key with
  | Some k => k
  | None => txt "None"
  end.

Definition missing_columns_message (state_key turnout_key : option text)
  : string :=
  string_of_list_ascii
    (txt "Could not find required columns in 2024 file. State: "
     ++ show_key state_key ++ txt ", Turnout: " ++ show_key turnout_key
     ++ txt ".").

(** [x or ''] *)
Definition or_empty (v : option text) : text :=
  match v with
  | Some s => s
  | None => []
  end.

(** Truth of an optional [str]: present and not empty *)
Definition truthy (v : option text) : bool :=
  match v with
  | Some s => nonempty s
  | None => false
  end.

(** Lines 164-178 for one row *)
Definition row_2024 (fieldnames : list text) (state_key turnout_key : text)
    (records : list record) (row : list text) : outcome (list record) :=
  match row with
  | [] => Done records
  | _ :: _ =>
      let d := dict_row fieldnames row in
      let state := strip (or_empty (row_get d state_key)) in
      if negb (nonempty state) || text_eqb state (txt "United States")
      then Done records
      else
        let turnout_raw := strip (or_empty (row_get d turnout_key)) in
        turnout <~ clean_percentage (Some turnout_raw) ;;
        match turnout with
        | None => Done records
        | Some t =>
            Done (records ++ [ {| year := 2024; state := state; turnout := t |} ])
        end
  end.

(** Lines 127-180, on the rows that [csv.reader] yields: the first row
    gives the field names of the [DictReader], which passes over empty
    rows. *)
Definition process_2024 (rows : list (list text)) : outcome (list record) :=
  match rows with
  | [] => Fail TypeError_not_iterable
  | reader_fieldnames :: data =>
      let fieldnames := map strip reader_fieldnames in
      let key_map := tdict_of (map (fun name => (lower (strip name), strip name))
                                   fieldnames) in
      let state_key := tdict_get (txt "state") key_map in
      let turnout_key :=
        match find (fun k => truthy (tdict_get k key_map)) vep_keys with
        | Some k => tdict_get k key_map
        | None => None
        end in
      match state_key, turnout_key with
      | Some sk, Some tk =>
          if nonempty sk && nonempty tk
          then each (row_2024 reader_fieldnames sk tk) data []
          else Fail (Py (ValueError_msg
                           (missing_columns_message state_key turnout_key)))
      | _, _ =>
          Fail (Py (ValueError_msg
                      (missing_columns_message state_key turnout_key)))
      end
  end.

End Turnout.

(** *** More sample data *)

(** Three years, then a row that repeats them directly below the anchor *)
Definition stacked_header_frame : DataFrame :=
  frame
    [ [str ""; PyInt 2020; PyInt 2016; PyInt 2012];
      [str "Total"; PyInt 2020; PyInt 2016; PyInt 2012];
      [str "Alabama"; str "60.5"; str "59.1"; str "55.0"];
      [str ""; PyInt 2008; PyInt 2004; PyInt 2000];
      [str ""; str "Total"; str "Total"; str "Total"];
      [str "Alaska"; str "60.2"; str "61.3"; str "58.7"] ].

(** A cell of the frame makes the run fail with [e]: the text of a cell
    past column 0 on which the year recogniser raises, or a whole number
    that [float()] cannot hold. *)
Definition cell_failure (df : DataFrame) (e : exn) : Prop :=
  (exists r j, r < n_rows df /\ 1 <= j < n_cols df /\
               is_year_str (py_str (values df r j)) = Raise e) \/
  (exists r c n, r < n_rows df /\ c < n_cols df /\
                 values df r c = PyInt n /\ py_float_of_int n = Raise e).

(** *** Sample sheets of [normalize_census_a5b.py] *)

Definition registration_sheet : DataFrame :=
  frame
    [ [str "Table A-5b"; NaN; NaN; NaN; NaN];
      [str " State "; PyInt 2020; NaN; PyInt 2016; NaN];
      [NaN; str "Total"; str "Citizen"; str "Total"; str "Citizen"];
      [str "United States"; str "66.7"; str "72.7"; str "64.2"; str "70.3"];
      [str "Alaska"; str "65.1%"; str "69.0"; str "NaN"; str "71.3"];
      [str "Alabama"; PyFloat double_63_6; str "68.0"; str "n/a"; str "69.2"] ].

Definition registration_records : list record :=
  Eval vm_compute in records_or_nil (A5b.normalize_a5b registration_sheet).

(** The label [State] below the twentieth row *)
Definition late_header_sheet : DataFrame :=
  frame
    (repeat [str "note"; str "x"] 20
     ++ [ [str "State"; PyInt 2020];
          [str ""; str "Total"];
          [str "Alabama"; str "60.5"] ]).

(** The label [State] in the last row *)
Definition header_last_sheet : DataFrame :=
  frame
    [ [str "Registration"; str "by state"; str ""];
      [str "State"; str "n"; PyInt 2020] ].

(** *** Sample column names for [pick_column] *)

Definition sample_columns : list text :=
  [txt "State"; txt "STATE"; txt "Turnout Rate"].

(** The characters of a literal that [float()] accepts: white space,
    decimal digits, the underscore, the signs, the point, and the letters
    of [e], [inf], [infinity] and [nan] in either case. *)
Definition float_char (c : ascii) : bool :=
  isspace_num c || isdecimal_char c || is_code 95 c || is_code 43 c
  || is_code 45 c || is_code 46 c
  || existsb (fun l => (code (lower_char c) =? code l)%N) (txt "infinityae").

(** *** Sample files of [normalize_turnout.py], as the rows that
    [csv.reader] yields *)

Definition rows_2020 : list (list text) :=
  [ [txt ""; txt "Turnout Rates"];
    [txt "State"; txt "Total Ballots"; txt "VEP Turnout Rate (Highest Office)"];
    [txt "United States"; txt "159,738,337"; txt "66.6%"];
    [txt "Alabama"; txt "2,325,000"; txt "63.1%"];
    [txt " Alaska "; txt "361,400"; txt " 68.8% "];
    [txt "Note: preliminary"];
    [txt "Arizona"; txt "3,420,565"; txt ""] ].

Definition records_2020 : list record :=
  Eval vm_compute in
    match Turnout.process_2016_2020 (txt "2020.csv") rows_2020 2020 with
    | Turnout.Done recs => recs
    | Turnout.Fail _ => []
    end.

(** A turnout cell that is not a number *)
Definition rows_2020_bad : list (list text) :=
  [ [txt ""; txt "Turnout Rates"];
    [txt "State"; txt "VEP Highest Office"];
    [txt "Alabama"; txt "63.1%"];
    [txt "Alaska"; txt "N/A"] ].

Definition rows_1980_2014 : list (list text) :=
  [ [txt ""; txt "Turnout Rates"];
    [txt "Year"; txt "ICPSR"; txt "Alpha"; txt "State"; txt "VEP Highest Office"];
    [txt "2014"; txt ""; txt ""; txt "United States"; txt "36.7%"];
    [txt "2014"; txt "41"; txt "AL"; txt "Alabama"; txt "33.2%"];
    [txt "2014"; txt "81"; txt "AK"; txt ""; txt "54.8%"];
    [txt "Note"; txt ""; txt ""; txt "Alaska"; txt "54.8%"];
    [txt "2012"; txt "41"; txt "AL"; txt "Alabama"] ].

Definition records_1980_2014 : list record :=
  Eval vm_compute in
    match Turnout.process_1980_2014 rows_1980_2014 with
    | Turnout.Done recs => recs
    | Turnout.Fail _ => []
    end.

(** A year with a footnote mark, the superscript two *)
Definition rows_1980_2014_footnoted : list (list text) :=
  [ [txt ""; txt "Turnout Rates"];
    [txt "Year"; txt "ICPSR"; txt "Alpha"; txt "State"; txt "VEP Highest Office"];
    [txt "2014"; txt "41"; txt "AL"; txt "Alabama"; txt "33.2%"];
    [footnoted_year; txt "81"; txt "AK"; txt "Alaska"; txt "54.8%"] ].

(** The [key_map] of [process_2024] (lines 141-143) for the field names
    of the reader: trimmed lower-case name to trimmed name. *)
Definition key_map_2024 (reader_fieldnames : list text) : list (text * text) :=
  tdict_of (map (fun name => (lower (strip name), strip name))
                (map strip reader_fieldnames)).

Definition rows_2024 : list (list text) :=
  [ [txt "STATE"; txt "VEP_TURNOUT_RATE"; txt "NOTE"];
    [txt "United States"; txt "63.60%"; txt ""];
    [txt "Alabama"; txt "58.5%"; txt "x"];
    [];
    [txt " Alaska "];
    [txt "Arizona"; txt "63.6%"] ].

Definition records_2024 : list record :=
  Eval vm_compute in
    match Turnout.process_2024 rows_2024 with
    | Turnout.Done recs => recs
    | Turnout.Fail _ => []
    end.

(** The same file with a space after the first name of the header *)
Definition rows_2024_padded : list (list text) :=
  [ [txt "STATE "; txt "VEP_TURNOUT_RATE"];
    [txt "Alabama"; txt "58.5%"];
    [txt "Arizona"; txt "63.6%"] ].

Definition rows_2024_bad : list (list text) :=
  [ [txt "State"; txt "VEP Turnout Rate"];
    [txt "Alabama"; txt "n/a"] ].

(** Sub-headers in the order citizen, total *)
Definition reversed_sheet : DataFrame :=
  frame
    [ [str "State"; PyInt 2020; NaN];
      [NaN; str "Citizen"; str "Total"];
      [str "Alabama"; str "68.0"; str "63.1"] ].

(* ===================================================================== *)
(** ** [normalize_turnout.py] : the files as they are read *)
(* ===================================================================== *)

(** What opening and reading a file can raise: [open()] and the reads
    raise [OSError], the decoding of the bytes raises
    [UnicodeDecodeError], the [csv] module raises [csv.Error]. *)
Inductive read_error : Type :=
| OSError
| UnicodeDecodeError
| csv_Error.

(** A file as [process_2016_2020] and [process_2024] see it: one that
    [open()] refuses, or one whose reader yields [rows], one at each read,
    and then comes to the end of the file, or raises [ending] at the next
    read. *)
Inductive csv_file : Type :=
| Unopened
| Opened (rows : list (list text)) (ending : option read_error).

Inductive file_raised : Type :=
| Raised (e : Turnout.raised)
| ReadError (e : read_error).

Inductive file_outcome (A : Type) : Type :=
| Returned (a : A)
| Failed (e : file_raised).

Arguments Returned {A} a.
Arguments Failed {A} e.

(** [next(reader)]: the row read and the rows still to come *)
Definition next_row (rows : list (list text)) (ending : option read_error)
  : file_outcome (list text * list (list text)) :=
  match rows with
  | row :: rest => Returned (row, rest)
  | [] =>
      match ending with
      | Some e => Failed (ReadError e)
      | None => Failed (Raised Turnout.StopIteration)
      end
  end.

(** [for row in reader: s = f(s, row)]: each row is read, then handled,
    before the next one is read. *)
Fixpoint for_rows {S} (f : S -> list text -> Turnout.outcome S)
    (rows : list (list text)) (ending : option read_error) (s : S)
  : file_outcome S :=
  match rows with
  | [] =>
      match ending with
      | Some e => Failed (ReadError e)
      | None => Returned s
      end
  | row :: rest =>
      match f s row with
      | Turnout.Done s' => for_rows f rest ending s'
      | Turnout.Fail e => Failed (Raised e)
      end
  end.

(** [process_2016_2020], lines 23-75, from [open()] on *)
Definition process_2016_2020_file (file_path : text) (file : csv_file)
    (year : Z) : file_outcome (list record) :=
  match file with
  | Unopened => Failed (ReadError OSError)
  | Opened rows ending =>
      match next_row rows ending with
      | Failed e => Failed e
      | Returned (_, rows) =>
          match next_row rows ending with
          | Failed e => Failed e
          | Returned (headers, rows) =>
              match
                Turnout.index_where
                  (fun header => existsb (text_eqb header)
                                         Turnout.possible_turnout_columns)
                  headers
              with
              | None =>
                  Failed (Raised (Turnout.Py (ValueError_msg
                    (Turnout.no_turnout_column_message file_path headers))))
              | Some turnout_idx =>
                  for_rows (Turnout.row_2016_2020 year turnout_idx)
                           rows ending []
              end
          end
      end
  end.

(** [process_2024], lines 127-180, from [open()] on.  [reader.fieldnames]
    reads the first row: the end of the file there leaves it [None], an
    error of the read is raised. *)
Definition process_2024_file (file : csv_file) : file_outcome (list record) :=
  match file with
  | Unopened => Failed (ReadError OSError)
  | Opened rows ending =>
      match rows with
      | [] =>
          match ending with
          | Some e => Failed (ReadError e)
          | None => Failed (Raised Turnout.TypeError_not_iterable)
          end
      | reader_fieldnames :: data =>
          let fieldnames := map strip reader_fieldnames in
          let key_map :=
            tdict_of (map (fun name => (lower (strip name), strip name))
                          fieldnames) in
          let state_key := tdict_get (txt "state") key_map in
          let turnout_key :=
            match find (fun k => Turnout.truthy (tdict_get k key_map))
                       Turnout.vep_keys with
            | Some k => tdict_get k key_map
            | None => None
            end in
          match state_key, turnout_key with
          | Some sk, Some tk =>
              if nonempty sk && nonempty tk
              then for_rows (Turnout.row_2024 reader_fieldnames sk tk)
                            data ending []
              else Failed (Raised (Turnout.Py (ValueError_msg
                     (Turnout.missing_columns_message state_key turnout_key))))
          | _, _ =>
              Failed (Raised (Turnout.Py (ValueError_msg
                (Turnout.missing_columns_message state_key turnout_key))))
          end
      end
  end.

(** What is left of an outcome on the rows when the reader then ends or
    raises *)
Definition after_reading {A} (m : Turnout.outcome A)
    (ending : option read_error) : file_outcome A :=
  match m with
  | Turnout.Fail e => Failed (Raised e)
  | Turnout.Done a =>
      match ending with
      | Some e => Failed (ReadError e)
      | None => Returned a
      end
  end.

(** A file that cannot be decoded after its second data row *)
Definition file_2020_undecodable : csv_file :=
  Opened
    [ [txt ""; txt "Turnout Rates"];
      [txt "State"; txt "VEP Highest Office"];
      [txt "Alabama"; txt "63.1%"];
      [txt "Alaska"; txt "68.8%"] ]
    (Some UnicodeDecodeError).


(* ===================================================================== *)
(** * Properties *)
(* ===================================================================== *)

(** ** The result monad and [for_each] *)

Lemma bind_Ok {A B} (m : result A) (k : A -> result B) (b : B) :
  bind m k = Ok b -> exists a, m = Ok a /\ k a = Ok b.
Proof. destruct m; simpl; intros H; try discriminate; eauto. Qed.

Tactic Notation "bind_inv" hyp(H) "as" ident(a) ident(Ha) :=
  apply bind_Ok in H; destruct H as (a & Ha & H).

(** A loop that only appends to its accumulator collects. *)
Lemma for_each_collect {A B} (f : list B -> A -> result (list B))
    (g : A -> result (list B)) :
  (forall acc x, f acc x = (ys <- g x ;; Ok (acc ++ ys))) ->
  forall l acc, for_each f l acc = (ys <- collect g l ;; Ok (acc ++ ys)).
Proof.
  intros Hf l; induction l as [|x r IH]; intros acc; simpl.
  - now rewrite app_nil_r.
  - rewrite Hf. destruct (g x) as [ys| |]; simpl; auto.
    rewrite IH. destruct (collect g r) as [zs| |]; simpl; auto.
    now rewrite app_assoc.
Qed.

Lemma collect_Ok {A B} (g : A -> result (list B)) l out :
  collect g l = Ok out ->
  exists per, Forall2 (fun x ys => g x = Ok ys) l per /\ out = concat per.
Proof.
  revert out; induction l as [|x r IH]; simpl; intros out H.
  - injection H as <-. exists []. split; [constructor | reflexivity].
  - bind_inv H as ys Hys. bind_inv H as zs Hzs. injection H as <-.
    destruct (IH _ Hzs) as (per & HF & ->).
    exists (ys :: per). split; [constructor; assumption | reflexivity].
Qed.

Lemma collect_app {A B} (g : A -> result (list B)) l1 l2 :
  collect g (l1 ++ l2) =
  (ys <- collect g l1 ;; zs <- collect g l2 ;; Ok (ys ++ zs)).
Proof.
  induction l1 as [|x r IH]; simpl.
  - destruct (collect g l2); reflexivity.
  - destruct (g x) as [ys| |]; simpl; auto. rewrite IH.
    destruct (collect g r) as [zs| |]; simpl; auto.
    destruct (collect g l2) as [ws| |]; simpl; auto.
    now rewrite app_assoc.
Qed.

(** ** Characters and text *)

Ltac by_char c :=
  destruct c as [[|] [|] [|] [|] [|] [|] [|] [|]];
  vm_compute in *; try reflexivity; try discriminate; try congruence; auto.

Lemma isdecimal_isdigit c : isdecimal_char c = true -> isdigit_char c = true.
Proof. unfold isdigit_char. now intros ->. Qed.

Lemma isdigit_not_space c : isdigit_char c = true -> isspace_char c = false.
Proof. by_char c. Qed.

Lemma isdigit_not_space_num c : isdigit_char c = true -> isspace_num c = false.
Proof. by_char c. Qed.

Lemma isspace_num_isspace c : isspace_num c = true -> isspace_char c = true.
Proof. by_char c. Qed.

Lemma isdigit_not_sign c :
  isdigit_char c = true -> is_code 43 c = false /\ is_code 45 c = false.
Proof. by_char c. Qed.

Lemma isdigit_not_underscore c : isdigit_char c = true -> is_code 95 c = false.
Proof. by_char c. Qed.

Lemma text_eqb_eq a b : text_eqb a b = true <-> a = b.
Proof.
  unfold text_eqb. destruct (list_eq_dec ascii_dec a b); split; intros; congruence.
Qed.

Lemma code_inj a b : code a = code b -> a = b.
Proof.
  unfold code. intros H. rewrite <- (ascii_N_embedding a), <- (ascii_N_embedding b).
  now rewrite H.
Qed.

Lemma code_eqb_eq a b : (code a =? code b)%N = true <-> a = b.
Proof.
  rewrite N.eqb_eq. split; [apply code_inj | now intros ->].
Qed.

Lemma startswith_app p s : startswith p (p ++ s) = true.
Proof.
  induction p as [|a p IH]; simpl; auto. now rewrite N.eqb_refl.
Qed.

Lemma startswith_iff p s : startswith p s = true <-> exists r, s = p ++ r.
Proof.
  split.
  - revert s; induction p as [|a p IH]; intros s H.
    + now exists s.
    + destruct s as [|b s]; simpl in H; [discriminate|].
      apply andb_true_iff in H as [Hab H]. apply code_eqb_eq in Hab as ->.
      destruct (IH _ H) as [r ->]. now exists r.
  - intros [r ->]. apply startswith_app.
Qed.

(** *** [strip] *)

Section Strip.
Variable sp : ascii -> bool.

Lemma lstrip_by_spaces ws s :
  forallb sp ws = true -> lstrip_by sp (ws ++ s) = lstrip_by sp s.
Proof.
  induction ws as [|c ws IH]; simpl; auto.
  intros H. apply andb_true_iff in H as [-> H]. auto.
Qed.

Lemma lstrip_by_head c s : sp c = false -> lstrip_by sp (c :: s) = c :: s.
Proof. simpl. now intros ->. Qed.

Lemma lstrip_by_all ws : forallb sp ws = true -> lstrip_by sp ws = [].
Proof.
  intros H. rewrite <- (app_nil_r ws). now rewrite lstrip_by_spaces.
Qed.

Lemma lstrip_by_split s :
  exists ws, s = ws ++ lstrip_by sp s /\ forallb sp ws = true.
Proof.
  induction s as [|c s (ws & Hs & Hws)]; simpl.
  - now exists [].
  - destruct (sp c) eqn:Hc.
    + exists (c :: ws). simpl. rewrite Hc, Hws. split; [congruence | reflexivity].
    + now exists [].
Qed.

Lemma lstrip_by_cases s :
  (lstrip_by sp s = [] /\ forallb sp s = true) \/
  (exists c r, lstrip_by sp s = c :: r /\ sp c = false).
Proof.
  induction s as [|c s IH]; simpl.
  - now left.
  - destruct (sp c) eqn:Hc; simpl; [exact IH | right; eauto].
Qed.

Lemma lstrip_by_idem s : lstrip_by sp (lstrip_by sp s) = lstrip_by sp s.
Proof.
  destruct (lstrip_by_cases s) as [[-> _] | (c & r & -> & Hc)]; simpl; auto.
  now rewrite Hc.
Qed.

Lemma rstrip_by_spaces s ws :
  forallb sp ws = true -> rstrip_by sp (s ++ ws) = rstrip_by sp s.
Proof.
  intros H. unfold rstrip_by. rewrite rev_app_distr, lstrip_by_spaces; auto.
  rewrite forallb_forall in *. intros x Hx. apply H. now apply in_rev.
Qed.

Lemma rstrip_by_last s c : sp c = false -> rstrip_by sp (s ++ [c]) = s ++ [c].
Proof.
  intros H. unfold rstrip_by. rewrite rev_app_distr. simpl. rewrite H.
  simpl. now rewrite rev_involutive.
Qed.

Lemma rstrip_by_nil : rstrip_by sp [] = [].
Proof. reflexivity. Qed.

Lemma rstrip_by_split s :
  exists ws, s = rstrip_by sp s ++ ws /\ forallb sp ws = true.
Proof.
  unfold rstrip_by. destruct (lstrip_by_split (rev s)) as (ws & Hs & Hws).
  exists (rev ws). split.
  - rewrite <- rev_app_distr, <- Hs. now rewrite rev_involutive.
  - rewrite forallb_forall in *. intros x Hx. apply Hws. now apply in_rev.
Qed.

Lemma rstrip_by_cases s :
  (rstrip_by sp s = [] /\ forallb sp s = true) \/
  (exists r c, rstrip_by sp s = r ++ [c] /\ sp c = false).
Proof.
  unfold rstrip_by.
  destruct (lstrip_by_cases (rev s)) as [[-> H] | (c & r & -> & Hc)].
  - left. split; auto. rewrite forallb_forall in *. intros x Hx.
    apply H. now apply -> in_rev.
  - right. exists (rev r), c. simpl. auto.
Qed.

(** Stripping ignores white space around the argument. *)
Lemma strip_by_pad ws1 s ws2 :
  forallb sp ws1 = true -> forallb sp ws2 = true ->
  strip_by sp (ws1 ++ s ++ ws2) = strip_by sp s.
Proof.
  intros H1 H2. unfold strip_by. rewrite lstrip_by_spaces by assumption.
  destruct (lstrip_by_cases s) as [[Hs Hall] | (c & r & Hs & Hc)].
  - rewrite Hs, lstrip_by_all; auto.
    rewrite forallb_app. now rewrite Hall, H2.
  - destruct (lstrip_by_split s) as (ws & Hsplit & Hws).
    rewrite Hsplit at 1. rewrite <- app_assoc, lstrip_by_spaces by assumption.
    rewrite Hs. simpl. rewrite Hc.
    change (c :: r ++ ws2) with ((c :: r) ++ ws2).
    now rewrite rstrip_by_spaces.
Qed.

Lemma strip_by_split s :
  exists ws1 ws2, s = ws1 ++ strip_by sp s ++ ws2
                  /\ forallb sp ws1 = true /\ forallb sp ws2 = true.
Proof.
  destruct (lstrip_by_split s) as (ws1 & H1 & Hw1).
  destruct (rstrip_by_split (lstrip_by sp s)) as (ws2 & H2 & Hw2).
  exists ws1, ws2. unfold strip_by. rewrite <- H2. auto.
Qed.

Lemma strip_by_idem s : strip_by sp (strip_by sp s) = strip_by sp s.
Proof.
  destruct (strip_by_split s) as (ws1 & ws2 & Hs & H1 & H2).
  rewrite Hs at 2. now rewrite strip_by_pad.
Qed.

(** A text that neither begins nor ends with white space is its own
    stripped form. *)
Lemma strip_by_fixed c s d :
  sp c = false -> sp d = false -> strip_by sp (c :: s ++ [d]) = c :: s ++ [d].
Proof.
  intros Hc Hd. unfold strip_by. rewrite lstrip_by_head by assumption.
  change (c :: s ++ [d]) with ((c :: s) ++ [d]). now apply rstrip_by_last.
Qed.

Lemma strip_by_single c : sp c = false -> strip_by sp [c] = [c].
Proof.
  intros Hc. unfold strip_by. rewrite lstrip_by_head by assumption.
  now apply (rstrip_by_last []).
Qed.

Lemma strip_by_nospace s :
  forallb (fun c => negb (sp c)) s = true -> strip_by sp s = s.
Proof.
  intros H. destruct s as [|c s]; [reflexivity|].
  simpl in H. apply andb_true_iff in H as [Hc H].
  apply negb_true_iff in Hc.
  destruct (exists_last (l := c :: s)) as (r & d & Hr); [discriminate|].
  destruct r as [|c' r]; simpl in Hr.
  - injection Hr as -> ->. now apply strip_by_single.
  - injection Hr as -> ->. apply strip_by_fixed; auto.
    rewrite forallb_app in H. apply andb_true_iff in H as [_ H].
    simpl in H. rewrite andb_true_r in H. now apply negb_true_iff.
Qed.
End Strip.

Lemma strip_idem s : strip (strip s) = strip s.
Proof. apply strip_by_idem. Qed.

(** ** Termination of the model *)

Lemma returns_bind {A B} (m : result A) (k : A -> result B) :
  returns m -> (forall a, returns (k a)) -> returns (bind m k).
Proof. unfold returns. destruct m; simpl; auto; congruence. Qed.

Lemma returns_for_each {A S} (f : S -> A -> result S) l :
  (forall s x, returns (f s x)) -> forall s, returns (for_each f l s).
Proof.
  intros Hf. induction l as [|x r IH]; intros s; simpl.
  - discriminate.
  - apply returns_bind; auto.
Qed.

Lemma returns_Ok {A} (a : A) : returns (Ok a).
Proof. discriminate. Qed.

Lemma returns_Raise {A} e : returns (@Raise A e).
Proof. discriminate. Qed.

Lemma returns_iat df r c : returns (iat df r c).
Proof. unfold iat. destruct (_ && _); discriminate. Qed.

Lemma returns_py_int s : returns (py_int s).
Proof.
  unfold py_int. destruct (split_sign _) as [neg body].
  destruct (ungroup None body); [destruct (_ && _)|]; discriminate.
Qed.

Lemma returns_is_year_str s : returns (is_year_str s).
Proof.
  unfold is_year_str. destruct (_ && _); [|discriminate].
  apply returns_bind; [apply returns_py_int|].
  intros y. destruct (_ && _)%Z; discriminate.
Qed.

Lemma returns_py_float_of_int n : returns (py_float_of_int n).
Proof. unfold py_float_of_int. destruct (binary_normalize _ _ _ _ _); discriminate. Qed.

Lemma returns_py_float_of_text s : returns (py_float_of_text s).
Proof.
  unfold py_float_of_text. destruct (ungroup None _); [|discriminate].
  destruct (split_sign _) as [neg body].
  destruct (_ || _); [discriminate|].
  destruct (text_eqb _ _); [discriminate|].
  destruct (parse_decimal body) as [[m e]|]; discriminate.
Qed.

Lemma returns_clean_percentage_like v : returns (clean_percentage_like v).
Proof.
  destruct v; simpl; try discriminate.
  - apply returns_bind; [apply returns_py_float_of_int | discriminate].
  - apply returns_bind; [apply returns_py_float_of_int | discriminate].
  - destruct (is_nan x); discriminate.
  - destruct (_ || _); [discriminate|]. unfold float_or_None.
    pose proof (returns_py_float_of_text
                  (strip (remove_char ","%char (remove_char "%"%char (strip s))))) as H.
    destruct (py_float_of_text _) as [x|[]|]; try discriminate. contradiction.
Qed.

Create HintDb returns.

#[local] Hint Resolve returns_Ok returns_Raise returns_iat returns_py_int
  returns_is_year_str returns_py_float_of_int returns_py_float_of_text
  returns_clean_percentage_like : returns.

Lemma returns_years_in_row df i : returns (years_in_row df i).
Proof.
  apply returns_for_each. intros years j.
  apply returns_bind; auto with returns. intros v.
  apply returns_bind; auto with returns. intros [y|]; auto with returns.
Qed.

Lemma returns_years_here df r : returns (years_here df r).
Proof.
  apply returns_for_each. intros n j.
  apply returns_bind; auto with returns. intros v.
  apply returns_bind; auto with returns. intros [y|]; auto with returns.
Qed.

Lemma returns_subheader df sub_r j : returns (subheader df sub_r j).
Proof.
  unfold subheader. destruct (j <? n_cols df); auto with returns.
  apply returns_bind; auto with returns.
Qed.

Lemma returns_build_year_map df sub_r years :
  returns (build_year_map df sub_r years).
Proof.
  apply returns_for_each. intros ym [j y].
  apply returns_bind; [|auto with returns].
  unfold subheader_columns.
  apply returns_bind; [apply returns_subheader|]. intros s1.
  apply returns_bind; [apply returns_subheader|]. auto with returns.
Qed.

(** One iteration of the detector's loop *)
Lemma scan_rows_step df fuel i blocks :
  scan_rows df (S fuel) i blocks =
  if i <? n_rows df - 1 then
    years <- years_in_row df i ;;
    if 3 <=? length years then
      if i + 1 <? n_rows df then
        ym <- build_year_map df (i + 1) years ;;
        if nonempty ym
        then scan_rows df fuel (i + 1 + 1) (blocks ++ [(i, ym)])
        else scan_rows df fuel (i + 1) blocks
      else scan_rows df fuel (i + 1) blocks
    else scan_rows df fuel (i + 1) blocks
  else Ok blocks.
Proof. reflexivity. Qed.

(** One iteration of the extractor's loop *)
Lemma parse_rows_step df ym fuel r records :
  parse_rows df ym (S fuel) r records =
  if r <? n_rows df then
    n <- years_here df r ;;
    if 3 <=? n then Ok records
    else
      records' <- parse_row df ym r records ;;
      parse_rows df ym fuel (r + 1) records'
  else Ok records.
Proof. reflexivity. Qed.

Lemma returns_scan_rows df fuel : forall i blocks,
  n_rows df - 1 - i <= fuel -> returns (scan_rows df fuel i blocks).
Proof.
  induction fuel as [|fuel IH]; intros i blocks Hfuel.
  - simpl. destruct (Nat.ltb_spec i (n_rows df - 1)); [lia | discriminate].
  - rewrite scan_rows_step.
    destruct (Nat.ltb_spec i (n_rows df - 1)); [|discriminate].
    apply returns_bind; [apply returns_years_in_row|]. intros years.
    destruct (3 <=? length years); [|apply IH; lia].
    destruct (i + 1 <? n_rows df); [|apply IH; lia].
    apply returns_bind; [apply returns_build_year_map|]. intros ym.
    destruct (nonempty ym); apply IH; lia.
Qed.

(** The detector never runs out of its iteration budget. *)
Lemma returns_find_header_blocks df : returns (find_header_blocks df).
Proof. apply returns_scan_rows. lia. Qed.

Lemma returns_extract_year df r st records entry :
  returns (extract_year df r st records entry).
Proof.
  destruct entry as [y [t c]]. unfold extract_year.
  destruct (col_idx t c); auto with returns.
  destruct (n_cols df <=? n); auto with returns.
  apply returns_bind; auto with returns. intros v.
  apply returns_bind; auto with returns. intros [x|]; auto with returns.
Qed.

Lemma returns_parse_row df ym r records : returns (parse_row df ym r records).
Proof.
  apply returns_bind; auto with returns. intros v. cbv zeta.
  destruct (skip_state (state_label v)); auto with returns.
  apply returns_for_each. intros. apply returns_extract_year.
Qed.

Lemma returns_parse_rows df ym fuel : forall r records,
  n_rows df - r <= fuel -> returns (parse_rows df ym fuel r records).
Proof.
  induction fuel as [|fuel IH]; intros r records Hfuel.
  - simpl. destruct (Nat.ltb_spec r (n_rows df)); [lia | discriminate].
  - rewrite parse_rows_step.
    destruct (Nat.ltb_spec r (n_rows df)); [|discriminate].
    apply returns_bind; [apply returns_years_here|]. intros n.
    destruct (3 <=? n); auto with returns.
    apply returns_bind; [apply returns_parse_row|]. intros recs.
    apply IH. lia.
Qed.

(** The row extractor never runs out of its iteration budget. *)
Lemma returns_parse_block df header_row ym :
  returns (parse_block df header_row ym).
Proof. apply returns_parse_rows. lia. Qed.

Lemma returns_normalize_frame df : returns (normalize_frame df).
Proof.
  unfold normalize_frame, normalize_frame_with.
  apply returns_bind; [apply returns_find_header_blocks|]. intros blocks.
  destruct (negb (nonempty blocks)); auto with returns.
  apply returns_bind; [|auto with returns].
  apply returns_for_each. intros all [a ym].
  apply returns_bind; [apply returns_parse_block | auto with returns].
Qed.

(** ** Period tokens in a row *)

Lemma is_year_str_strip s : is_year_str (strip s) = is_year_str s.
Proof. unfold is_year_str. now rewrite strip_idem. Qed.

Lemma iat_Ok df r c v : iat df r c = Ok v ->
  r < n_rows df /\ c < n_cols df /\ v = values df r c.
Proof.
  unfold iat. destruct (Nat.ltb_spec r (n_rows df)); simpl; [|discriminate].
  destruct (Nat.ltb_spec c (n_cols df)); simpl; [|discriminate].
  intros [= <-]; auto.
Qed.

Lemma iat_in_range df r c :
  r < n_rows df -> c < n_cols df -> iat df r c = Ok (values df r c).
Proof.
  intros Hr Hc. unfold iat.
  apply Nat.ltb_lt in Hr. apply Nat.ltb_lt in Hc. now rewrite Hr, Hc.
Qed.

Lemma years_in_row_collect df i :
  years_in_row df i = collect (cell_years df i) (range 1 (n_cols df)).
Proof.
  unfold years_in_row.
  rewrite for_each_collect with (g := cell_years df i).
  - destruct (collect _ _); reflexivity.
  - intros acc j. unfold cell_years.
    destruct (iat df i j) as [v| |]; simpl; auto.
    rewrite is_year_str_strip.
    destruct (is_year_str (py_str v)) as [[y|]| |]; simpl; auto.
    now rewrite app_nil_r.
Qed.

Lemma years_here_collect df r :
  years_here df r =
  (ys <- collect (cell_years df r) (range 1 (n_cols df)) ;; Ok (length ys)).
Proof.
  unfold years_here.
  enough (H : forall l n,
    for_each (fun n j => v <- iat df r j ;; y <- is_year_str (py_str v) ;;
                 match y with Some _ => Ok (n + 1) | None => Ok n end) l n =
    (ys <- collect (cell_years df r) l ;; Ok (n + length ys))) by apply H.
  induction l as [|j l IH]; intros n; simpl.
  - now rewrite Nat.add_0_r.
  - unfold cell_years at 1.
    destruct (iat df r j) as [v| |]; simpl; auto.
    destruct (is_year_str (py_str v)) as [[y|]| |]; simpl; auto;
      rewrite IH; destruct (collect _ l); simpl; auto.
    f_equal. lia.
Qed.

Lemma years_here_header_like df r :
  (n <- years_here df r ;; Ok (3 <=? n)) = header_like df r.
Proof.
  unfold header_like. rewrite years_here_collect, years_in_row_collect.
  destruct (collect _ _); reflexivity.
Qed.

Lemma cell_years_Ok df r j ys :
  cell_years df r j = Ok ys ->
  (exists y, ys = [(j, y)] /\ period_token df r j y) \/
  (ys = [] /\ is_year_str (py_str (values df r j)) = Ok None).
Proof.
  unfold cell_years, period_token. intros H.
  bind_inv H as v Hv. apply iat_Ok in Hv as (_ & _ & ->).
  bind_inv H as oy Hy. destruct oy as [y|]; injection H as <-; eauto.
Qed.

(** The tokens collected on a stretch of columns: ordered by column, all
    of them period tokens, and none missed. *)
Lemma collect_cell_years df r : forall n a years,
  collect (cell_years df r) (seq a n) = Ok years ->
  StronglySorted (fun p q => fst p < fst q) years /\
  Forall (fun p => a <= fst p < a + n /\ period_token df r (fst p) (snd p)) years /\
  (forall j y, a <= j < a + n -> period_token df r j y -> In (j, y) years).
Proof.
  induction n as [|n IH]; intros a years H; simpl in H.
  - injection H as <-. repeat split; try constructor. lia.
  - bind_inv H as ys Hys. bind_inv H as zs Hzs. injection H as <-.
    destruct (IH _ _ Hzs) as (Hs & Hf & Hc).
    assert (Hf' : Forall (fun p => a <= fst p < a + S n /\
                            period_token df r (fst p) (snd p)) zs).
    { eapply Forall_impl; [|exact Hf]. simpl. intros p [? ?]. split; [lia|auto]. }
    destruct (cell_years_Ok _ _ _ _ Hys) as [(y & -> & Hy) | [-> Hnone]]; simpl.
    + split; [|split].
      * constructor; auto. eapply Forall_impl; [|exact Hf]. simpl. intros p [? _]. lia.
      * constructor; auto. simpl. split; [lia|auto].
      * intros j y' Hj Hy'. destruct (Nat.eq_dec j a) as [->|Hne].
        -- left. unfold period_token in *. congruence.
        -- right. apply Hc; auto. lia.
    + split; [|split]; auto.
      intros j y' Hj Hy'. destruct (Nat.eq_dec j a) as [->|Hne].
      * unfold period_token in Hy'. congruence.
      * apply Hc; auto. lia.
Qed.

Lemma years_in_row_spec df r years :
  years_in_row df r = Ok years ->
  StronglySorted (fun p q => fst p < fst q) years /\
  Forall (fun p => 1 <= fst p < n_cols df /\
                   period_token df r (fst p) (snd p)) years /\
  (forall j y, 1 <= j < n_cols df -> period_token df r j y -> In (j, y) years).
Proof.
  rewrite years_in_row_collect. unfold range. intros H.
  destruct (collect_cell_years _ _ _ _ _ H) as (Hs & Hf & Hc).
  split; [exact Hs|split].
  - eapply Forall_impl; [|exact Hf]. simpl. intros p [? ?]. split; [lia|auto].
  - intros j y Hj. apply Hc. lia.
Qed.

Lemma three_years_tokens df r years :
  years_in_row df r = Ok years ->
  (3 <= length years <-> three_period_tokens df r).
Proof.
  intros H. destruct (years_in_row_spec _ _ _ H) as (Hs & Hf & Hc). split.
  - intros Hlen.
    destruct years as [|[j1 y1] [|[j2 y2] [|[j3 y3] rest]]]; simpl in Hlen; try lia.
    inversion Hs as [|? ? Hs1 H1]; subst.
    inversion Hs1 as [|? ? Hs2 H2]; subst.
    inversion H1 as [|? ? H12 _]; subst. inversion H2 as [|? ? H23 _]; subst.
    inversion Hf as [|? ? [R1 T1] Hf1]; subst.
    inversion Hf1 as [|? ? [R2 T2] Hf2]; subst.
    inversion Hf2 as [|? ? [R3 T3] _]; subst. simpl in *.
    exists j1, j2, j3, y1, y2, y3. repeat split; auto; lia.
  - intros (j1 & j2 & j3 & y1 & y2 & y3 & H1 & H12 & H23 & H3 & T1 & T2 & T3).
    change 3 with (length [(j1, y1); (j2, y2); (j3, y3)]).
    apply NoDup_incl_length.
    + repeat constructor; simpl; intuition (try congruence);
        match goal with E : (_, _) = (_, _) |- _ => injection E; lia end.
    + intros p [<-|[<-|[<-|[]]]]; apply Hc; auto; lia.
Qed.

(** [header_like] decides [three_period_tokens]. *)
Lemma header_like_spec df r b :
  header_like df r = Ok b -> (b = true <-> three_period_tokens df r).
Proof.
  unfold header_like. intros H. bind_inv H as years Hy.
  assert (Hb : b = (3 <=? length years)) by congruence.
  rewrite Hb, Nat.leb_le. now apply three_years_tokens.
Qed.

(** ** The year map of a block *)

Lemma for_each_invariant {A S} (P : S -> Prop) (f : S -> A -> result S) :
  forall l s out,
  P s ->
  (forall s x s', In x l -> P s -> f s x = Ok s' -> P s') ->
  for_each f l s = Ok out -> P out.
Proof.
  induction l as [|x r IH]; simpl; intros s out Hs Hf H.
  - now injection H as <-.
  - bind_inv H as s' Hs'. eapply IH; [| |exact H]; eauto.
Qed.

Lemma dict_set_In {V} k (v : V) d k' v' :
  In (k', v') (dict_set k v d) -> (k' = k /\ v' = v) \/ In (k', v') d.
Proof.
  induction d as [|[k0 v0] d IH]; simpl.
  - intros [[= <- <-]|[]]. auto.
  - destruct (Z.eqb_spec k0 k) as [->|Hne]; simpl.
    + intros [[= <- <-]|H]; auto.
    + intros [H|H]; auto. destruct (IH H); auto.
Qed.

Lemma dict_set_nonempty {V} k (v : V) d : nonempty (dict_set k v d) = true.
Proof. destruct d as [|[k0 v0] d]; simpl; auto. now destruct (k0 =? k)%Z. Qed.

Lemma subheader_Ok df sub_r j s v :
  subheader df sub_r j = Ok s ->
  v <> [] ->
  startswith v s = names_variant df sub_r v j.
Proof.
  unfold subheader, names_variant. intros H Hv.
  destruct (j <? n_cols df); simpl.
  - bind_inv H as c Hc. apply iat_Ok in Hc as (_ & _ & ->). now injection H as <-.
  - injection H as <-. destruct v; [contradiction|reflexivity].
Qed.

Lemma subheader_columns_spec df sub_r j cols :
  subheader_columns df sub_r j = Ok cols ->
  cols = (variant_column df sub_r (txt "total") j,
          variant_column df sub_r (txt "citizen") j).
Proof.
  unfold subheader_columns, variant_column. intros H.
  bind_inv H as s0 H0. bind_inv H as s1 H1. cbv zeta in H.
  rewrite (subheader_Ok _ _ _ _ (txt "total") H0) in H by discriminate.
  rewrite (subheader_Ok _ _ _ _ (txt "citizen") H0) in H by discriminate.
  rewrite (subheader_Ok _ _ _ _ (txt "total") H1) in H by discriminate.
  rewrite (subheader_Ok _ _ _ _ (txt "citizen") H1) in H by discriminate.
  destruct (names_variant df sub_r (txt "total") j),
           (names_variant df sub_r (txt "citizen") j),
           (names_variant df sub_r (txt "total") (j + 1)),
           (names_variant df sub_r (txt "citizen") (j + 1));
    injection H as <-; reflexivity.
Qed.

Lemma variant_column_range df sub_r v j c :
  variant_column df sub_r v j = Some c -> c < n_cols df.
Proof.
  unfold variant_column, names_variant.
  destruct (Nat.ltb_spec j (n_cols df)); simpl.
  - destruct (startswith v _); [intros [= <-]; auto|].
    destruct (Nat.ltb_spec (j + 1) (n_cols df)); simpl; [|discriminate].
    destruct (startswith v _); [intros [= <-]; auto|discriminate].
  - destruct (Nat.ltb_spec (j + 1) (n_cols df)); simpl; [|discriminate].
    destruct (startswith v _); [intros [= <-]; auto|discriminate].
Qed.

(** Every entry of a block's year map comes from a period token of the
    anchor row and the sub-header cells below it. *)
Lemma build_year_map_entries df sub_r years ym :
  build_year_map df sub_r years = Ok ym ->
  forall y cols, In (y, cols) ym ->
  exists j, In (j, y) years /\
            cols = (variant_column df sub_r (txt "total") j,
                    variant_column df sub_r (txt "citizen") j).
Proof.
  unfold build_year_map. intros H.
  eapply for_each_invariant with
    (P := fun ym : year_map => forall y cols, In (y, cols) ym ->
            exists j, In (j, y) years /\
              cols = (variant_column df sub_r (txt "total") j,
                      variant_column df sub_r (txt "citizen") j)) in H; auto.
  - intros y cols [].
  - intros s [j y] s' Hin Hs Hstep y' cols' Hin'.
    bind_inv Hstep as cols Hcols. injection Hstep as <-.
    apply dict_set_In in Hin' as [[-> ->]|Hin']; auto.
    exists j. split; auto. now apply subheader_columns_spec.
Qed.

Lemma build_year_map_nonempty df sub_r years ym :
  build_year_map df sub_r years = Ok ym -> years <> [] -> nonempty ym = true.
Proof.
  unfold build_year_map. destruct years as [|[j y] years]; [congruence|].
  intros H _. simpl in H. bind_inv H as ym0 H0.
  bind_inv H0 as cols Hcols. injection H0 as <-.
  eapply for_each_invariant with (P := fun ym : year_map => nonempty ym = true) in H;
    auto using dict_set_nonempty.
  intros s [j' y'] s' _ _ Hstep. bind_inv Hstep as c Hc. injection Hstep as <-.
  apply dict_set_nonempty.
Qed.

(** ** What the detector returns *)

Lemma detected_skip df i blocks :
  ~ three_period_tokens df i -> detected df (i + 1) blocks -> detected df i blocks.
Proof.
  intros Hi H. inversion H as [i' Hend | i' a years ym rest Hle Ha Hskip Hy H3 Hym Hrest]; subst.
  - constructor. intros r Hr Hr'. destruct (Nat.eq_dec r i) as [->|]; auto.
    apply Hend; lia.
  - econstructor; eauto; try lia.
    intros r Hr. destruct (Nat.eq_dec r i) as [->|]; auto. apply Hskip. lia.
Qed.

Lemma scan_rows_detected df fuel : forall i blocks out,
  scan_rows df fuel i blocks = Ok out ->
  exists found, out = blocks ++ found /\ detected df i found.
Proof.
  induction fuel as [|fuel IH]; intros i blocks out H.
  - simpl in H. destruct (Nat.ltb_spec i (n_rows df - 1)); [discriminate|].
    injection H as <-. exists []. rewrite app_nil_r. split; auto.
    constructor. intros r Hr Hr2. exfalso. lia.
  - rewrite scan_rows_step in H.
    destruct (Nat.ltb_spec i (n_rows df - 1)) as [Hi|Hi].
    2:{ injection H as <-. exists []. rewrite app_nil_r. split; auto.
        constructor. intros r Hr Hr2. exfalso. lia. }
    bind_inv H as years Hy.
    pose proof (three_years_tokens _ _ _ Hy) as H3.
    destruct (Nat.leb_spec 3 (length years)) as [Hlen|Hlen].
    + destruct (Nat.ltb_spec (i + 1) (n_rows df)) as [Hsub|Hsub]; [|lia].
      bind_inv H as ym Hym.
      rewrite (build_year_map_nonempty _ _ _ _ Hym) in H
        by (destruct years; simpl in Hlen; [lia|discriminate]).
      destruct (IH _ _ _ H) as (found & -> & Hd).
      exists ((i, ym) :: found). rewrite <- app_assoc. split; auto.
      econstructor; eauto; try lia.
      now replace (i + 2) with (i + 1 + 1) by lia.
    + destruct (IH _ _ _ H) as (found & -> & Hd).
      exists found. split; auto. apply detected_skip; auto.
      intros Ht. apply H3 in Ht. lia.
Qed.

Lemma find_header_blocks_detected df blocks :
  find_header_blocks df = Ok blocks -> detected df 0 blocks.
Proof.
  intros H. apply scan_rows_detected in H as (found & -> & Hd). exact Hd.
Qed.

Lemma detected_weaken df i i' blocks :
  i' <= i -> (forall r, i' <= r < i -> ~ three_period_tokens df r) ->
  detected df i blocks -> detected df i' blocks.
Proof.
  intros Hle Hskip H.
  inversion H as [? Hend | ? a years ym rest Hia Ha Hsk Hy H3 Hym Hrest]; subst.
  - constructor. intros r Hr Hr'.
    destruct (Nat.lt_ge_cases r i); [apply Hskip; lia | apply Hend; lia].
  - econstructor; eauto; try lia.
    intros r Hr.
    destruct (Nat.lt_ge_cases r i); [apply Hskip; lia | apply Hsk; lia].
Qed.

Lemma detected_sorted df i blocks :
  detected df i blocks ->
  Forall (fun b => i <= fst b /\ fst b + 1 < n_rows df) blocks /\
  StronglySorted (fun b1 b2 => fst b1 + 2 <= fst b2) blocks.
Proof.
  induction 1 as [|i a years ym rest Hia Ha Hsk Hy H3 Hym Hrest [IHf IHs]].
  - split; constructor.
  - split.
    + constructor; [simpl; lia|].
      eapply Forall_impl; [|exact IHf]. simpl. intros b [? ?]. lia.
    + constructor; auto.
      eapply Forall_impl; [|exact IHf]. simpl. intros b [? ?]. lia.
Qed.

Lemma detected_In df i blocks a ym :
  detected df i blocks -> In (a, ym) blocks ->
  a + 1 < n_rows df /\
  exists years, years_in_row df a = Ok years /\ 3 <= length years /\
                build_year_map df (a + 1) years = Ok ym.
Proof.
  induction 1 as [|i a' years ym' rest Hia Ha Hsk Hy H3 Hym Hrest IH].
  - intros [].
  - intros [[= <- <-]|Hin]; eauto.
Qed.

(** Between a block and the next one (or the last row of the frame) no
    row holds three period tokens. *)
Lemma detected_next df i blocks k a ym :
  detected df i blocks -> nth_error blocks k = Some (a, ym) ->
  match nth_error blocks (S k) with
  | Some (b, _) =>
      a + 2 <= b /\ three_period_tokens df b /\
      (forall r, a + 2 <= r < b -> ~ three_period_tokens df r)
  | None =>
      forall r, a + 2 <= r -> r + 1 < n_rows df -> ~ three_period_tokens df r
  end.
Proof.
  intros H. revert k. induction H as [|i a' years ym' rest Hia Ha Hsk Hy H3 Hym Hrest IH];
    intros k Hk.
  - destruct k; discriminate.
  - destruct k as [|k]; simpl in Hk.
    + injection Hk as -> ->. simpl.
      inversion Hrest as [? Hend | ? b years' ymb rest' Hab Hb Hskb Hyb H3b Hymb Hrest']; subst; simpl.
      * exact Hend.
      * split; [exact Hab|]. split; [|exact Hskb].
        now apply (three_years_tokens _ _ _ Hyb).
    + now apply IH.
Qed.

Lemma StronglySorted_nth {A} (R : A -> A -> Prop) l :
  StronglySorted R l ->
  forall k1 k2 x y, k1 < k2 ->
  nth_error l k1 = Some x -> nth_error l k2 = Some y -> R x y.
Proof.
  induction 1 as [|a l Hs IH Hf]; intros k1 k2 x y Hk H1 H2.
  - destruct k1; discriminate.
  - destruct k2 as [|k2]; [lia|]. simpl in H2.
    destruct k1 as [|k1]; simpl in H1.
    + injection H1 as <-. rewrite Forall_forall in Hf. apply Hf.
      eapply nth_error_In; eauto.
    + apply (IH k1 k2 x y); [lia | assumption | assumption].
Qed.

(** ** What the row extractor returns *)

Lemma extract_year_acc df r st records entry :
  extract_year df r st records entry =
  (ys <- extract_year df r st [] entry ;; Ok (records ++ ys)).
Proof.
  destruct entry as [y [t c]]. unfold extract_year.
  destruct (col_idx t c) as [col|]; simpl; [|now rewrite app_nil_r].
  destruct (n_cols df <=? col); simpl; [now rewrite app_nil_r|].
  destruct (iat df r col) as [v| |]; simpl; auto.
  destruct (clean_percentage_like v) as [[x|]| |]; simpl; auto.
  now rewrite app_nil_r.
Qed.

Lemma parse_row_acc df ym r records :
  parse_row df ym r records =
  (ys <- parse_row df ym r [] ;; Ok (records ++ ys)).
Proof.
  unfold parse_row. destruct (iat df r 0) as [v| |]; simpl; auto.
  destruct (skip_state (state_label v)); simpl; [now rewrite app_nil_r|].
  rewrite !(for_each_collect _ _ (extract_year_acc df r (state_label v))).
  destruct (collect _ ym); reflexivity.
Qed.

(** The rows a block's extraction goes through: from [r] up to the row
    [stop] where it ends, each row adding its own records. *)
Lemma parse_rows_spec df ym fuel : forall r records out,
  parse_rows df ym fuel r records = Ok out ->
  exists stop per_row,
    r <= stop /\ (stop <= n_rows df \/ stop = r) /\
    (forall q, r <= q < stop -> header_like df q = Ok false) /\
    (stop < n_rows df -> header_like df stop = Ok true) /\
    Forall2 (fun q rs => parse_row df ym q [] = Ok rs)
            (seq r (stop - r)) per_row /\
    out = records ++ concat per_row.
Proof.
  assert (Hstop : forall r records,
    exists stop per_row,
      r <= stop /\ (stop <= n_rows df \/ stop = r) /\
      (forall q, r <= q < stop -> header_like df q = Ok false) /\
      (stop < n_rows df -> n_rows df <= r -> header_like df stop = Ok true) /\
      Forall2 (fun q rs => parse_row df ym q [] = Ok rs)
              (seq r (stop - r)) per_row /\
      records = records ++ concat per_row).
  { intros r records. exists r, []. rewrite Nat.sub_diag, app_nil_r.
    repeat split; auto; try constructor; intros; lia. }
  induction fuel as [|fuel IH]; intros r records out H.
  - simpl in H. destruct (Nat.ltb_spec r (n_rows df)); [discriminate|].
    injection H as <-.
    destruct (Hstop r records) as (stop & per & A & B & C & D & E & F).
    exists stop, per. repeat split; auto.
  - rewrite parse_rows_step in H.
    destruct (Nat.ltb_spec r (n_rows df)) as [Hr|Hr].
    2:{ injection H as <-.
        destruct (Hstop r records) as (stop & per & A & B & C & D & E & F).
        exists stop, per. repeat split; auto. }
    bind_inv H as n Hn.
    assert (Hh : header_like df r = Ok (3 <=? n))
      by (rewrite <- years_here_header_like, Hn; reflexivity).
    destruct (3 <=? n) eqn:E3.
    + injection H as <-. exists r, []. rewrite Nat.sub_diag, app_nil_r.
      repeat split; auto; try constructor. intros; lia.
    + bind_inv H as records' Hrow.
      rewrite parse_row_acc in Hrow. bind_inv Hrow as rs Hrs.
      injection Hrow as <-.
      destruct (IH _ _ _ H) as (stop & per & A & B & C & D & E & ->).
      exists stop, (rs :: per).
      replace (stop - r) with (S (stop - (r + 1))) by lia.
      simpl. replace (S r) with (r + 1) by lia.
      repeat split; auto; try lia.
      * intros q Hq. destruct (Nat.eq_dec q r) as [->|]; auto. apply C. lia.
      * now rewrite <- app_assoc.
Qed.

Lemma parse_block_spec df a ym recs :
  parse_block df a ym = Ok recs ->
  exists stop per_row,
    a + 2 <= stop /\ (stop <= n_rows df \/ stop = a + 2) /\
    (forall q, a + 2 <= q < stop -> header_like df q = Ok false) /\
    (stop < n_rows df -> header_like df stop = Ok true) /\
    Forall2 (fun q rs => parse_row df ym q [] = Ok rs)
            (seq (a + 2) (stop - (a + 2))) per_row /\
    recs = concat per_row.
Proof.
  intros H. apply parse_rows_spec in H. exact H.
Qed.

(** *** The rows that are passed over *)


Lemma skip_state_spec st :
  skip_state st = true <->
  st = [] \/ startswith (txt "table") (lower st) = true \/
  lower st = txt "nan" \/ lower st = txt "united states".
Proof.
  unfold skip_state. rewrite !orb_true_iff, !text_eqb_eq.
  destruct st; simpl; intuition congruence.
Qed.

(** *** The column of a period *)

Lemma col_idx_resolve t c : col_idx t c = resolve [Citizen; Total] (t, c).
Proof. destruct t, c; reflexivity. Qed.

Lemma a5b_col_idx_resolve t c : a5b_col_idx t c = resolve [Total; Citizen] (t, c).
Proof. destruct t, c; reflexivity. Qed.

Lemma extract_year_outcome df r st entry recs :
  (forall c, resolve [Citizen; Total] (snd entry) = Some c -> c < n_cols df) ->
  extract_year df r st [] entry = Ok recs ->
  year_outcome df r st entry recs.
Proof.
  destruct entry as [y [t c]]. unfold extract_year, year_outcome.
  rewrite col_idx_resolve. simpl fst. simpl snd.
  destruct (resolve [Citizen; Total] (t, c)) as [col|]; intros Hrange H.
  - destruct (Nat.leb_spec (n_cols df) col) as [Hle|Hlt].
    + specialize (Hrange col eq_refl). lia.
    + bind_inv H as v Hv. apply iat_Ok in Hv as (_ & _ & ->).
      bind_inv H as t' Ht. exists t'. split; auto.
      destruct t'; now injection H as <-.
  - now injection H as <-.
Qed.

Lemma parse_row_spec df ym r state_raw recs :
  iat df r 0 = Ok state_raw ->
  parse_row df ym r [] = Ok recs ->
  if skip_state (state_label state_raw) then recs = []
  else collect (extract_year df r (state_label state_raw) []) ym = Ok recs.
Proof.
  unfold parse_row. intros -> H. simpl in H.
  destruct (skip_state (state_label state_raw)).
  - now injection H as <-.
  - rewrite (for_each_collect _ _ (extract_year_acc df r (state_label state_raw))) in H.
    destruct (collect _ ym); simpl in *; congruence.
Qed.

Lemma parse_row_years df ym r recs :
  parse_row df ym r [] = Ok recs ->
  Forall (fun rec => In (year rec) (map fst ym)) recs.
Proof.
  unfold parse_row. intros H. bind_inv H as v Hv.
  destruct (skip_state (state_label v)); [injection H as <-; constructor|].
  revert H.
  apply for_each_invariant with
    (P := fun recs => Forall (fun rec => In (year rec) (map fst ym)) recs).
  - constructor.
  - intros s [y [t c]] s' Hin Hs Hstep. unfold extract_year in Hstep.
    destruct (col_idx t c) as [col|]; [|now injection Hstep as <-].
    destruct (n_cols df <=? col); [now injection Hstep as <-|].
    bind_inv Hstep as x Hx. bind_inv Hstep as t' Ht'.
    destruct t'; injection Hstep as <-; auto.
    apply Forall_app. split; auto. constructor; [|constructor].
    simpl. now apply (in_map fst _ (y, (t, c))).
Qed.

Lemma parse_block_years df a ym recs :
  parse_block df a ym = Ok recs ->
  Forall (fun rec => In (year rec) (map fst ym)) recs.
Proof.
  intros H. apply parse_block_spec in H
    as (stop & per & _ & _ & _ & _ & Hrows & ->).
  apply Forall_concat.
  induction Hrows as [|q rs qs per Hq _ IH]; constructor; auto.
  now apply parse_row_years in Hq.
Qed.

(** ** Years are within the recogniser's bounds *)

Lemma is_year_str_bounds s y :
  is_year_str s = Ok (Some y) -> (1900 <= y <= 2100)%Z.
Proof.
  unfold is_year_str. destruct (_ && _); [|discriminate].
  intros H. bind_inv H as z Hz.
  destruct ((1900 <=? z)%Z && (z <=? 2100)%Z) eqn:E; [|discriminate].
  injection H as <-. apply andb_true_iff in E as [E1 E2].
  apply Z.leb_le in E1. apply Z.leb_le in E2. lia.
Qed.

Lemma detected_year_map df i blocks a ym :
  detected df i blocks -> In (a, ym) blocks ->
  Forall (fun entry =>
            exists j, 1 <= j < n_cols df /\ period_token df a j (fst entry) /\
              snd entry = (variant_column df (a + 1) (txt "total") j,
                           variant_column df (a + 1) (txt "citizen") j)) ym.
Proof.
  intros Hd Hin.
  destruct (detected_In _ _ _ _ _ Hd Hin) as (_ & years & Hy & _ & Hym).
  apply Forall_forall. intros [y cols] Hentry.
  destruct (build_year_map_entries _ _ _ _ Hym _ _ Hentry) as (j & Hj & ->).
  destruct (years_in_row_spec _ _ _ Hy) as (_ & Hf & _).
  rewrite Forall_forall in Hf. destruct (Hf _ Hj) as [Hr Ht].
  exists j. auto.
Qed.

(** ** The order of the output *)

Lemma text_ltb_lt a : forall b, text_ltb a b = true <-> text_lt a b.
Proof.
  induction a as [|x a IH]; intros [|y b]; simpl.
  - split; [discriminate | inversion 1].
  - split; [constructor | reflexivity].
  - split; [discriminate | inversion 1].
  - rewrite orb_true_iff, andb_true_iff, N.ltb_lt, N.eqb_eq, IH. split.
    + intros [H|[H1 H2]]; [now constructor|].
      apply code_inj in H1 as ->. now constructor.
    + inversion 1; subst; auto.
Qed.

Lemma text_ltb_irrefl a : text_ltb a a = false.
Proof.
  induction a as [|x a IH]; simpl; auto.
  now rewrite N.ltb_irrefl, N.eqb_refl, IH.
Qed.

Lemma text_ltb_trans a : forall b c,
  text_ltb a b = true -> text_ltb b c = true -> text_ltb a c = true.
Proof.
  induction a as [|x a IH]; intros [|y b] [|z c]; simpl; auto; try discriminate.
  rewrite !orb_true_iff, !andb_true_iff, !N.ltb_lt, !N.eqb_eq.
  intros [H1|[H1 H1']] [H2|[H2 H2']].
  - left; lia.
  - left; lia.
  - left; lia.
  - right. split; [lia|]. eapply IH; eauto.
Qed.

Lemma text_ltb_total a : forall b,
  text_ltb a b = true \/ a = b \/ text_ltb b a = true.
Proof.
  induction a as [|x a IH]; intros [|y b]; simpl; auto.
  rewrite !orb_true_iff, !andb_true_iff, !N.ltb_lt, !N.eqb_eq.
  destruct (N.lt_total (code x) (code y)) as [H|[H|H]]; auto.
  apply code_inj in H as ->.
  destruct (IH b) as [H|[->|H]]; auto.
Qed.

Lemma key_eqb_eq a b : key_eqb a b = true <-> a = b.
Proof.
  unfold key_eqb. rewrite andb_true_iff, Z.eqb_eq, text_eqb_eq.
  destruct a, b; simpl. split; [intros [-> ->]; auto | intros [= -> ->]; auto].
Qed.

(** [(year, state)] tuples compare by year, then by state. *)
Lemma key_ltb_lt a b :
  key_ltb a b = true <->
  (fst a < fst b)%Z \/ (fst a = fst b /\ text_lt (snd a) (snd b)).
Proof.
  unfold key_ltb.
  now rewrite orb_true_iff, andb_true_iff, Z.ltb_lt, Z.eqb_eq, text_ltb_lt.
Qed.

Lemma key_ltb_irrefl a : key_ltb a a = false.
Proof.
  unfold key_ltb. now rewrite Z.ltb_irrefl, Z.eqb_refl, text_ltb_irrefl.
Qed.

Lemma key_ltb_trans a b c :
  key_ltb a b = true -> key_ltb b c = true -> key_ltb a c = true.
Proof.
  unfold key_ltb.
  rewrite !orb_true_iff, !andb_true_iff, !Z.ltb_lt, !Z.eqb_eq.
  intros [H1|[H1 H1']] [H2|[H2 H2']].
  - left; lia.
  - left; lia.
  - left; lia.
  - right. split; [lia|]. eapply text_ltb_trans; eauto.
Qed.

Lemma key_ltb_total a b : key_ltb a b = true \/ a = b \/ key_ltb b a = true.
Proof.
  unfold key_ltb. destruct a as [ya sa], b as [yb sb]; simpl.
  rewrite !orb_true_iff, !andb_true_iff, !Z.ltb_lt, !Z.eqb_eq.
  destruct (Z.lt_total ya yb) as [H|[->|H]]; auto.
  destruct (text_ltb_total sa sb) as [H|[->|H]]; auto.
Qed.

(** The order of the statements is the one that [key_ltb] decides. *)
Lemma key_le_iff a b : key_le a b <-> key_ltb b a = false.
Proof.
  unfold key_le, key_lt. rewrite <- key_ltb_lt. split.
  - intros [H| ->]; [|apply key_ltb_irrefl].
    destruct (key_ltb b a) eqn:E; auto.
    pose proof (key_ltb_trans _ _ _ H E) as C. now rewrite key_ltb_irrefl in C.
  - intros H. destruct (key_ltb_total a b) as [H'|[->|H']]; auto. congruence.
Qed.

Lemma same_key_eq k r : same_key k r = true <-> sort_key r = k.
Proof.
  unfold same_key, sort_key. rewrite andb_true_iff, Z.eqb_eq, text_eqb_eq.
  destruct k as [y st]; simpl. split; [intros [-> ->]; auto | intros [= -> ->]; auto].
Qed.

Lemma key_le_trans a b c : key_le a b -> key_le b c -> key_le a c.
Proof.
  rewrite !key_le_iff. intros Hab Hbc.
  destruct (key_ltb c a) eqn:Hca; auto.
  destruct (key_ltb_total b c) as [H|[->|H]]; try congruence.
  rewrite (key_ltb_trans _ _ _ H Hca) in Hab. discriminate.
Qed.

Lemma key_le_antisym a b : key_le a b -> key_le b a -> a = b.
Proof.
  rewrite !key_le_iff. intros Hab Hba.
  destruct (key_ltb_total a b) as [H|[->|H]]; congruence.
Qed.

Lemma key_ltb_le a b : key_ltb a b = true -> key_le a b.
Proof.
  rewrite key_le_iff. intros H. destruct (key_ltb b a) eqn:E; auto.
  pose proof (key_ltb_trans _ _ _ H E) as C. now rewrite key_ltb_irrefl in C.
Qed.

Lemma insert_record_perm x l : Permutation (x :: l) (insert_record x l).
Proof.
  induction l as [|y t IH]; simpl; auto.
  destruct (key_ltb (sort_key y) (sort_key x)); auto.
  rewrite perm_swap. now constructor.
Qed.

Lemma sort_records_perm l : Permutation l (sort_records l).
Proof.
  induction l as [|x t IH]; simpl; auto.
  rewrite <- insert_record_perm. now constructor.
Qed.

Lemma insert_record_ordered x l : ordered l -> ordered (insert_record x l).
Proof.
  unfold ordered. induction 1 as [|y t Hs IH Hf]; simpl.
  - repeat constructor.
  - destruct (key_ltb (sort_key y) (sort_key x)) eqn:E.
    + constructor; auto.
      rewrite <- (insert_record_perm x t). constructor; auto.
      now apply (key_ltb_le (sort_key y) (sort_key x)).
    + assert (Hxy : key_le (sort_key x) (sort_key y))
        by (apply key_le_iff; exact E).
      constructor; [constructor; auto|].
      constructor; [exact Hxy|].
      eapply Forall_impl; [|exact Hf]. cbv beta. intros z Hz.
      exact (key_le_trans (sort_key x) (sort_key y) (sort_key z) Hxy Hz).
Qed.

Lemma sort_records_ordered l : ordered (sort_records l).
Proof.
  induction l as [|x t IH]; simpl.
  - constructor.
  - now apply insert_record_ordered.
Qed.

Lemma insert_record_stable k x l :
  filter (same_key k) (insert_record x l) = filter (same_key k) (x :: l).
Proof.
  induction l as [|y t IH]; auto.
  simpl insert_record. destruct (key_ltb (sort_key y) (sort_key x)) eqn:E; auto.
  simpl in *. rewrite IH.
  destruct (same_key k x) eqn:Hx, (same_key k y) eqn:Hy; auto.
  apply same_key_eq in Hx, Hy.
  rewrite Hx, Hy, key_ltb_irrefl in E. discriminate.
Qed.

Lemma sort_records_stable k l :
  filter (same_key k) (sort_records l) = filter (same_key k) l.
Proof.
  induction l as [|x t IH]; auto.
  simpl sort_records. rewrite insert_record_stable. simpl. now rewrite IH.
Qed.

Lemma sort_records_stable_sort l : stable_sort_of l (sort_records l).
Proof.
  split; [apply sort_records_perm|].
  split; [apply sort_records_ordered | intros; apply sort_records_stable].
Qed.

(** Two ascending lists whose records of each key agree, in order, are
    equal. *)
Lemma ordered_unique l1 : forall l2,
  ordered l1 -> ordered l2 ->
  (forall k, filter (same_key k) l1 = filter (same_key k) l2) ->
  l1 = l2.
Proof.
  assert (Hself : forall x, same_key (sort_key x) x = true)
    by (intros; now apply same_key_eq).
  assert (Hin : forall (x : record) l, In x l ->
            In x (filter (same_key (sort_key x)) l))
    by (intros; apply filter_In; auto).
  induction l1 as [|x t1 IH]; intros l2 H1 H2 Hk.
  - destruct l2 as [|y t2]; auto.
    specialize (Hk (sort_key y)). simpl in Hk. now rewrite Hself in Hk.
  - destruct l2 as [|y t2].
    + specialize (Hk (sort_key x)). simpl in Hk. now rewrite Hself in Hk.
    + inversion H1 as [|? ? Hs1 Hf1]; inversion H2 as [|? ? Hs2 Hf2]; subst.
      rewrite Forall_forall in Hf1, Hf2.
      assert (Hxy : sort_key x = sort_key y).
      { apply key_le_antisym.
        - assert (Hy : In y (x :: t1)).
          { pose proof (Hin y (y :: t2) (or_introl eq_refl)) as Hy.
            rewrite <- Hk in Hy. now apply filter_In in Hy. }
          destruct Hy as [->|Hy]; [now right | exact (Hf1 _ Hy)].
        - assert (Hx : In x (y :: t2)).
          { pose proof (Hin x (x :: t1) (or_introl eq_refl)) as Hx.
            rewrite Hk in Hx. now apply filter_In in Hx. }
          destruct Hx as [->|Hx]; [now right | exact (Hf2 _ Hx)]. }
      pose proof (Hk (sort_key x)) as Hhead. simpl in Hhead.
      rewrite Hself in Hhead. rewrite Hxy, Hself in Hhead.
      injection Hhead as -> Htail.
      f_equal. apply IH; auto.
      intros k. specialize (Hk k). simpl in Hk.
      destruct (same_key k y); [now injection Hk|auto].
Qed.

(** The stable sort of a list is unique: any stable sorting algorithm,
    [list.sort] included, returns [sort_records l]. *)
Lemma sort_records_unique l out : stable_sort_of l out -> out = sort_records l.
Proof.
  intros (_ & Ho & Hk). apply ordered_unique; auto using sort_records_ordered.
  intros k. now rewrite Hk, sort_records_stable.
Qed.

(** ** Reading numbers *)

Lemma filter_all {A} (p : A -> bool) l : forallb p l = true -> filter p l = l.
Proof.
  induction l as [|x l IH]; simpl; auto.
  intros H. apply andb_true_iff in H as [-> H]. now rewrite IH.
Qed.

Lemma forallb_impl {A} (p q : A -> bool) l :
  (forall x, p x = true -> q x = true) -> forallb p l = true -> forallb q l = true.
Proof.
  intros Hpq. rewrite !forallb_forall. auto.
Qed.

Lemma isdecimal_facts c :
  isdecimal_char c = true ->
  isspace_char c = false /\ isspace_num c = false /\
  is_code 95 c = false /\ is_code 43 c = false /\ is_code 45 c = false /\
  is_code 46 c = false /\ is_code 37 c = false /\ is_code 44 c = false /\
  lower_char c = c.
Proof. by_char c; repeat split; reflexivity. Qed.

Lemma span_app p a b :
  forallb p a = true ->
  match b with [] => True | c :: _ => p c = false end ->
  span p (a ++ b) = (a, b).
Proof.
  intros Ha Hb. induction a as [|x a IH]; simpl in *.
  - destruct b as [|c b]; simpl; auto. now rewrite Hb.
  - apply andb_true_iff in Ha as [-> Ha]. now rewrite IH.
Qed.

Lemma ungroup_plain s : forall prev,
  forallb (fun c => negb (is_code 95 c)) s = true ->
  match prev with Some p => is_code 95 p = false | None => True end ->
  ungroup prev s = Some s.
Proof.
  induction s as [|c s IH]; intros prev Hs Hp; simpl.
  - destruct prev as [p|]; auto. now rewrite Hp.
  - simpl in Hs. apply andb_true_iff in Hs as [Hc Hs].
    apply negb_true_iff in Hc. rewrite Hc.
    destruct prev as [p|]; [rewrite Hp; simpl|]; now rewrite IH.
Qed.

Lemma numeral_head ip fp :
  ip <> [] -> forallb isdecimal_char ip = true ->
  exists c r, numeral ip fp = c :: r /\ isdecimal_char c = true.
Proof.
  destruct ip as [|c ip]; [congruence|]. simpl. intros _ H.
  apply andb_true_iff in H as [Hc _].
  exists c, (ip ++ (if nonempty fp then "."%char :: fp else [])).
  split; [reflexivity | assumption].
Qed.

Lemma numeral_chars (q : ascii -> bool) ip fp :
  (forall c, isdecimal_char c = true -> q c = true) -> q "."%char = true ->
  forallb isdecimal_char ip = true -> forallb isdecimal_char fp = true ->
  forallb q (numeral ip fp) = true.
Proof.
  intros Hq Hdot Hip Hfp. unfold numeral. rewrite forallb_app.
  rewrite (forallb_impl _ _ _ Hq Hip). simpl.
  destruct (nonempty fp); simpl; auto.
  now rewrite Hdot, (forallb_impl _ _ _ Hq Hfp).
Qed.

Lemma parse_decimal_numeral ip fp :
  ip <> [] -> forallb isdecimal_char ip = true ->
  forallb isdecimal_char fp = true ->
  parse_decimal (numeral ip fp) =
  Some (digits_val (ip ++ fp), (- Z.of_nat (length fp))%Z).
Proof.
  intros Hne Hip Hfp. unfold parse_decimal, numeral.
  destruct fp as [|d fp]; simpl nonempty; cbv iota.
  - rewrite (span_app _ ip []) by auto.
    destruct ip; [congruence|]. reflexivity.
  - rewrite span_app by (auto; reflexivity).
    change (is_code 46 "."%char) with true. cbv iota.
    rewrite <- (app_nil_r (d :: fp)) at 1. rewrite span_app by auto.
    destruct ip as [|c ip]; [congruence|]. simpl nonempty. cbv iota.
    simpl parse_exponent. rewrite Z.sub_0_l. reflexivity.
Qed.

Lemma py_float_of_text_numeral ip fp :
  ip <> [] -> forallb isdecimal_char ip = true ->
  forallb isdecimal_char fp = true ->
  py_float_of_text (numeral ip fp) =
  Ok (decimal_to_double false (digits_val (ip ++ fp))
                        (- Z.of_nat (length fp))).
Proof.
  intros Hne Hip Hfp. unfold py_float_of_text.
  rewrite strip_by_nospace.
  2:{ apply numeral_chars; auto.
      intros c Hc. now destruct (isdecimal_facts c Hc) as (_ & -> & _). }
  rewrite ungroup_plain; auto.
  2:{ apply numeral_chars; auto.
      intros c Hc. now destruct (isdecimal_facts c Hc) as (_ & _ & -> & _). }
  destruct (numeral_head ip fp Hne Hip) as (c & r & Hnum & Hc).
  destruct (isdecimal_facts c Hc) as (_ & _ & _ & Hplus & Hminus & _ & _ & _ & Hlow).
  assert (Hsign : split_sign (numeral ip fp) = (false, numeral ip fp))
    by (rewrite Hnum; simpl; now rewrite Hplus, Hminus).
  rewrite Hsign.
  assert (Hword : forall w, text_eqb (lower (numeral ip fp)) (txt w) = true ->
                  match txt w with x :: _ => isdecimal_char x = true | [] => False end).
  { intros w Hw. apply text_eqb_eq in Hw. rewrite Hnum in Hw. simpl in Hw.
    rewrite Hlow in Hw. now rewrite <- Hw. }
  destruct (text_eqb (lower (numeral ip fp)) (txt "inf")) eqn:E1;
    [apply Hword in E1; discriminate|].
  destruct (text_eqb (lower (numeral ip fp)) (txt "infinity")) eqn:E2;
    [apply Hword in E2; discriminate|].
  destruct (text_eqb (lower (numeral ip fp)) (txt "nan")) eqn:E3;
    [apply Hword in E3; discriminate|].
  simpl. now rewrite parse_decimal_numeral.
Qed.

Lemma py_float_of_text_cases s :
  (exists x, py_float_of_text s = Ok x) \/
  py_float_of_text s = Raise (ValueError_float s).
Proof.
  unfold py_float_of_text. destruct (ungroup None _); auto.
  destruct (split_sign _) as [neg body].
  destruct (_ || _); eauto.
  destruct (text_eqb _ _); eauto.
  destruct (parse_decimal body) as [[m e]|]; eauto.
Qed.

(** ** The value cleaner on text *)

Lemma remove_marks_filter s :
  remove_marks s = filter (fun c => negb (is_mark c)) s.
Proof.
  unfold remove_marks, remove_char. induction s as [|c s IH]; simpl; auto.
  unfold is_mark, is_code in *.
  change (code "%"%char) with 37%N in *. change (code ","%char) with 44%N in *.
  destruct (code c =? 37)%N eqn:E; simpl.
  - exact IH.
  - now rewrite IH.
Qed.

Lemma remove_marks_app a b : remove_marks (a ++ b) = remove_marks a ++ remove_marks b.
Proof. rewrite !remove_marks_filter. apply filter_app. Qed.

Lemma remove_marks_commas s :
  remove_marks s = remove_char "%"%char (remove_char ","%char s).
Proof.
  unfold remove_marks, remove_char. induction s as [|c s IH]; simpl; auto.
  change (code "%"%char) with 37%N in *. change (code ","%char) with 44%N in *.
  destruct (code c =? 37)%N eqn:E1, (code c =? 44)%N eqn:E2; simpl;
    rewrite ?E1, ?E2; simpl; now rewrite IH.
Qed.

Lemma space_not_mark c : isspace_char c = true -> negb (is_mark c) = true.
Proof. by_char c. Qed.

Lemma lower_letter_kept x :
  lower_char x = "n"%char \/ lower_char x = "a"%char ->
  negb (is_mark x) = true /\ isspace_char x = false.
Proof.
  destruct x as [[|] [|] [|] [|] [|] [|] [|] [|]]; vm_compute;
    intros [H|H]; try discriminate; auto.
Qed.

Lemma remove_marks_spaces ws :
  forallb isspace_char ws = true -> remove_marks ws = ws.
Proof.
  intros H. rewrite remove_marks_filter. apply filter_all.
  eapply forallb_impl; [|exact H]. apply space_not_mark.
Qed.

(** Trimming before or after the marks are removed makes no difference
    once the result is trimmed again. *)
Lemma strip_remove_marks s :
  strip (remove_marks (strip s)) = strip (remove_marks s).
Proof.
  destruct (strip_by_split isspace_char s) as (ws1 & ws2 & Hs & H1 & H2).
  fold (strip s) in Hs. rewrite Hs at 2.
  rewrite !remove_marks_app.
  rewrite (remove_marks_spaces ws1), (remove_marks_spaces ws2) by assumption.
  unfold strip. now rewrite strip_by_pad.
Qed.

Lemma clean_text s :
  clean_percentage_like (PyStr s) =
  if negb (nonempty (strip s)) || text_eqb (lower (strip s)) (txt "nan")
  then Ok None
  else float_or_None (strip (remove_marks s)).
Proof.
  simpl. destruct (_ || _); auto. fold (remove_marks (strip s)).
  now rewrite strip_remove_marks.
Qed.

Lemma float_or_None_returns s : exists o, float_or_None s = Ok o.
Proof.
  unfold float_or_None.
  destruct (py_float_of_text_cases s) as [[x ->] | ->]; eauto.
Qed.

Lemma clean_percent_pattern s ip fp :
  percent_pattern (remove_char ","%char s) ip fp ->
  clean_percentage_like (PyStr s) =
  Ok (Some (decimal_to_double false (digits_val (ip ++ fp))
                              (- Z.of_nat (length fp)))).
Proof.
  intros (ws1 & ws2 & pct & H1 & H2 & Hpct & Hne & Hip & Hfp & Hs).
  assert (Hnum : forallb (fun c => negb (code c =? code "%"%char)%N)
                         (numeral ip fp) = true).
  { apply numeral_chars; auto. intros c Hc.
    destruct (isdecimal_facts c Hc) as (_ & _ & _ & _ & _ & _ & H & _).
    unfold is_code in H. change (code "%"%char) with 37%N. now rewrite H. }
  assert (Hws : forall ws, forallb isspace_char ws = true ->
                remove_char "%"%char ws = ws).
  { intros ws H. apply filter_all. eapply forallb_impl; [|exact H].
    intros c Hc. apply space_not_mark in Hc. unfold is_mark, is_code in Hc.
    change (code "%"%char) with 37%N.
    destruct (code c =? 37)%N; [discriminate|reflexivity]. }
  assert (Hrm : strip (remove_marks s) = numeral ip fp).
  { rewrite remove_marks_commas, Hs. unfold remove_char at 1.
    rewrite !filter_app. fold (remove_char "%"%char ws1).
    fold (remove_char "%"%char ws2). rewrite !Hws by assumption.
    rewrite (filter_all _ _ Hnum).
    replace (filter _ pct) with (@nil ascii) by (destruct Hpct as [->| ->]; reflexivity).
    simpl. unfold strip. rewrite strip_by_pad by assumption.
    apply strip_by_nospace. apply numeral_chars; auto.
    intros c Hc. now destruct (isdecimal_facts c Hc) as (-> & _). }
  rewrite clean_text.
  destruct (numeral_head ip fp Hne Hip) as (c & r & Hhead & Hc).
  destruct (isdecimal_facts c Hc) as (_ & _ & _ & _ & _ & _ & Hc37 & Hc44 & Hlow).
  assert (Hcore : strip (remove_marks (strip s)) = c :: r)
    by (now rewrite strip_remove_marks, Hrm).
  destruct (strip s) as [|d t] eqn:Et; [discriminate|].
  simpl negb. cbv iota.
  destruct (text_eqb (lower (d :: t)) (txt "nan")) eqn:Enan.
  - exfalso. apply text_eqb_eq in Enan.
    destruct t as [|d2 [|d3 [|? ?]]]; try discriminate.
    injection Enan as E1 E2 E3.
    destruct (lower_letter_kept d (or_introl E1)) as [K1 S1].
    destruct (lower_letter_kept d2 (or_intror E2)) as [K2 _].
    destruct (lower_letter_kept d3 (or_introl E3)) as [K3 S3].
    rewrite remove_marks_filter in Hcore. simpl in Hcore.
    rewrite K1, K2, K3 in Hcore.
    unfold strip in Hcore. change [d; d2; d3] with (d :: [d2] ++ [d3]) in Hcore.
    rewrite (strip_by_fixed isspace_char d [d2] d3 S1 S3) in Hcore.
    injection Hcore as -> _. rewrite Hlow in E1. subst c. discriminate.
  - simpl orb. cbv iota. rewrite Hrm. unfold float_or_None.
    now rewrite py_float_of_text_numeral.
Qed.

(** ** The period token recogniser *)

Lemma py_int_digits t :
  t <> [] -> forallb isdigit_char t = true ->
  py_int t = if forallb isdecimal_char t then Ok (digits_val t)
             else Raise (ValueError_int t).
Proof.
  intros Hne Hd. unfold py_int.
  rewrite strip_by_nospace.
  2:{ eapply forallb_impl; [|exact Hd]. intros c Hc.
      now rewrite (isdigit_not_space_num c Hc). }
  destruct t as [|c t]; [congruence|].
  assert (Hc : isdigit_char c = true)
    by (simpl in Hd; now apply andb_true_iff in Hd as [-> _]).
  destruct (isdigit_not_sign c Hc) as [Hp Hm].
  simpl split_sign. rewrite Hp, Hm.
  rewrite ungroup_plain; auto.
  eapply forallb_impl; [|exact Hd]. intros x Hx.
  now rewrite (isdigit_not_underscore x Hx).
Qed.

(** What [is_year_str] does, case by case on the trimmed text. *)
Lemma is_year_str_cases s :
  is_year_str s =
  if (length (strip s) =? 4) && isdigit (strip s) then
    if forallb isdecimal_char (strip s) then
      if ((1900 <=? digits_val (strip s)) && (digits_val (strip s) <=? 2100))%Z
      then Ok (Some (digits_val (strip s)))
      else Ok None
    else Raise (ValueError_int (strip s))
  else Ok None.
Proof.
  unfold is_year_str.
  destruct ((length (strip s) =? 4) && isdigit (strip s)) eqn:E; auto.
  apply andb_true_iff in E as [_ E]. unfold isdigit in E.
  apply andb_true_iff in E as [Hne Hd].
  rewrite py_int_digits; auto.
  - destruct (forallb isdecimal_char (strip s)); reflexivity.
  - destruct (strip s); [discriminate|congruence].
Qed.

(** A period is returned exactly for four decimal digits in range. *)
Lemma is_year_str_spec s y :
  is_year_str s = Ok (Some y) <->
  length (strip s) = 4 /\ forallb isdecimal_char (strip s) = true /\
  y = digits_val (strip s) /\ (1900 <= y <= 2100)%Z.
Proof.
  rewrite is_year_str_cases. split.
  - destruct (Nat.eqb_spec (length (strip s)) 4) as [Hl|]; [|discriminate].
    destruct (isdigit (strip s)); [|discriminate]. simpl.
    destruct (forallb isdecimal_char (strip s)); [|discriminate].
    destruct (_ && _)%Z eqn:E; [|discriminate]. intros [= <-].
    apply andb_true_iff in E as [E1 E2].
    apply Z.leb_le in E1. apply Z.leb_le in E2. auto.
  - intros (Hl & Hd & -> & Hlo & Hhi). rewrite Hl, Hd. simpl.
    assert (Hdig : isdigit (strip s) = true).
    { unfold isdigit. rewrite (forallb_impl _ _ _ isdecimal_isdigit Hd).
      destruct (strip s); [discriminate|reflexivity]. }
    rewrite Hdig.
    apply Z.leb_le in Hlo. apply Z.leb_le in Hhi. now rewrite Hlo, Hhi.
Qed.

(** ** No index is out of bounds in the detector *)

Lemma in_bounds_bind {A B} (m : result A) (k : A -> result B) :
  in_bounds m -> (forall a, m = Ok a -> in_bounds (k a)) -> in_bounds (bind m k).
Proof.
  unfold in_bounds. intros Hm Hk r c. destruct m as [a|e|]; simpl.
  - now apply Hk.
  - intros [= ->]. now apply (Hm r c).
  - discriminate.
Qed.

Lemma in_bounds_for_each {A S} (f : S -> A -> result S) l :
  (forall s x, In x l -> in_bounds (f s x)) ->
  forall s, in_bounds (for_each f l s).
Proof.
  induction l as [|x l IH]; intros Hf s; simpl.
  - discriminate.
  - apply in_bounds_bind; [apply Hf; now left|].
    intros s' _. apply IH. intros; apply Hf; now right.
Qed.

Lemma in_bounds_Ok {A} (a : A) : in_bounds (Ok a).
Proof. discriminate. Qed.

Lemma in_bounds_is_year_str s : in_bounds (is_year_str s).
Proof.
  rewrite is_year_str_cases. intros r c.
  repeat match goal with |- context [if ?b then _ else _] => destruct b end;
    discriminate.
Qed.

Lemma in_bounds_years_in_row df i : i < n_rows df -> in_bounds (years_in_row df i).
Proof.
  intros Hi. apply in_bounds_for_each. intros years j Hj.
  apply in_seq in Hj.
  rewrite iat_in_range by lia. simpl.
  apply in_bounds_bind; [apply in_bounds_is_year_str|].
  intros [y|] _; apply in_bounds_Ok.
Qed.

Lemma in_bounds_subheader df sub_r j :
  sub_r < n_rows df -> in_bounds (subheader df sub_r j).
Proof.
  intros Hr. unfold subheader.
  destruct (Nat.ltb_spec j (n_cols df)); [|apply in_bounds_Ok].
  rewrite iat_in_range by lia. apply in_bounds_Ok.
Qed.

Lemma in_bounds_build_year_map df sub_r years :
  sub_r < n_rows df -> in_bounds (build_year_map df sub_r years).
Proof.
  intros Hr. apply in_bounds_for_each. intros ym [j y] _.
  apply in_bounds_bind; [|intros; apply in_bounds_Ok].
  unfold subheader_columns.
  apply in_bounds_bind; [now apply in_bounds_subheader|]. intros s0 _.
  apply in_bounds_bind; [now apply in_bounds_subheader|]. intros s1 _.
  apply in_bounds_Ok.
Qed.

Lemma in_bounds_scan_rows df fuel : forall i blocks,
  in_bounds (scan_rows df fuel i blocks).
Proof.
  induction fuel as [|fuel IH]; intros i blocks.
  - simpl. destruct (i <? n_rows df - 1); discriminate.
  - rewrite scan_rows_step.
    destruct (Nat.ltb_spec i (n_rows df - 1)); [|apply in_bounds_Ok].
    apply in_bounds_bind; [apply in_bounds_years_in_row; lia|]. intros years _.
    destruct (3 <=? length years); [|apply IH].
    destruct (Nat.ltb_spec (i + 1) (n_rows df)); [|apply IH].
    apply in_bounds_bind; [now apply in_bounds_build_year_map|]. intros ym _.
    destruct (nonempty ym); apply IH.
Qed.

(** ** Header blocks: anchors and data regions *)

Lemma detected_anchors_spaced df i blocks :
  detected df i blocks -> anchors_spaced blocks.
Proof.
  intros Hd. apply detected_sorted in Hd as [_ Hs].
  intros k1 k2 a b Hk H1 H2. unfold anchors in *.
  rewrite nth_error_map in H1, H2.
  match type of H1 with option_map _ ?t = _ =>
    destruct t as [b1|] eqn:E1; simpl in H1; [|discriminate H1] end.
  match type of H2 with option_map _ ?t = _ =>
    destruct t as [b2|] eqn:E2; simpl in H2; [|discriminate H2] end.
  injection H1 as <-. injection H2 as <-.
  exact (StronglySorted_nth _ _ Hs _ _ _ _ Hk E1 E2).
Qed.

Lemma anchors_spaced_disjoint df blocks :
  anchors_spaced blocks -> regions_disjoint df blocks.
Proof.
  intros Hsp.
  assert (Hlt : forall k1 k2 lo1 hi1 lo2 hi2, k1 < k2 ->
            data_region df blocks k1 = Some (lo1, hi1) ->
            data_region df blocks k2 = Some (lo2, hi2) ->
            hi1 < lo2).
  { intros k1 k2 lo1 hi1 lo2 hi2 Hk H1 H2. unfold data_region in *.
    destruct (nth_error (anchors blocks) k1) as [a1|] eqn:E1; [|discriminate H1].
    destruct (nth_error (anchors blocks) k2) as [a2|] eqn:E2; [|discriminate H2].
    destruct (nth_error (anchors blocks) (S k1)) as [b1|] eqn:E3;
      injection H2 as <- _; injection H1 as _ <-.
    - destruct (Nat.eq_dec (S k1) k2) as [Heq|Hne].
      + subst k2. rewrite E2 in E3. injection E3 as ->. lia.
      + assert (b1 + 2 <= a2) by (apply (Hsp (S k1) k2); auto; lia). lia.
    - apply nth_error_None in E3.
      assert (k2 < length (anchors blocks))
        by (apply nth_error_Some; congruence). lia. }
  intros k1 k2 lo1 hi1 lo2 hi2 Hne H1 H2 r [Hr1 Hr2].
  destruct (Nat.lt_total k1 k2) as [Hk|[Hk|Hk]]; [|contradiction|].
  - specialize (Hlt _ _ _ _ _ _ Hk H1 H2). lia.
  - specialize (Hlt _ _ _ _ _ _ Hk H2 H1). lia.
Qed.

(** ** A sample frame *)

Example census_frame_blocks : find_header_blocks census_frame = Ok census_blocks.
Proof. vm_compute. reflexivity. Qed.

Example census_frame_records :
  map (fun r => (year r, state r, py_str_of_float (turnout r))) census_records =
  [ (2008%Z, txt "Alaska", txt "1234.5");
    (2012%Z, txt "Alabama", txt "58.0");
    (2020%Z, txt "Alabama", txt "63.6") ].
Proof. vm_compute. reflexivity. Qed.

(** ** The claims *)

(** C1 read by period fails: the detector counts the cells that hold a
    period token, not the periods, and a row that repeats one year three
    times anchors a block. *)
Lemma C1_counterexample :
  ~ (forall df blocks,
       find_header_blocks df = Ok blocks ->
       forall a ym, In (a, ym) blocks -> three_distinct_periods df a).
Proof.
  intros H.
  specialize (H repeated_year_frame [(0, [(2020%Z, (Some 3, None))])]).
  destruct (H eq_refl 0 [(2020%Z, (Some 3, None))] (or_introl eq_refl))
    as (j1 & j2 & j3 & y1 & y2 & y3 & R1 & R2 & _ & T1 & T2 & _ & N12 & _).
  assert (Hyear : forall j y, 1 <= j < n_cols repeated_year_frame ->
            period_token repeated_year_frame 0 j y -> y = 2020%Z).
  { intros j y Hj Ht. change (n_cols repeated_year_frame) with 4 in Hj.
    assert (Hcases : j = 1 \/ j = 2 \/ j = 3) by lia.
    destruct Hcases as [->|[->| ->]]; vm_compute in Ht; congruence. }
  apply N12. rewrite (Hyear _ _ R1 T1), (Hyear _ _ R2 T2). reflexivity.
Qed.

(** C1, as the code has it.  For every frame, the blocks that
    [find_header_blocks] returns have strictly increasing anchor rows, any
    two of them at least 2 apart; every anchor row holds period tokens in
    at least three cells of the columns 1 and beyond (three cells; their
    periods need not differ); and no two data regions (from anchor + 2 up
    to the next anchor, or the end of the frame) share a row. *)
Theorem C1_blocks_spaced_tokens_disjoint (df : DataFrame) (blocks : list block) :
  find_header_blocks df = Ok blocks ->
  anchors_spaced blocks /\
  (forall a ym, In (a, ym) blocks -> three_period_tokens df a) /\
  regions_disjoint df blocks.
Proof.
  intros H. apply find_header_blocks_detected in H.
  pose proof (detected_anchors_spaced _ _ _ H) as Hsp.
  split; [exact Hsp|]. split; [|now apply anchors_spaced_disjoint].
  intros a ym Hin.
  destruct (detected_In _ _ _ _ _ H Hin) as (_ & years & Hy & H3 & _).
  now apply (three_years_tokens _ _ _ Hy).
Qed.

Lemma C1_witness :
  find_header_blocks census_frame = Ok census_blocks /\
  anchors_spaced census_blocks /\
  (forall a ym, In (a, ym) census_blocks -> three_period_tokens census_frame a) /\
  regions_disjoint census_frame census_blocks.
Proof.
  split; [vm_compute; reflexivity|].
  apply (C1_blocks_spaced_tokens_disjoint census_frame census_blocks).
  vm_compute; reflexivity.
Defined.

(** C9. The detector never reads outside the frame, and never anchors a
    block at the last row: below every anchor there is a sub-header row,
    and the last row of the frame is no anchor, whatever it holds. *)
Theorem C9_anchor_above_last_row (df : DataFrame) :
  (forall r c, find_header_blocks df <> Raise (IndexError_iat r c)) /\
  (forall blocks, find_header_blocks df = Ok blocks ->
     (forall a ym, In (a, ym) blocks -> a + 1 < n_rows df) /\
     ~ In (n_rows df - 1) (anchors blocks)).
Proof.
  split; [apply in_bounds_scan_rows|].
  intros blocks H. apply find_header_blocks_detected in H.
  assert (Hin : forall a ym, In (a, ym) blocks -> a + 1 < n_rows df)
    by (intros a ym Hin; now destruct (detected_In _ _ _ _ _ H Hin)).
  split; [exact Hin|].
  unfold anchors. intros Hlast. apply in_map_iff in Hlast as ([a ym] & Ha & Hb).
  simpl in Ha. specialize (Hin _ _ Hb). lia.
Qed.

Lemma C9_witness :
  find_header_blocks census_frame = Ok census_blocks /\
  three_period_tokens census_frame (n_rows census_frame - 1) /\
  (forall a ym, In (a, ym) census_blocks -> a + 1 < n_rows census_frame) /\
  ~ In (n_rows census_frame - 1) (anchors census_blocks).
Proof.
  split; [vm_compute; reflexivity|]. split.
  - exists 1, 2, 3, 1996%Z, 1992%Z, 1988%Z.
    repeat split; try (vm_compute; lia); vm_compute; reflexivity.
  - apply (proj2 (C9_anchor_above_last_row census_frame) census_blocks).
    vm_compute; reflexivity.
Defined.

(** C2. For every frame and every detected block, the row extractor,
    starting at anchor + 2, goes through every row before the first row
    that holds three period tokens in the columns 1 and beyond, and stops
    there (or at the end of the frame): its records are the records of
    those rows, row by row.  That first row is the next block's anchor
    when there is a next block; after the last block it can only be the
    last row of the frame. *)
Theorem C2_extraction_stops_at_next_header
    (df : DataFrame) (blocks : list block) (k a : nat) (ym : year_map)
    (recs : list record) :
  find_header_blocks df = Ok blocks ->
  nth_error blocks k = Some (a, ym) ->
  parse_block df a ym = Ok recs ->
  exists stop per_row,
    a + 2 <= stop <= n_rows df /\
    (forall q, a + 2 <= q < stop -> ~ three_period_tokens df q) /\
    (stop < n_rows df -> three_period_tokens df stop) /\
    match nth_error blocks (S k) with
    | Some (b, _) => stop = b
    | None => n_rows df - 1 <= stop
    end /\
    Forall2 (fun q rs => parse_row df ym q [] = Ok rs)
            (seq (a + 2) (stop - (a + 2))) per_row /\
    recs = concat per_row.
Proof.
  intros Hblocks Hk Hparse.
  apply find_header_blocks_detected in Hblocks.
  pose proof (detected_next _ _ _ _ _ _ Hblocks Hk) as Hnext.
  destruct (detected_In _ _ _ _ _ Hblocks (nth_error_In _ _ Hk)) as (Ha & _).
  apply parse_block_spec in Hparse
    as (stop & per & Hlo & Hhi & Hbefore & Hstop & Hrows & ->).
  assert (Hbefore' : forall q, a + 2 <= q < stop -> ~ three_period_tokens df q).
  { intros q Hq Ht. apply (header_like_spec _ _ _ (Hbefore q Hq)) in Ht.
    discriminate. }
  assert (Hstop' : stop < n_rows df -> three_period_tokens df stop).
  { intros Hs. now apply (header_like_spec _ _ _ (Hstop Hs)). }
  exists stop, per. repeat split; auto; try lia.
  destruct (nth_error blocks (S k)) as [[b ymb]|] eqn:Enext.
  - destruct Hnext as (Hab & Hb & Hskip).
    destruct (detected_In _ _ _ _ _ Hblocks (nth_error_In _ _ Enext)) as (Hb1 & _).
    destruct (Nat.lt_total stop b) as [Hlt|[Heq|Hgt]]; auto.
    + exfalso. apply (Hskip stop); [lia | apply Hstop'; lia].
    + exfalso. apply (Hbefore' b); [lia | exact Hb].
  - destruct (Nat.lt_ge_cases stop (n_rows df - 1)) as [Hlt|]; auto.
    exfalso. apply (Hnext stop); [lia | lia | apply Hstop'; lia].
Qed.

Lemma C2_witness :
  find_header_blocks census_frame = Ok census_blocks /\
  nth_error census_blocks 0 = Some (0, census_year_map) /\
  parse_block census_frame 0 census_year_map = Ok census_block0_records /\
  exists stop per_row,
    0 + 2 <= stop <= n_rows census_frame /\
    (forall q, 0 + 2 <= q < stop -> ~ three_period_tokens census_frame q) /\
    (stop < n_rows census_frame -> three_period_tokens census_frame stop) /\
    match nth_error census_blocks 1 with
    | Some (b, _) => stop = b
    | None => n_rows census_frame - 1 <= stop
    end /\
    Forall2 (fun q rs => parse_row census_frame census_year_map q [] = Ok rs)
            (seq (0 + 2) (stop - (0 + 2))) per_row /\
    census_block0_records = concat per_row.
Proof.
  split; [vm_compute; reflexivity|].
  split; [reflexivity|].
  split; [vm_compute; reflexivity|].
  apply (C2_extraction_stops_at_next_header
           census_frame census_blocks 0 0 census_year_map census_block0_records);
    vm_compute; reflexivity.
Defined.





(** C6. In a detected block every period of the year map comes from a
    period token of the anchor row, with the columns that the sub-header
    cells below it name.  For a data row that is not passed over, each
    period yields the cleaned value of the column chosen under the order
    citizen, then total: the citizen column when one is mapped, otherwise
    the total column, and nothing when neither is mapped. *)
Theorem C6_citizen_column_preferred
    (df : DataFrame) (blocks : list block) (a : nat) (ym : year_map)
    (r : nat) (state_raw : cell) (recs : list record) :
  find_header_blocks df = Ok blocks ->
  In (a, ym) blocks ->
  iat df r 0 = Ok state_raw ->
  skip_state (state_label state_raw) = false ->
  parse_row df ym r [] = Ok recs ->
  Forall (fun entry =>
            exists j, 1 <= j < n_cols df /\ period_token df a j (fst entry) /\
              snd entry = (variant_column df (a + 1) (txt "total") j,
                           variant_column df (a + 1) (txt "citizen") j)) ym /\
  exists per_year,
    Forall2 (year_outcome df r (state_label state_raw)) ym per_year /\
    recs = concat per_year.
Proof.
  intros Hblocks Hin Hraw Hskip Hrow.
  apply find_header_blocks_detected in Hblocks.
  pose proof (detected_year_map _ _ _ _ _ Hblocks Hin) as Hym.
  split; [exact Hym|].
  pose proof (parse_row_spec _ _ _ _ _ Hraw Hrow) as Hc. rewrite Hskip in Hc.
  apply collect_Ok in Hc as (per & HF & ->).
  exists per. split; [|reflexivity].
  clear Hrow Hin. induction HF as [|entry rs ym' per' Hentry _ IH].
  - constructor.
  - inversion Hym as [|? ? (j & Hj & _ & Hcols) Hym']; subst.
    constructor; auto.
    apply extract_year_outcome; auto.
    intros c Hc. rewrite Hcols in Hc. unfold resolve, mapped in Hc.
    cbn [fst snd] in Hc.
    destruct (variant_column df (a + 1) (txt "citizen") j) eqn:Ec.
    + injection Hc as <-. eapply variant_column_range; eauto.
    + destruct (variant_column df (a + 1) (txt "total") j) eqn:Et;
        [|discriminate Hc].
      injection Hc as <-. eapply variant_column_range; eauto.
Qed.

Lemma C6_witness :
  find_header_blocks census_frame = Ok census_blocks /\
  In (0, census_year_map) census_blocks /\
  iat census_frame 3 0 = Ok (str "Alabama") /\
  skip_state (state_label (str "Alabama")) = false /\
  parse_row census_frame census_year_map 3 [] = Ok census_row3_records /\
  Forall (fun entry =>
            exists j, 1 <= j < n_cols census_frame /\
              period_token census_frame 0 j (fst entry) /\
              snd entry = (variant_column census_frame (0 + 1) (txt "total") j,
                           variant_column census_frame (0 + 1) (txt "citizen") j))
         census_year_map /\
  exists per_year,
    Forall2 (year_outcome census_frame 3 (state_label (str "Alabama")))
            census_year_map per_year /\
    census_row3_records = concat per_year.
Proof.
  split; [vm_compute; reflexivity|].
  split; [left; reflexivity|].
  split; [reflexivity|].
  split; [vm_compute; reflexivity|].
  split; [vm_compute; reflexivity|].
  apply (C6_citizen_column_preferred census_frame census_blocks 0
           census_year_map 3 (str "Alabama") census_row3_records).
  - vm_compute; reflexivity.
  - left; reflexivity.
  - reflexivity.
  - vm_compute; reflexivity.
  - vm_compute; reflexivity.
Defined.

(** ** The whole normalisation *)

Lemma normalize_frame_with_Ok parse df out :
  normalize_frame_with parse df = Ok out ->
  exists b rest per_block,
    find_header_blocks df = Ok (b :: rest) /\
    Forall2 (fun b recs => parse df (fst b) (snd b) = Ok recs)
            (b :: rest) per_block /\
    out = sort_records (concat per_block).
Proof.
  unfold normalize_frame_with. intros H. bind_inv H as blocks Hblocks.
  destruct blocks as [|b rest]; [discriminate|]. simpl negb in H. cbv iota in H.
  bind_inv H as all Hall. injection H as <-.
  rewrite for_each_collect with (g := fun b => parse df (fst b) (snd b)) in Hall.
  2:{ intros acc [hr ym]. reflexivity. }
  bind_inv Hall as ys Hys. injection Hall as <-.
  apply collect_Ok in Hys as (per & HF & ->).
  exists b, rest, per. auto.
Qed.

Example census_sheet_records : normalize_a5a census_sheet = Ok census_records.
Proof. vm_compute. reflexivity. Qed.

(** C7. The records that [normalize_a5a] returns are the records of all
    blocks, block after block, in stable ascending order of (year, state):
    a permutation of them (nothing is dropped or merged, so records of
    equal year and state all remain), ordered by year and then by state,
    with records of equal key in their order of extraction.  The same
    holds for the records of the input files that [normalize_turnout]
    appends before it sorts. *)
Theorem C7_output_is_stable_sort :
  (forall sheet out,
     normalize_a5a sheet = Ok out ->
     exists blocks per_block,
       find_header_blocks (dropna_cols (dropna_rows sheet)) = Ok blocks /\
       Forall2 (fun b recs =>
                  parse_block (dropna_cols (dropna_rows sheet)) (fst b) (snd b)
                  = Ok recs) blocks per_block /\
       stable_sort_of (concat per_block) out) /\
  (forall r1 r2 r3 r4,
     stable_sort_of
       (r1 ++ r2 ++ r3 ++ match r4 with Some rs => rs | None => [] end)
       (turnout_main_records r1 r2 r3 r4)).
Proof.
  split.
  - intros sheet out H.
    apply normalize_frame_with_Ok in H as (b & rest & per & Hb & HF & ->).
    exists (b :: rest), per. repeat split; auto; apply sort_records_stable_sort.
  - intros r1 r2 r3 r4. unfold turnout_main_records. simpl app.
    destruct r4 as [rs|].
    + rewrite <- !app_assoc. apply sort_records_stable_sort.
    + rewrite app_nil_r, <- app_assoc. apply sort_records_stable_sort.
Qed.

Lemma C7_witness :
  normalize_a5a census_sheet = Ok census_records /\
  exists blocks per_block,
    find_header_blocks (dropna_cols (dropna_rows census_sheet)) = Ok blocks /\
    Forall2 (fun b recs =>
               parse_block (dropna_cols (dropna_rows census_sheet)) (fst b) (snd b)
               = Ok recs) blocks per_block /\
    stable_sort_of (concat per_block) census_records.
Proof.
  split; [vm_compute; reflexivity|].
  apply (proj1 C7_output_is_stable_sort census_sheet census_records).
  vm_compute; reflexivity.
Defined.

(** Records of equal year and state are all kept, in their input order. *)
Example duplicates_remain :
  let a := {| year := 2016; state := txt "Ohio"; turnout := S754_zero false |} in
  let b := {| year := 2016; state := txt "Ohio"; turnout := S754_zero true |} in
  let c := {| year := 2012; state := txt "Utah"; turnout := S754_zero false |} in
  turnout_main_records [a] [b; c] [a] None = [c; a; b; a].
Proof. reflexivity. Qed.

(** C8. When the detector finds no block in a frame, the normalisation
    raises [ValueError] with the message that no header blocks could be
    detected, whatever the row extractor would do (it is not called); a
    record list is returned only when at least one block was found. *)
Theorem C8_no_blocks_is_a_hard_failure (df : DataFrame) :
  (find_header_blocks df = Ok [] ->
   forall parse,
     normalize_frame_with parse df = Raise (ValueError_msg no_blocks_message)) /\
  (forall parse out,
     normalize_frame_with parse df = Ok out ->
     exists b rest, find_header_blocks df = Ok (b :: rest)).
Proof.
  split.
  - intros H parse. unfold normalize_frame_with. now rewrite H.
  - intros parse out H.
    apply normalize_frame_with_Ok in H as (b & rest & per & Hb & _).
    eauto.
Qed.

Lemma C8_witness :
  find_header_blocks two_year_frame = Ok [] /\
  (forall parse,
     normalize_frame_with parse two_year_frame
     = Raise (ValueError_msg no_blocks_message)) /\
  normalize_frame_with parse_block census_frame = Ok census_records /\
  exists b rest, find_header_blocks census_frame = Ok (b :: rest).
Proof.
  split; [vm_compute; reflexivity|].
  split.
  - apply (proj1 (C8_no_blocks_is_a_hard_failure two_year_frame)).
    vm_compute; reflexivity.
  - split; [vm_compute; reflexivity|].
    apply (proj2 (C8_no_blocks_is_a_hard_failure census_frame)
                 parse_block census_records).
    vm_compute; reflexivity.
Defined.

(** C10. Every record that [normalize_a5a] returns has its year within
    1900..2100. *)
Theorem C10_record_years_within_bounds (sheet : DataFrame) (out : list record) :
  normalize_a5a sheet = Ok out ->
  Forall (fun rec => (1900 <= year rec <= 2100)%Z) out.
Proof.
  intros H. unfold normalize_a5a, normalize_frame in H.
  apply normalize_frame_with_Ok in H as (b & rest & per & Hb & HF & ->).
  apply find_header_blocks_detected in Hb.
  eapply Permutation_Forall; [apply sort_records_perm|].
  apply Forall_concat.
  assert (Haux : forall blocks per0,
    (forall blk, In blk blocks -> In blk (b :: rest)) ->
    Forall2 (fun b recs =>
               parse_block (dropna_cols (dropna_rows sheet)) (fst b) (snd b)
               = Ok recs) blocks per0 ->
    Forall (Forall (fun rec => (1900 <= year rec <= 2100)%Z)) per0).
  { intros blocks per0 Hall HF0.
    induction HF0 as [|[a ym] recs blocks' per' Hparse _ IH]; constructor.
    - simpl in Hparse. apply parse_block_years in Hparse.
      pose proof (detected_year_map _ _ _ _ _ Hb (Hall _ (or_introl eq_refl)))
        as Hym.
      eapply Forall_impl; [|exact Hparse]. simpl. intros rec Hrec.
      apply in_map_iff in Hrec as ([y cols] & Hy & Hentry). simpl in Hy.
      rewrite Forall_forall in Hym.
      destruct (Hym _ Hentry) as (j & _ & Htok & _).
      apply is_year_str_bounds in Htok. simpl in Htok. now rewrite <- Hy.
    - apply IH. intros blk Hblk. apply Hall. now right. }
  now apply (Haux (b :: rest) per).
Qed.

Lemma C10_witness :
  normalize_a5a census_sheet = Ok census_records /\
  Forall (fun rec => (1900 <= year rec <= 2100)%Z) census_records.
Proof.
  split; [vm_compute; reflexivity|].
  apply (C10_record_years_within_bounds census_sheet census_records).
  vm_compute; reflexivity.
Defined.

(** ** The value cleaner *)

(** C3 as worded fails: a percent sign inside the digits is removed as
    well.  The text [6%3] does not parse once a trailing percent sign and
    the commas are gone, yet the cleaner returns 63.0. *)
Lemma C3_counterexample :
  ~ (forall s,
       (forall x, py_float_of_text (claimed_numeral s) <> Ok x) ->
       clean_percentage_like (PyStr s) = Ok None).
Proof.
  intros H. specialize (H (txt "6%3")).
  assert (Hclean : clean_percentage_like (PyStr (txt "6%3")) = Ok (Some double_63))
    by (vm_compute; reflexivity).
  rewrite Hclean in H.
  assert (Hnone : Ok (Some double_63) = @Ok (option float) None); [|discriminate Hnone].
  apply H. intros x Hx. vm_compute in Hx. discriminate Hx.
Qed.

(** An [int] beyond the range of a [float] makes [float()] raise. *)
Example clean_int_overflow :
  clean_percentage_like (PyInt (2 ^ 1024)) = Raise (OverflowError_float (2 ^ 1024)).
Proof. vm_compute. reflexivity. Qed.

(** C3, as the code has it.  The cleaner returns an optional float:
    absent for [None] and for a NaN float; a [bool], an [int] that
    [float()] converts, and any other float pass through as floats.  For
    text it never raises: it returns absent for blank text, for [nan] in
    any letter case after trimming, and whenever the text, with every
    percent sign and every comma removed (wherever they stand) and trimmed
    again, does not parse as a float; otherwise the parsed float.  A text
    that matches [^\s*\d+(\.\d+)?%?\s*$] once its commas are removed yields
    the double nearest to its decimal value. *)
Theorem C3_value_cleaner :
  clean_percentage_like PyNone = Ok None /\
  (forall x, clean_percentage_like (PyFloat x)
             = Ok (if is_nan x then None else Some x)) /\
  clean_percentage_like (PyBool true) = Ok (Some double_1) /\
  clean_percentage_like (PyBool false) = Ok (Some (S754_zero false)) /\
  (forall n x, py_float_of_int n = Ok x ->
               clean_percentage_like (PyInt n) = Ok (Some x)) /\
  (forall s, clean_percentage_like (PyStr s) = Ok (text_value s)) /\
  (forall s ip fp,
     percent_pattern (remove_char ","%char s) ip fp ->
     clean_percentage_like (PyStr s)
     = Ok (Some (decimal_to_double false (digits_val (ip ++ fp))
                                   (- Z.of_nat (length fp))))) /\
  clean_percentage_like (str "63.6%") = Ok (Some double_63_6) /\
  clean_percentage_like (str "1,234.5") = Ok (Some double_1234_5).
Proof.
  split; [reflexivity|].
  split; [intros x; simpl; now destruct (is_nan x)|].
  split; [vm_compute; reflexivity|].
  split; [vm_compute; reflexivity|].
  split; [intros n x H; simpl; now rewrite H|].
  split.
  { intros s. rewrite clean_text. unfold text_value.
    destruct (_ || _); auto. unfold float_or_None.
    destruct (py_float_of_text_cases (strip (remove_marks s))) as [[x ->] | ->];
      reflexivity. }
  split; [apply clean_percent_pattern|].
  split; vm_compute; reflexivity.
Qed.

Lemma C3_witness :
  percent_pattern (remove_char ","%char (txt " 1,234.5% ")) (txt "1234") (txt "5") /\
  clean_percentage_like (PyStr (txt " 1,234.5% ")) = Ok (Some double_1234_5).
Proof.
  assert (Hp : percent_pattern (remove_char ","%char (txt " 1,234.5% "))
                               (txt "1234") (txt "5")).
  { exists [" "%char], [" "%char], ["%"%char].
    repeat split; try reflexivity; try discriminate. now right. }
  split; [exact Hp|].
  exact (proj1 (proj2 (proj2 (proj2 (proj2 (proj2 (proj2 C3_value_cleaner))))))
               (txt " 1,234.5% ") (txt "1234") (txt "5") Hp).
Defined.

(** ** The recogniser on digits that are not decimal *)

(** C4 fails on the code.  A four-character text of digits, one of which
    is not a decimal digit, passes the [len(s) == 4 and s.isdigit()] test;
    [int(s)] then raises [ValueError], which nothing catches: the
    recogniser neither returns a period nor "not a period", and the
    detector and the extractor that call it on every cell raise too. *)
Theorem C4_recogniser_raises_on_superscript_digit :
  length (strip footnoted_year) = 4 /\
  isdigit (strip footnoted_year) = true /\
  is_year_str footnoted_year = Raise (ValueError_int footnoted_year) /\
  find_header_blocks footnoted_frame = Raise (ValueError_int footnoted_year) /\
  normalize_a5a footnoted_frame = Raise (ValueError_int footnoted_year).
Proof. repeat split; vm_compute; reflexivity. Qed.

(** * Further properties of the modules *)

(** ** [normalize_census_a5a.py] *)

(** X1. On a text whose characters all lie in U+0000..U+00FF (the texts
    of this development, where the decimal digits are [0] to [9] and the
    other digit characters are the superscripts U+00B2, U+00B3, U+00B9),
    [is_year_str] returns a year exactly when the text, trimmed, is four
    decimal digits whose value lies in 1900..2100, and that value is the
    year; it raises exactly when the trimmed text is four digit characters
    that are not all decimal, with the [ValueError] of [int()]; in every
    other case it returns [None]. *)
Theorem X1_is_year_str_exact (s : text) :
  (forall y,
     is_year_str s = Ok (Some y) <->
     length (strip s) = 4 /\ forallb isdecimal_char (strip s) = true /\
     y = digits_val (strip s) /\ (1900 <= y <= 2100)%Z) /\
  (forall e,
     is_year_str s = Raise e <->
     length (strip s) = 4 /\ isdigit (strip s) = true /\
     forallb isdecimal_char (strip s) = false /\
     e = ValueError_int (strip s)) /\
  ((forall y, is_year_str s <> Ok (Some y)) ->
   (forall e, is_year_str s <> Raise e) ->
   is_year_str s = Ok None).
Proof.
  split; [intros y; apply is_year_str_spec|]. split.
  - intros e. rewrite is_year_str_cases.
    destruct (Nat.eqb_spec (length (strip s)) 4) as [Hl|Hl]; simpl.
    + destruct (isdigit (strip s)); simpl.
      * destruct (forallb isdecimal_char (strip s)).
        -- destruct (_ && _)%Z; split; try discriminate;
             intros (_ & _ & H & _); discriminate.
        -- split; [intros [= <-]; auto | intros (_ & _ & _ & ->); reflexivity].
      * split; [discriminate | intros (_ & H & _); discriminate].
    + split; [discriminate | intros (H & _); contradiction].
  - intros Hy He. pose proof (returns_is_year_str s) as Hr.
    destruct (is_year_str s) as [[y|]|e|]; auto.
    + now destruct (Hy y).
    + now destruct (He e).
    + now destruct Hr.
Qed.

Lemma X1_witness : is_year_str (txt " 2020 ") = Ok (Some 2020%Z).
Proof.
  apply (proj1 (X1_is_year_str_exact (txt " 2020 ")) 2020%Z).
  repeat split; vm_compute; try reflexivity; discriminate.
Defined.

Lemma detected_complete df i blocks :
  detected df i blocks ->
  forall r, i <= r -> r + 1 < n_rows df -> three_period_tokens df r ->
  In r (anchors blocks) \/ exists a, In a (anchors blocks) /\ r = a + 1.
Proof.
  induction 1 as [i Hend | i a years ym rest Hia Ha Hsk Hy H3 Hym Hrest IH];
    intros r Hr Hrow Htok.
  - exfalso. now apply (Hend r).
  - destruct (Nat.lt_ge_cases r a) as [Hlt|Hge].
    + exfalso. apply (Hsk r); auto.
    + destruct (Nat.eq_dec r a) as [->|Hne]; [left; now left|].
      destruct (Nat.eq_dec r (a + 1)) as [->|Hne'].
      * right. exists a. split; [now left | reflexivity].
      * destruct (IH r) as [Hin|(b & Hin & Hb)]; auto; try lia.
        -- left. now right.
        -- right. exists b. split; [now right | exact Hb].
Qed.

(** X2. The detector misses no header: every row but the last that
    holds three period tokens is an anchor of a returned block, or the row
    directly below one (which is read as that block's sub-header). *)
Theorem X2_detector_finds_every_header
    (df : DataFrame) (blocks : list block) (r : nat) :
  find_header_blocks df = Ok blocks ->
  three_period_tokens df r ->
  r + 1 < n_rows df ->
  In r (anchors blocks) \/ exists a, In a (anchors blocks) /\ r = a + 1.
Proof.
  intros H Htok Hr. apply find_header_blocks_detected in H.
  apply (detected_complete _ _ _ H r); auto. lia.
Qed.

Lemma X2_witness :
  find_header_blocks stacked_header_frame
  = Ok [ (0, [ (2020%Z, (None, None)); (2016%Z, (None, None));
               (2012%Z, (None, None)) ]);
         (3, [ (2008%Z, (Some 1, None)); (2004%Z, (Some 2, None));
               (2000%Z, (Some 3, None)) ]) ] /\
  three_period_tokens stacked_header_frame 1 /\
  (In 1 [0; 3] \/ exists a, In a [0; 3] /\ 1 = a + 1).
Proof.
  assert (Ht : three_period_tokens stacked_header_frame 1).
  { exists 1, 2, 3, 2020%Z, 2016%Z, 2012%Z.
    repeat split; try (vm_compute; lia); vm_compute; reflexivity. }
  split; [vm_compute; reflexivity|]. split; [exact Ht|].
  apply (X2_detector_finds_every_header stacked_header_frame
           [ (0, [ (2020%Z, (None, None)); (2016%Z, (None, None));
                   (2012%Z, (None, None)) ]);
             (3, [ (2008%Z, (Some 1, None)); (2004%Z, (Some 2, None));
                   (2000%Z, (Some 3, None)) ]) ] 1).
  - vm_compute; reflexivity.
  - exact Ht.
  - vm_compute; lia.
Defined.

Lemma state_label_strip v : strip (state_label v) = state_label v.
Proof. destruct v; simpl; auto; apply strip_idem. Qed.

Lemma parse_row_labels df ym r recs :
  parse_row df ym r [] = Ok recs ->
  Forall (fun rec => skip_state (state rec) = false /\
                     strip (state rec) = state rec) recs.
Proof.
  unfold parse_row. intros H. bind_inv H as v Hv.
  destruct (skip_state (state_label v)) eqn:Hskip;
    [injection H as <-; constructor|].
  revert H.
  apply for_each_invariant with
    (P := fun recs => Forall (fun rec => skip_state (state rec) = false /\
                                         strip (state rec) = state rec) recs).
  - constructor.
  - intros s [y [t c]] s' Hin Hs Hstep. unfold extract_year in Hstep.
    destruct (col_idx t c) as [col|]; [|now injection Hstep as <-].
    destruct (n_cols df <=? col); [now injection Hstep as <-|].
    bind_inv Hstep as x Hx. bind_inv Hstep as t' Ht'.
    destruct t'; injection Hstep as <-; auto.
    apply Forall_app. split; auto. constructor; [|constructor].
    simpl. split; [exact Hskip | apply state_label_strip].
Qed.

(** X4. No record that [normalize_a5a] returns carries a label that the
    extractor passes over: every [state] is a trimmed, non-empty text that
    does not begin with [table] and is neither [nan] nor [united states],
    in any letter case. *)
Theorem X4_records_carry_kept_labels (sheet : DataFrame) (out : list record) :
  normalize_a5a sheet = Ok out ->
  Forall (fun rec =>
            state rec <> [] /\ strip (state rec) = state rec /\
            startswith (txt "table") (lower (state rec)) = false /\
            lower (state rec) <> txt "nan" /\
            lower (state rec) <> txt "united states") out.
Proof.
  intros H. unfold normalize_a5a, normalize_frame in H.
  apply normalize_frame_with_Ok in H as (b & rest & per & _ & HF & ->).
  eapply Permutation_Forall; [apply sort_records_perm|].
  apply Forall_concat.
  induction HF as [|[a ym] recs blocks' per' Hparse _ IH]; constructor; auto.
  simpl in Hparse. apply parse_block_spec in Hparse
    as (stop & rows & _ & _ & _ & _ & Hrows & ->).
  apply Forall_concat.
  clear IH. induction Hrows as [|q rs qs rows' Hq _ IH]; constructor; auto.
  apply parse_row_labels in Hq.
  eapply Forall_impl; [|exact Hq]. simpl. intros rec [Hskip Hstrip].
  pose proof (skip_state_spec (state rec)) as Hspec.
  repeat split; auto.
  - intros E. rewrite E in Hskip. discriminate.
  - destruct (startswith (txt "table") (lower (state rec))) eqn:E; auto.
    rewrite (proj2 Hspec) in Hskip by auto. discriminate.
  - intros E. rewrite (proj2 Hspec) in Hskip by auto. discriminate.
  - intros E. rewrite (proj2 Hspec) in Hskip by auto. discriminate.
Qed.

Lemma X4_witness :
  normalize_a5a census_sheet = Ok census_records /\
  Forall (fun rec =>
            state rec <> [] /\ strip (state rec) = state rec /\
            startswith (txt "table") (lower (state rec)) = false /\
            lower (state rec) <> txt "nan" /\
            lower (state rec) <> txt "united states") census_records.
Proof.
  split; [vm_compute; reflexivity|].
  apply (X4_records_carry_kept_labels census_sheet census_records).
  vm_compute; reflexivity.
Defined.

Lemma dict_set_keys {V} k (v : V) d k' :
  In k' (map fst (dict_set k v d)) <-> k' = k \/ In k' (map fst d).
Proof.
  induction d as [|[k0 v0] d IH]; simpl.
  - intuition.
  - destruct (Z.eqb_spec k0 k) as [->|Hne]; simpl; [intuition|].
    rewrite IH. intuition.
Qed.

Lemma dict_set_NoDup {V} k (v : V) d :
  NoDup (map fst d) -> NoDup (map fst (dict_set k v d)).
Proof.
  induction d as [|[k0 v0] d IH]; simpl; intros H.
  - repeat constructor. intros [].
  - inversion H as [|? ? Hnot Hd]; subst.
    destruct (Z.eqb_spec k0 k) as [->|Hne]; simpl; [now constructor|].
    constructor; auto. rewrite dict_set_keys. intros [->|Hin]; auto.
Qed.

Lemma dict_set_In_strong {V} k (v : V) d k' v' :
  NoDup (map fst d) ->
  In (k', v') (dict_set k v d) ->
  (k' = k /\ v' = v) \/ (k' <> k /\ In (k', v') d).
Proof.
  induction d as [|[k0 v0] d IH]; simpl; intros Hn.
  - intros [[= <- <-]|[]]. auto.
  - inversion Hn as [|? ? Hnot Hd]; subst.
    destruct (Z.eqb_spec k0 k) as [->|Hne]; simpl.
    + intros [[= <- <-]|H]; auto. right. split; auto.
      intros ->. apply Hnot. apply (in_map fst) in H. exact H.
    + intros [[= <- <-]|H]; auto. destruct (IH Hd H) as [?|[? ?]]; auto.
Qed.

(** A loop of [d[y] = g(j)] over the pairs [(j, y)]: the keys stay
    distinct, and each key holds the value of the last pair that names
    it. *)
Lemma dict_fold_last {V} (g : nat -> result V) :
  forall (years : list (nat * Z)) (acc out : list (Z * V)),
  for_each (fun ym (jy : nat * Z) =>
              let '(j, y) := jy in cols <- g j ;; Ok (dict_set y cols ym))
           years acc = Ok out ->
  NoDup (map fst acc) ->
  NoDup (map fst out) /\
  (forall y, In y (map fst out) <-> In y (map fst acc) \/ In y (map snd years)) /\
  (forall y cols, In (y, cols) out ->
     (~ In y (map snd years) /\ In (y, cols) acc) \/
     (exists l1 j l2, years = l1 ++ (j, y) :: l2 /\ ~ In y (map snd l2) /\
                      g j = Ok cols)).
Proof.
  induction years as [|[j0 y0] r IH]; simpl; intros acc out H Hn.
  - injection H as <-. split; [exact Hn|]. split; [intuition|].
    intros y cols Hin. left. auto.
  - bind_inv H as acc' Hacc'. bind_inv Hacc' as c0 Hc0.
    assert (Ea : acc' = dict_set y0 c0 acc) by congruence. subst acc'.
    clear Hacc'.
    destruct (IH _ _ H (dict_set_NoDup y0 c0 acc Hn)) as (Hnd & Hkeys & Hent).
    split; [exact Hnd|]. split.
    + intros y. rewrite Hkeys, dict_set_keys. intuition.
    + intros y cols Hin. destruct (Hent y cols Hin) as [[Hny Hacc]|Hlast].
      * apply dict_set_In_strong in Hacc as [[-> ->]|[Hne Hacc]]; auto.
        -- right. exists [], j0, r. auto.
        -- left. split; auto. intros [E|E]; auto.
      * destruct Hlast as (l1 & j & l2 & -> & Hl2 & Hg).
        right. exists ((j0, y0) :: l1), j, l2. auto.
Qed.

Lemma sorted_split_after (l1 l2 : list (nat * Z)) (p q : nat * Z) :
  StronglySorted (fun p q => fst p < fst q) (l1 ++ p :: l2) ->
  In q (l1 ++ p :: l2) -> fst p < fst q -> In q l2.
Proof.
  induction l1 as [|x l1 IH]; simpl; intros Hs Hin Hlt.
  - inversion Hs as [|? ? _ Hall]; subst.
    destruct Hin as [E|Hin]; [subst; lia|exact Hin].
  - inversion Hs as [|? ? Hs' Hall]; subst.
    destruct Hin as [E|Hin]; [|now apply IH].
    rewrite Forall_forall in Hall. subst x.
    assert (Hp : fst q < fst p) by (apply Hall, in_elt). lia.
Qed.

(** X3. The year map of a block has one entry for each year that the
    anchor row names, whatever number of cells name it: the keys are
    pairwise distinct, they are exactly the years of the row's period
    tokens, and the columns of an entry are read below the last
    (rightmost) cell that holds that year. *)
Theorem X3_year_map_keeps_last_token
    (df : DataFrame) (blocks : list block) (a : nat) (ym : year_map) :
  find_header_blocks df = Ok blocks ->
  In (a, ym) blocks ->
  NoDup (map fst ym) /\
  (forall y, In y (map fst ym) <->
             exists j, 1 <= j < n_cols df /\ period_token df a j y) /\
  (forall y cols, In (y, cols) ym ->
     exists j, 1 <= j < n_cols df /\ period_token df a j y /\
       (forall j', j < j' < n_cols df -> ~ period_token df a j' y) /\
       cols = (variant_column df (a + 1) (txt "total") j,
               variant_column df (a + 1) (txt "citizen") j)).
Proof.
  intros H Hin. apply find_header_blocks_detected in H.
  destruct (detected_In _ _ _ _ _ H Hin) as (_ & years & Hy & _ & Hym).
  destruct (years_in_row_spec _ _ _ Hy) as (Hs & Hf & Hc).
  rewrite Forall_forall in Hf.
  unfold build_year_map in Hym.
  apply dict_fold_last in Hym as (Hnd & Hkeys & Hent); [|constructor].
  split; [exact Hnd|]. split.
  - intros y. rewrite Hkeys. simpl. split.
    + intros [[]|Hy']. apply in_map_iff in Hy' as ([j y'] & E & Hjy).
      simpl in E. subst y'. destruct (Hf _ Hjy) as [Hr Ht]. exists j. auto.
    + intros (j & Hj & Ht). right. apply in_map_iff. exists (j, y).
      split; auto.
  - intros y cols Hyc. destruct (Hent y cols Hyc) as [[_ []]|Hlast].
    destruct Hlast as (l1 & j & l2 & E & Hl2 & Hg).
    assert (Hjy : In (j, y) years) by (rewrite E; apply in_elt).
    destruct (Hf _ Hjy) as [Hr Ht]. simpl in Hr, Ht.
    exists j. repeat split; try lia; auto.
    + intros j' Hj' Ht'.
      assert (Hin' : In (j', y) years) by (apply Hc; auto; lia).
      rewrite E in Hs, Hin'.
      assert (Hafter : In (j', y) l2)
        by (apply (sorted_split_after l1 l2 (j, y) (j', y) Hs Hin'); simpl; lia).
      apply Hl2. apply in_map_iff. exists (j', y). auto.
    + now apply subheader_columns_spec.
Qed.

Lemma X3_witness :
  find_header_blocks repeated_year_frame = Ok [(0, [(2020%Z, (Some 3, None))])] /\
  NoDup (map fst [(2020%Z, (Some 3, @None nat))]).
Proof.
  split; [vm_compute; reflexivity|].
  apply (X3_year_map_keeps_last_token repeated_year_frame
           [(0, [(2020%Z, (Some 3, None))])] 0 [(2020%Z, (Some 3, None))]).
  - vm_compute; reflexivity.
  - now left.
Defined.

Lemma for_each_Raise {A S} (f : S -> A -> result S) e :
  forall l s, for_each f l s = Raise e ->
  exists x s', In x l /\ f s' x = Raise e.
Proof.
  induction l as [|x r IH]; simpl; intros s H; [discriminate|].
  destruct (f s x) as [s'|e'|] eqn:E; simpl in H; try discriminate.
  - destruct (IH _ H) as (y & s'' & Hin & Hy). eauto.
  - injection H as <-. eauto.
Qed.

Lemma in_range lo hi j : In j (range lo hi) <-> lo <= j < hi.
Proof. unfold range. rewrite in_seq. lia. Qed.

Lemma years_in_row_Raise df i e :
  i < n_rows df -> years_in_row df i = Raise e -> cell_failure df e.
Proof.
  intros Hi H. apply for_each_Raise in H as (j & years & Hj & H).
  apply in_range in Hj.
  rewrite iat_in_range in H by lia. cbn [bind] in H.
  rewrite is_year_str_strip in H.
  destruct (is_year_str (py_str (values df i j))) as [[y|]|e'|] eqn:E;
    simpl in H; try discriminate.
  injection H as <-. left. exists i, j. auto.
Qed.

Lemma years_here_Raise df i e :
  i < n_rows df -> years_here df i = Raise e -> cell_failure df e.
Proof.
  intros Hi H. apply for_each_Raise in H as (j & years & Hj & H).
  apply in_range in Hj.
  rewrite iat_in_range in H by lia. cbn [bind] in H.
  destruct (is_year_str (py_str (values df i j))) as [[y|]|e'|] eqn:E;
    simpl in H; try discriminate.
  injection H as <-. left. exists i, j. auto.
Qed.

Lemma subheader_no_Raise df sub_r j e :
  sub_r < n_rows df -> subheader df sub_r j <> Raise e.
Proof.
  intros Hr. unfold subheader.
  destruct (Nat.ltb_spec j (n_cols df)); [|discriminate].
  rewrite iat_in_range by auto. discriminate.
Qed.

Lemma build_year_map_no_Raise df sub_r years e :
  sub_r < n_rows df -> build_year_map df sub_r years <> Raise e.
Proof.
  intros Hr H. apply for_each_Raise in H as ([j y] & ym & _ & H).
  unfold subheader_columns in H.
  destruct (subheader df sub_r j) as [s0|e0|] eqn:E0; simpl in H;
    try discriminate.
  - destruct (subheader df sub_r (j + 1)) as [s1|e1|] eqn:E1; simpl in H;
      try discriminate.
    now apply subheader_no_Raise in E1.
  - now apply subheader_no_Raise in E0.
Qed.

Lemma scan_rows_Raise df e fuel : forall i blocks,
  scan_rows df fuel i blocks = Raise e -> cell_failure df e.
Proof.
  induction fuel as [|fuel IH]; intros i blocks H.
  - simpl in H. destruct (i <? n_rows df - 1); discriminate.
  - rewrite scan_rows_step in H.
    destruct (Nat.ltb_spec i (n_rows df - 1)) as [Hi|Hi]; [|discriminate].
    destruct (years_in_row df i) as [years|e'|] eqn:Ey; cbn [bind] in H;
      try discriminate.
    + destruct (3 <=? length years); [|eauto].
      destruct (Nat.ltb_spec (i + 1) (n_rows df)) as [Hs|Hs]; [|eauto].
      destruct (build_year_map df (i + 1) years) as [ym|e'|] eqn:Eb;
        cbn [bind] in H; try discriminate.
      * destruct (nonempty ym); eauto.
      * now apply build_year_map_no_Raise in Eb.
    + assert (e' = e) by congruence. subst e'.
      apply (years_in_row_Raise df i); auto. lia.
Qed.

Lemma py_float_of_text_Raise s e :
  py_float_of_text s = Raise e -> e = ValueError_float s.
Proof.
  intros H. destruct (py_float_of_text_cases s) as [[x E]|E]; congruence.
Qed.

Lemma clean_percentage_like_Raise v e :
  clean_percentage_like v = Raise e ->
  exists n, v = PyInt n /\ py_float_of_int n = Raise e.
Proof.
  destruct v as [|b|n|x|s]; simpl; try discriminate.
  - destruct b; vm_compute; discriminate.
  - destruct (py_float_of_int n) as [x|e'|] eqn:E; simpl; try discriminate.
    intros [= <-]. eauto.
  - destruct (is_nan x); discriminate.
  - destruct (_ || _); [discriminate|].
    destruct (float_or_None_returns
                (strip (remove_char ","%char (remove_char "%"%char (strip s)))))
      as [o ->]. discriminate.
Qed.

Lemma extract_year_Raise df r st records entry e :
  r < n_rows df ->
  extract_year df r st records entry = Raise e -> cell_failure df e.
Proof.
  intros Hr. destruct entry as [y [t c]]. unfold extract_year.
  destruct (col_idx t c) as [col|]; [|discriminate].
  destruct (Nat.leb_spec (n_cols df) col) as [Hc|Hc]; [discriminate|].
  rewrite iat_in_range by auto. cbn [bind].
  destruct (clean_percentage_like (values df r col)) as [[x|]|e'|] eqn:E;
    simpl; try discriminate.
  intros [= <-]. apply clean_percentage_like_Raise in E as (n & Hv & Hn).
  right. exists r, col, n. auto.
Qed.

Lemma parse_row_Raise df ym r records e :
  r < n_rows df -> 0 < n_cols df ->
  parse_row df ym r records = Raise e -> cell_failure df e.
Proof.
  intros Hr Hc. unfold parse_row. rewrite iat_in_range by auto. cbn [bind].
  destruct (skip_state _); [discriminate|].
  intros H. apply for_each_Raise in H as (entry & s & _ & H).
  now apply extract_year_Raise in H.
Qed.

Lemma parse_rows_Raise df ym e fuel : forall r records,
  0 < n_cols df ->
  parse_rows df ym fuel r records = Raise e -> cell_failure df e.
Proof.
  induction fuel as [|fuel IH]; intros r records Hc H.
  - simpl in H. destruct (r <? n_rows df); discriminate.
  - rewrite parse_rows_step in H.
    destruct (Nat.ltb_spec r (n_rows df)) as [Hr|Hr]; [|discriminate].
    destruct (years_here df r) as [n|e'|] eqn:Ey; cbn [bind] in H;
      try discriminate.
    + destruct (3 <=? n); [discriminate|].
      destruct (parse_row df ym r records) as [recs|e'|] eqn:Ep;
        cbn [bind] in H; try discriminate; eauto.
      assert (e' = e) by congruence. subst e'.
      now apply parse_row_Raise in Ep.
    + assert (e' = e) by congruence. subst e'.
      now apply years_here_Raise in Ey.
Qed.

Lemma detected_columns df i blocks a ym :
  detected df i blocks -> In (a, ym) blocks -> 3 < n_cols df.
Proof.
  intros Hd Hin.
  destruct (detected_In _ _ _ _ _ Hd Hin) as (_ & years & Hy & H3 & _).
  apply (three_years_tokens _ _ _ Hy) in H3
    as (j1 & j2 & j3 & _ & _ & _ & ? & ? & ? & ? & _). lia.
Qed.

Lemma normalize_frame_Raise df e :
  normalize_frame df = Raise e ->
  e = ValueError_msg no_blocks_message \/ cell_failure df e.
Proof.
  unfold normalize_frame, normalize_frame_with. intros H.
  destruct (find_header_blocks df) as [blocks|e'|] eqn:Eb; cbn [bind] in H;
    try discriminate.
  - destruct (negb (nonempty blocks)); [left; congruence|]. right.
    apply find_header_blocks_detected in Eb.
    match type of H with
    | bind ?m _ = _ => destruct m as [all|e'|] eqn:Ea
    end; cbn [bind] in H; try discriminate.
    assert (e' = e) by congruence. subst e'.
    apply for_each_Raise in Ea as ([a ym] & s & Hin & Hp).
    destruct (parse_block df a ym) as [recs|e'|] eqn:Ep; cbn [bind] in Hp;
      try discriminate.
    assert (e' = e) by congruence. subst e'.
    apply parse_rows_Raise in Ep; auto.
    apply (detected_columns _ _ _ _ _ Eb) in Hin. lia.
  - right. assert (e' = e) by congruence. subst e'.
    now apply scan_rows_Raise in Eb.
Qed.

(** X5. The ways [normalize_a5a] can fail.  On the frame left after the
    empty rows and columns are dropped, a failure is the [ValueError] for
    a sheet without header blocks, or the exception of a cell: the year
    recogniser's [ValueError] on the text of a cell past column 0, or the
    [OverflowError] of [float()] on a whole-number cell.  No read of a
    cell is ever out of the frame's bounds. *)
Theorem X5_failures_of_normalize_a5a (sheet : DataFrame) (e : exn) :
  normalize_a5a sheet = Raise e ->
  let df := dropna_cols (dropna_rows sheet) in
  (e = ValueError_msg no_blocks_message \/
   (exists r j, r < n_rows df /\ 1 <= j < n_cols df /\
                e = ValueError_int (strip (py_str (values df r j))) /\
                is_year_str (py_str (values df r j)) = Raise e) \/
   (exists r c n, r < n_rows df /\ c < n_cols df /\
                  values df r c = PyInt n /\ e = OverflowError_float n /\
                  py_float_of_int n = Raise e)) /\
  (forall r c, e <> IndexError_iat r c).
Proof.
  intros H df. unfold normalize_a5a in H. fold df in H.
  apply normalize_frame_Raise in H.
  assert (Hcases :
    e = ValueError_msg no_blocks_message \/
    (exists r j, r < n_rows df /\ 1 <= j < n_cols df /\
                 e = ValueError_int (strip (py_str (values df r j))) /\
                 is_year_str (py_str (values df r j)) = Raise e) \/
    (exists r c n, r < n_rows df /\ c < n_cols df /\
                   values df r c = PyInt n /\ e = OverflowError_float n /\
                   py_float_of_int n = Raise e)).
  { destruct H as [H|[(r & j & Hr & Hj & Hy)|(r & c & n & Hr & Hc & Hv & Hn)]];
      auto.
    - right. left. exists r, j. repeat split; auto; try lia.
      rewrite is_year_str_cases in Hy.
      destruct (_ && _); [|discriminate].
      destruct (forallb _ _); [destruct (_ && _)%Z; discriminate|].
      congruence.
    - right. right. exists r, c, n. repeat split; auto.
      unfold py_float_of_int in Hn.
      destruct (binary_normalize _ _ _ _ _); congruence. }
  split; [exact Hcases|].
  intros r c ->.
  destruct Hcases as [H'|[(? & ? & _ & _ & H' & _)|(? & ? & ? & _ & _ & _ & H' & _)]];
    discriminate.
Qed.

Lemma X5_witness :
  normalize_a5a footnoted_frame = Raise (ValueError_int footnoted_year) /\
  (forall r c, ValueError_int footnoted_year <> IndexError_iat r c).
Proof.
  split; [vm_compute; reflexivity|].
  apply (X5_failures_of_normalize_a5a footnoted_frame
           (ValueError_int footnoted_year)).
  vm_compute; reflexivity.
Defined.

(** ** [normalize_census_a5b.py] *)

Lemma a5b_extract_year_acc df i st records entry :
  A5b.extract_year df i st records entry =
  (ys <- A5b.extract_year df i st [] entry ;; Ok (records ++ ys)).
Proof.
  destruct entry as [y [t c]]. unfold A5b.extract_year.
  destruct (a5b_col_idx t c) as [col|]; simpl; [|now rewrite app_nil_r].
  destruct (n_cols df <=? col); simpl; [now rewrite app_nil_r|].
  destruct (iat df i col) as [v| |]; simpl; auto.
  destruct (A5b.clean_percentage_like v) as [[x|]| |]; simpl; auto.
  now rewrite app_nil_r.
Qed.

Lemma a5b_parse_row_acc df ym i records :
  A5b.parse_row df ym i records =
  (ys <- A5b.parse_row df ym i [] ;; Ok (records ++ ys)).
Proof.
  unfold A5b.parse_row. destruct (iat df i 0) as [v| |]; simpl; auto.
  destruct (A5b.skip_state (strip (py_str v))); simpl;
    [now rewrite app_nil_r|].
  rewrite !(for_each_collect _ _ (a5b_extract_year_acc df i (strip (py_str v)))).
  destruct (collect _ ym); reflexivity.
Qed.

Lemma seq_split a : forall l1 m x l2,
  seq a m = l1 ++ x :: l2 ->
  x = a + length l1 /\ l1 = seq a (length l1) /\ x < a + m.
Proof.
  intros l1. revert a. induction l1 as [|y l1 IH]; intros a m x l2 H.
  - destruct m as [|m]; [discriminate|]. simpl in H. injection H as <- _.
    simpl. repeat split; lia.
  - destruct m as [|m]; [discriminate|]. simpl in H. injection H as <- H.
    destruct (IH _ _ _ _ H) as (-> & E & Hlt). simpl.
    repeat split; try lia. now rewrite <- E.
Qed.

Lemma a5b_find_state_row_spec df : forall rows h,
  A5b.find_state_row df rows = Ok (Some h) ->
  exists before after, rows = before ++ h :: after /\
    h < n_rows df /\ 0 < n_cols df /\
    lower (strip (py_str (values df h 0))) = txt "state" /\
    Forall (fun i => lower (strip (py_str (values df i 0))) <> txt "state")
           before.
Proof.
  induction rows as [|i rest IH]; simpl; intros h H; [discriminate|].
  bind_inv H as v Hv. apply iat_Ok in Hv as (Hi & Hc & ->).
  destruct (text_eqb _ _) eqn:E.
  - injection H as <-. apply text_eqb_eq in E.
    exists [], rest. repeat split; auto.
  - destruct (IH _ H) as (before & after & -> & Hh & Hc' & Hl & Hb).
    exists (i :: before), after. repeat split; auto.
    constructor; auto. intros E'. apply text_eqb_eq in E'. congruence.
Qed.

Lemma a5b_normalize_frame_Ok df out :
  A5b.normalize_frame df = Ok out ->
  exists h ym per_row,
    A5b.find_state_row df (range 0 (Nat.min 20 (n_rows df))) = Ok (Some h) /\
    A5b.build_year_map df h = Ok ym /\ ym <> [] /\
    Forall2 (fun i rs => A5b.parse_row df ym i [] = Ok rs)
            (range (h + 2) (n_rows df)) per_row /\
    out = sort_records (concat per_row).
Proof.
  unfold A5b.normalize_frame. intros H. bind_inv H as oh Hh.
  destruct oh as [h|]; [|discriminate].
  bind_inv H as ym Hym. destruct ym as [|entry ym]; [discriminate|].
  cbn [nonempty negb] in H. bind_inv H as recs Hrecs. injection H as <-.
  rewrite (for_each_collect _ (fun i => A5b.parse_row df (entry :: ym) i []))
    in Hrecs by (intros; apply a5b_parse_row_acc).
  bind_inv Hrecs as ys Hys. injection Hrecs as <-.
  apply collect_Ok in Hys as (per & HF & ->).
  exists h, (entry :: ym), per. repeat split; auto. discriminate.
Qed.

(** X7. What [normalize_a5b] returns.  The header row is the first of
    the top twenty rows of the frame whose column 0, trimmed and in lower
    case, reads [state]; the year map is built from that row; every row
    from the second below it to the end of the frame is a data row, with
    no stop at a later header; and the output is the stable sort, by year
    and then label, of the rows' records taken in row order. *)
Theorem X7_a5b_header_rows_and_order (sheet : DataFrame) (out : list record) :
  A5b.normalize_a5b sheet = Ok out ->
  let df := dropna_cols (dropna_rows sheet) in
  exists h ym per_row,
    h < 20 /\ h < n_rows df /\
    lower (strip (py_str (values df h 0))) = txt "state" /\
    (forall i, i < h -> lower (strip (py_str (values df i 0))) <> txt "state") /\
    A5b.build_year_map df h = Ok ym /\ ym <> [] /\
    Forall2 (fun i rs => A5b.parse_row df ym i [] = Ok rs)
            (seq (h + 2) (n_rows df - (h + 2))) per_row /\
    stable_sort_of (concat per_row) out.
Proof.
  intros H df. unfold A5b.normalize_a5b in H. fold df in H.
  apply a5b_normalize_frame_Ok in H as (h & ym & per & Hh & Hym & Hne & HF & ->).
  apply a5b_find_state_row_spec in Hh
    as (before & after & E & Hr & _ & Hl & Hb).
  unfold range in E. rewrite Nat.sub_0_r in E.
  apply seq_split in E as (Eh & Eb & Hlt).
  exists h, ym, per.
  split; [lia|]. split; [exact Hr|]. split; [exact Hl|]. split.
  { intros i Hi. rewrite Forall_forall in Hb. apply Hb.
    rewrite Eb. apply in_seq. lia. }
  split; [exact Hym|]. split; [exact Hne|]. split; [exact HF|].
  apply sort_records_stable_sort.
Qed.

Lemma X7_witness :
  A5b.normalize_a5b registration_sheet = Ok registration_records /\
  exists h ym per_row,
    h < 20 /\ h < n_rows (dropna_cols (dropna_rows registration_sheet)) /\
    lower (strip (py_str
      (values (dropna_cols (dropna_rows registration_sheet)) h 0)))
    = txt "state" /\
    (forall i, i < h ->
       lower (strip (py_str
         (values (dropna_cols (dropna_rows registration_sheet)) i 0)))
       <> txt "state") /\
    A5b.build_year_map (dropna_cols (dropna_rows registration_sheet)) h
    = Ok ym /\ ym <> [] /\
    Forall2 (fun i rs =>
               A5b.parse_row (dropna_cols (dropna_rows registration_sheet))
                 ym i [] = Ok rs)
            (seq (h + 2)
               (n_rows (dropna_cols (dropna_rows registration_sheet)) - (h + 2)))
            per_row /\
    stable_sort_of (concat per_row) registration_records.
Proof.
  split; [vm_compute; reflexivity|].
  apply (X7_a5b_header_rows_and_order registration_sheet registration_records).
  vm_compute; reflexivity.
Defined.

Lemma is_code_char n c : is_code n c = true -> c = ascii_of_N n.
Proof.
  unfold is_code, code. intros H. apply N.eqb_eq in H.
  rewrite <- H. symmetry. apply ascii_N_embedding.
Qed.

Lemma digit_val_range c : isdecimal_char c = true -> (0 <= digit_val c <= 9)%Z.
Proof.
  unfold isdecimal_char, between, digit_val. intros H.
  apply andb_true_iff in H as [H1 H2].
  apply N.leb_le in H1. apply N.leb_le in H2. lia.
Qed.

Lemma a5b_year_cell s :
  A5b.is_year_cell s = true ->
  exists y, py_int s = Ok y /\ (1900 <= y <= 2099)%Z.
Proof.
  destruct s as [|a [|b [|c [|d [|x s]]]]]; try discriminate.
  unfold A5b.is_year_cell. intros H.
  apply andb_true_iff in H as [H Hd]. apply andb_true_iff in H as [Hab Hc].
  pose proof (digit_val_range c Hc) as Rc.
  pose proof (digit_val_range d Hd) as Rd.
  assert (Hdig : forallb isdecimal_char [a; b; c; d] = true).
  { simpl. rewrite Hc, Hd.
    apply orb_true_iff in Hab as [Hab|Hab]; apply andb_true_iff in Hab as [Ha Hb];
      apply is_code_char in Ha; apply is_code_char in Hb; subst; reflexivity. }
  rewrite py_int_digits; [|discriminate|].
  2:{ eapply forallb_impl; [|exact Hdig]. apply isdecimal_isdigit. }
  rewrite Hdig. eexists. split; [reflexivity|].
  unfold digits_val. cbn [fold_left].
  apply orb_true_iff in Hab as [Hab|Hab]; apply andb_true_iff in Hab as [Ha Hb];
    apply is_code_char in Ha; apply is_code_char in Hb; subst.
  - change (digit_val (ascii_of_N 49)) with 1%Z.
    change (digit_val (ascii_of_N 57)) with 9%Z. lia.
  - change (digit_val (ascii_of_N 50)) with 2%Z.
    change (digit_val (ascii_of_N 48)) with 0%Z. lia.
Qed.

Lemma a5b_build_year_map_years df h ym :
  A5b.build_year_map df h = Ok ym ->
  Forall (fun entry => (1900 <= fst entry <= 2099)%Z) ym.
Proof.
  unfold A5b.build_year_map.
  apply for_each_invariant with
    (P := fun ym : year_map => Forall (fun entry => (1900 <= fst entry <= 2099)%Z) ym).
  - constructor.
  - intros s j s' _ Hs Hstep. bind_inv Hstep as v Hv. cbv zeta in Hstep.
    destruct (A5b.is_year_cell (strip (py_str v))) eqn:E;
      [|now injection Hstep as <-].
    bind_inv Hstep as y Hy. bind_inv Hstep as cols Hcols. injection Hstep as <-.
    apply a5b_year_cell in E as (y' & Hy' & Hrange).
    assert (y' = y) by congruence. subst y'.
    apply Forall_forall. intros [k v'] Hin.
    apply dict_set_In in Hin as [[-> ->]|Hin]; [exact Hrange|].
    rewrite Forall_forall in Hs. apply (Hs _ Hin).
Qed.

Lemma a5b_parse_row_records df ym i recs :
  A5b.parse_row df ym i [] = Ok recs ->
  Forall (fun rec => In (year rec) (map fst ym) /\
                     A5b.skip_state (state rec) = false /\
                     state rec = strip (py_str (values df i 0))) recs.
Proof.
  unfold A5b.parse_row. intros H. bind_inv H as v Hv.
  apply iat_Ok in Hv as (_ & _ & ->). cbv zeta in H.
  destruct (A5b.skip_state _) eqn:Hskip; [injection H as <-; constructor|].
  revert H.
  apply for_each_invariant with
    (P := fun recs =>
            Forall (fun rec => In (year rec) (map fst ym) /\
                               A5b.skip_state (state rec) = false /\
                               state rec = strip (py_str (values df i 0))) recs).
  - constructor.
  - intros s [y [t c]] s' Hin Hs Hstep. unfold A5b.extract_year in Hstep.
    destruct (a5b_col_idx t c) as [col|]; [|now injection Hstep as <-].
    destruct (n_cols df <=? col); [now injection Hstep as <-|].
    bind_inv Hstep as x Hx. bind_inv Hstep as t' Ht'.
    destruct t'; injection Hstep as <-; auto.
    apply Forall_app. split; auto. constructor; [|constructor].
    simpl. repeat split; auto.
    apply in_map_iff. exists (y, (t, c)). auto.
Qed.

(** X6. Every record that [normalize_a5b] returns has a year between
    1900 and 2099, the bounds of the pattern [(19|20)\d{2}], and a label
    that is trimmed, non-empty, not the text [nan], and not
    [united states] in any letter case. *)
Theorem X6_a5b_records_years_and_labels
    (sheet : DataFrame) (out : list record) :
  A5b.normalize_a5b sheet = Ok out ->
  Forall (fun rec =>
            (1900 <= year rec <= 2099)%Z /\
            state rec <> [] /\ strip (state rec) = state rec /\
            state rec <> txt "nan" /\
            lower (state rec) <> txt "united states") out.
Proof.
  intros H. unfold A5b.normalize_a5b in H.
  apply a5b_normalize_frame_Ok in H as (h & ym & per & _ & Hym & _ & HF & ->).
  apply a5b_build_year_map_years in Hym. rewrite Forall_forall in Hym.
  eapply Permutation_Forall; [apply sort_records_perm|].
  apply Forall_concat.
  induction HF as [|i rs rows per' Hrow _ IH]; constructor; auto.
  apply a5b_parse_row_records in Hrow.
  eapply Forall_impl; [|exact Hrow]. cbv beta.
  intros rec (Hy & Hskip & Hst).
  apply in_map_iff in Hy as (entry & <- & Hentry).
  split; [apply (Hym _ Hentry)|].
  unfold A5b.skip_state in Hskip.
  apply orb_false_iff in Hskip as [Hskip Hus].
  apply orb_false_iff in Hskip as [Hne Hnan].
  repeat split.
  - intros E. rewrite E in Hne. discriminate.
  - rewrite Hst. apply strip_idem.
  - intros E. apply text_eqb_eq in E. congruence.
  - intros E. apply text_eqb_eq in E. congruence.
Qed.

Lemma X6_witness :
  A5b.normalize_a5b registration_sheet = Ok registration_records /\
  Forall (fun rec =>
            (1900 <= year rec <= 2099)%Z /\
            state rec <> [] /\ strip (state rec) = state rec /\
            state rec <> txt "nan" /\
            lower (state rec) <> txt "united states") registration_records.
Proof.
  split; [vm_compute; reflexivity|].
  apply (X6_a5b_records_years_and_labels registration_sheet registration_records).
  vm_compute; reflexivity.
Defined.

(** *** The frame that [dropna] leaves *)

Lemma forallb_false_ex {A} (p : A -> bool) l :
  forallb p l = false -> exists x, In x l /\ p x = false.
Proof.
  induction l as [|x l IH]; simpl; [discriminate|].
  destruct (p x) eqn:E; simpl; eauto.
  intros H. destruct (IH H) as (y & Hy & Hp). eauto.
Qed.

Lemma filter_nonempty {A} (p : A -> bool) l x :
  In x l -> p x = true -> 0 < length (filter p l).
Proof.
  intros Hin Hp. assert (H : In x (filter p l)) by (apply filter_In; auto).
  destruct (filter p l); [destruct H | simpl; lia].
Qed.

(** A frame with a row left has a column left. *)
Lemma dropna_has_column sheet :
  0 < n_rows (dropna_cols (dropna_rows sheet)) ->
  0 < n_cols (dropna_cols (dropna_rows sheet)).
Proof.
  unfold dropna_cols. cbn [n_rows n_cols].
  set (df1 := dropna_rows sheet). intros Hrows.
  assert (Hc : exists c, c < n_cols df1 /\ isna (values df1 0 c) = false).
  { unfold df1, dropna_rows in *. cbn [n_rows n_cols values] in *.
    set (keep := filter _ (seq 0 (n_rows sheet))) in *.
    assert (Hin : In (nth 0 keep 0) keep) by (apply nth_In; exact Hrows).
    unfold keep at 2 in Hin. apply filter_In in Hin as [_ Hin].
    apply negb_true_iff in Hin. apply forallb_false_ex in Hin as (c & Hc & Hna).
    apply in_seq in Hc. exists c. split; [lia|exact Hna]. }
  destruct Hc as (c & Hc & Hna).
  apply (filter_nonempty _ _ c); [apply in_seq; lia|].
  apply negb_true_iff.
  destruct (forallb _ (seq 0 (n_rows df1))) eqn:E; auto.
  rewrite forallb_forall in E. rewrite <- Hna. symmetry. apply E.
  apply in_seq. lia.
Qed.

Lemma a5b_find_state_row_None df : forall rows,
  0 < n_cols df ->
  Forall (fun i => i < n_rows df /\
                   lower (strip (py_str (values df i 0))) <> txt "state") rows ->
  A5b.find_state_row df rows = Ok None.
Proof.
  induction rows as [|i rest IH]; simpl; intros Hc H; auto.
  inversion H as [|? ? [Hi Hl] Hrest]; subst.
  rewrite iat_in_range by auto. cbn [bind].
  destruct (text_eqb _ _) eqn:E; [apply text_eqb_eq in E; contradiction|].
  auto.
Qed.

(** X8. The header is looked for in the top twenty rows only: when
    column 0 of none of them reads [state], [normalize_a5b] raises the
    [ValueError] for a missing header row, whatever the rows below
    hold. *)
Theorem X8_a5b_header_searched_in_top_twenty (sheet : DataFrame) :
  let df := dropna_cols (dropna_rows sheet) in
  (forall i, i < 20 -> i < n_rows df ->
             lower (strip (py_str (values df i 0))) <> txt "state") ->
  A5b.normalize_a5b sheet = Raise (ValueError_msg A5b.no_state_row_message).
Proof.
  intros df H. unfold A5b.normalize_a5b, A5b.normalize_frame. fold df.
  destruct (Nat.eq_dec (n_rows df) 0) as [E|E].
  - rewrite E. reflexivity.
  - rewrite a5b_find_state_row_None; [reflexivity| |].
    + apply dropna_has_column. fold df. lia.
    + apply Forall_forall. intros i Hi. apply in_range in Hi.
      split; [lia|]. apply H; lia.
Qed.

Lemma X8_witness :
  A5b.normalize_a5b late_header_sheet
  = Raise (ValueError_msg A5b.no_state_row_message).
Proof.
  apply (X8_a5b_header_searched_in_top_twenty late_header_sheet).
  intros i Hi _.
  do 20 (destruct i as [|i]; [vm_compute; intros E; discriminate E|]).
  lia.
Defined.

Lemma for_each_app {A S} (f : S -> A -> result S) l1 l2 s :
  for_each f (l1 ++ l2) s = (s' <- for_each f l1 s ;; for_each f l2 s').
Proof.
  revert s. induction l1 as [|x l1 IH]; intros s; simpl; auto.
  destruct (f s x); simpl; auto.
Qed.

Lemma for_each_Raise_first {A S} (f : S -> A -> result S) e :
  forall l s, for_each f l s = Raise e ->
  exists l1 x l2 s', l = l1 ++ x :: l2 /\
    (forall y, In y l1 -> exists s1 s2, f s1 y = Ok s2) /\
    f s' x = Raise e.
Proof.
  induction l as [|x r IH]; simpl; intros s H; [discriminate|].
  destruct (f s x) as [s'|e'|] eqn:E; simpl in H; try discriminate.
  - destruct (IH _ H) as (l1 & y & l2 & s'' & -> & Hl1 & Hy).
    exists (x :: l1), y, l2, s''. repeat split; auto.
    intros z [<-|Hz]; eauto.
  - injection H as <-. exists [], x, r, s. repeat split; auto.
    intros y [].
Qed.

Lemma for_each_unchanged {A S} (f : S -> A -> result S) s : forall l,
  (forall x, In x l -> f s x = Ok s) -> for_each f l s = Ok s.
Proof.
  induction l as [|x r IH]; simpl; intros H; auto.
  rewrite H by auto. simpl. auto.
Qed.

Lemma seq_split_at a m x :
  a <= x < a + m -> seq a m = seq a (x - a) ++ x :: seq (x + 1) (a + m - x - 1).
Proof.
  intros H. replace m with ((x - a) + S (a + m - x - 1)) at 1 by lia.
  rewrite seq_app. simpl. repeat f_equal; lia.
Qed.

Lemma a5b_subheader_row df r j :
  r < n_rows df -> exists s, A5b.subheader df r j = Ok s.
Proof.
  intros Hr. unfold A5b.subheader.
  destruct (Nat.ltb_spec j (n_cols df)); [|eauto].
  rewrite iat_in_range by auto. simpl. eauto.
Qed.

(** One step of the loop that builds the year map, at a column of the
    frame: it fails exactly on a year cell when the header row is the last
    row. *)
Lemma a5b_year_step df h j (ym : year_map) :
  h < n_rows df -> j < n_cols df ->
  (v <- iat df h j ;;
   let cell := strip (py_str v) in
   if A5b.is_year_cell cell then
     year <- py_int cell ;;
     cols <- A5b.subheader_columns df h j ;;
     Ok (dict_set year cols ym)
   else Ok ym) =
  if A5b.is_year_cell (strip (py_str (values df h j))) then
    if h + 1 <? n_rows df then
      match py_int (strip (py_str (values df h j))),
            A5b.subheader_columns df h j with
      | Ok year, Ok cols => Ok (dict_set year cols ym)
      | _, _ => Ok ym
      end
    else Raise (IndexError_iat (h + 1) j)
  else Ok ym.
Proof.
  intros Hh Hj. rewrite iat_in_range by auto. cbn [bind]. cbv zeta.
  destruct (A5b.is_year_cell _) eqn:E; auto.
  destruct (a5b_year_cell _ E) as (y & -> & _). cbn [bind].
  unfold A5b.subheader_columns.
  destruct (Nat.ltb_spec (h + 1) (n_rows df)) as [Hs|Hs].
  - destruct (a5b_subheader_row df (h + 1) j Hs) as (s0 & ->).
    destruct (a5b_subheader_row df (h + 1) (j + 1) Hs) as (s1 & ->).
    reflexivity.
  - unfold A5b.subheader at 1. apply Nat.ltb_lt in Hj. rewrite Hj.
    unfold iat. destruct (Nat.ltb_spec (h + 1) (n_rows df)); [lia|].
    reflexivity.
Qed.

Lemma a5b_year_step_Ok df h j (ym ym' : year_map) :
  h < n_rows df -> j < n_cols df ->
  (v <- iat df h j ;;
   let cell := strip (py_str v) in
   if A5b.is_year_cell cell then
     year <- py_int cell ;;
     cols <- A5b.subheader_columns df h j ;;
     Ok (dict_set year cols ym)
   else Ok ym) = Ok ym' ->
  A5b.is_year_cell (strip (py_str (values df h j))) = false \/
  h + 1 < n_rows df.
Proof.
  intros Hh Hj. rewrite a5b_year_step by auto.
  destruct (A5b.is_year_cell _); auto.
  destruct (Nat.ltb_spec (h + 1) (n_rows df)); auto. discriminate.
Qed.

Lemma a5b_year_step_Raise df h j (ym : year_map) e :
  h < n_rows df -> j < n_cols df ->
  (v <- iat df h j ;;
   let cell := strip (py_str v) in
   if A5b.is_year_cell cell then
     year <- py_int cell ;;
     cols <- A5b.subheader_columns df h j ;;
     Ok (dict_set year cols ym)
   else Ok ym) = Raise e ->
  A5b.is_year_cell (strip (py_str (values df h j))) = true /\
  n_rows df <= h + 1 /\ e = IndexError_iat (h + 1) j.
Proof.
  intros Hh Hj. rewrite a5b_year_step by auto.
  destruct (A5b.is_year_cell _); [|discriminate].
  destruct (Nat.ltb_spec (h + 1) (n_rows df)).
  - destruct (py_int _); [destruct (A5b.subheader_columns df h j)|..];
      discriminate.
  - intros [= <-]. auto.
Qed.

Lemma a5b_build_year_map_Raise df h e :
  h < n_rows df ->
  A5b.build_year_map df h = Raise e ->
  exists c, 1 <= c < n_cols df /\ n_rows df <= h + 1 /\
    e = IndexError_iat (h + 1) c /\
    A5b.is_year_cell (strip (py_str (values df h c))) = true /\
    (forall j, 1 <= j < c ->
       A5b.is_year_cell (strip (py_str (values df h j))) = false).
Proof.
  intros Hh H. unfold A5b.build_year_map in H.
  apply for_each_Raise_first in H as (l1 & c & l2 & s & E & Hl1 & Hc).
  unfold range in E. apply seq_split in E as (Ec & El1 & Hlt).
  apply a5b_year_step_Raise in Hc as (Hy & Hrows & ->); auto; try lia.
  exists c. repeat split; auto; try lia.
  intros j Hj. destruct (Hl1 j) as (s1 & s2 & Hstep).
  { rewrite El1. apply in_seq. lia. }
  apply a5b_year_step_Ok in Hstep as [Hn|Hn]; auto; lia.
Qed.

Lemma a5b_build_year_map_header_last df h c :
  h + 1 = n_rows df -> 1 <= c < n_cols df ->
  A5b.is_year_cell (strip (py_str (values df h c))) = true ->
  (forall j, 1 <= j < c ->
     A5b.is_year_cell (strip (py_str (values df h j))) = false) ->
  A5b.build_year_map df h = Raise (IndexError_iat (h + 1) c).
Proof.
  intros Hh Hc Hy Hbefore. unfold A5b.build_year_map, range.
  rewrite (seq_split_at 1 (n_cols df - 1) c) by lia.
  rewrite for_each_app, for_each_unchanged.
  - cbn [bind for_each]. rewrite a5b_year_step by lia. rewrite Hy.
    destruct (Nat.ltb_spec (h + 1) (n_rows df)); [lia|]. reflexivity.
  - intros j Hj. apply in_seq in Hj. rewrite a5b_year_step by lia.
    rewrite Hbefore by lia. reflexivity.
Qed.

Lemma a5b_find_state_row_no_Raise df e : forall rows,
  0 < n_cols df -> Forall (fun i => i < n_rows df) rows ->
  A5b.find_state_row df rows <> Raise e.
Proof.
  induction rows as [|i rest IH]; simpl; intros Hc H; [discriminate|].
  inversion H as [|? ? Hi Hrest]; subst.
  rewrite iat_in_range by auto. cbn [bind].
  destruct (text_eqb _ _); [discriminate|auto].
Qed.

Lemma a5b_find_state_row_first df before h after :
  0 < n_cols df -> h < n_rows df ->
  Forall (fun i => i < n_rows df /\
                   lower (strip (py_str (values df i 0))) <> txt "state")
         before ->
  lower (strip (py_str (values df h 0))) = txt "state" ->
  A5b.find_state_row df (before ++ h :: after) = Ok (Some h).
Proof.
  intros Hc Hh Hb Hl.
  induction Hb as [|i before [Hi Hn] _ IH]; cbn [app A5b.find_state_row].
  - rewrite iat_in_range by auto. cbn [bind].
    apply text_eqb_eq in Hl. now rewrite Hl.
  - rewrite iat_in_range by auto. cbn [bind].
    destruct (text_eqb _ _) eqn:E; [apply text_eqb_eq in E; contradiction|].
    exact IH.
Qed.

Lemma a5b_clean_Raise v e :
  A5b.clean_percentage_like v = Raise e ->
  exists n, v = PyInt n /\ e = OverflowError_float n.
Proof.
  destruct v as [|b|n|x|s]; simpl; try discriminate.
  - destruct b; vm_compute; discriminate.
  - unfold py_float_of_int.
    destruct (binary_normalize _ _ _ _ _); simpl; try discriminate.
    intros [= <-]. eauto.
  - destruct (is_nan x); discriminate.
  - destruct (negb _); [discriminate|].
    destruct (float_or_None_returns
                (strip (remove_char ","%char (remove_char "%"%char (strip s)))))
      as [o ->]. discriminate.
Qed.

Lemma a5b_parse_row_Raise df ym i records e :
  i < n_rows df -> 0 < n_cols df ->
  A5b.parse_row df ym i records = Raise e ->
  exists n, e = OverflowError_float n.
Proof.
  intros Hi Hc. unfold A5b.parse_row. rewrite iat_in_range by auto.
  cbn [bind]. cbv zeta.
  destruct (A5b.skip_state _); [discriminate|].
  intros H. apply for_each_Raise in H as ([y [t c]] & s & _ & H).
  unfold A5b.extract_year in H.
  destruct (a5b_col_idx t c) as [col|]; [|discriminate].
  destruct (Nat.leb_spec (n_cols df) col); [discriminate|].
  rewrite iat_in_range in H by auto. cbn [bind] in H.
  destruct (A5b.clean_percentage_like (values df i col)) as [[x|]|e'|] eqn:E;
    simpl in H; try discriminate.
  injection H as <-. apply a5b_clean_Raise in E as (n & _ & ->). eauto.
Qed.

(** X9. [normalize_a5b] reads a cell out of the frame's bounds in one
    case only, and always in that case: the header row, the first of the
    top twenty rows whose column 0 reads [state], is the last row of the
    frame and holds a year past column 0.  The [IndexError] is then for the
    cell below the first such year. *)
Theorem X9_a5b_index_error_when_header_is_last
    (sheet : DataFrame) (r c : nat) :
  let df := dropna_cols (dropna_rows sheet) in
  A5b.normalize_a5b sheet = Raise (IndexError_iat r c) <->
  exists h,
    h < 20 /\ h + 1 = n_rows df /\ r = h + 1 /\
    lower (strip (py_str (values df h 0))) = txt "state" /\
    (forall i, i < h -> lower (strip (py_str (values df i 0))) <> txt "state") /\
    1 <= c < n_cols df /\
    A5b.is_year_cell (strip (py_str (values df h c))) = true /\
    (forall j, 1 <= j < c ->
       A5b.is_year_cell (strip (py_str (values df h j))) = false).
Proof.
  intros df. unfold A5b.normalize_a5b, A5b.normalize_frame. fold df. split.
  - intros H.
    destruct (A5b.find_state_row df (range 0 (Nat.min 20 (n_rows df))))
      as [[h|]|e|] eqn:Eh; cbn [bind] in H; try discriminate.
    + apply a5b_find_state_row_spec in Eh
        as (before & after & E & Hr & Hcols & Hl & Hb).
      unfold range in E. rewrite Nat.sub_0_r in E.
      apply seq_split in E as (Eh & Eb & Hlt).
      destruct (A5b.build_year_map df h) as [ym|e|] eqn:Eym; cbn [bind] in H;
        try discriminate.
      * destruct (negb (nonempty ym)); [discriminate|].
        match type of H with
        | bind ?m _ = _ => destruct m as [recs|e|] eqn:Er
        end; cbn [bind] in H; try discriminate.
        apply for_each_Raise in Er as (i & s & Hi & Hrow).
        apply in_range in Hi.
        apply a5b_parse_row_Raise in Hrow as (n & ->); auto; try lia.
        discriminate.
      * apply a5b_build_year_map_Raise in Eym
          as (c' & Hc' & Hrows & -> & Hy & Hbefore); auto.
        injection H as <- <-.
        exists h. repeat split; auto; try lia.
        intros i Hi. rewrite Forall_forall in Hb. apply Hb.
        rewrite Eb. apply in_seq. lia.
    + exfalso. revert Eh.
      destruct (Nat.eq_dec (n_rows df) 0) as [E|E];
        [rewrite E; discriminate|].
      apply a5b_find_state_row_no_Raise.
      * apply dropna_has_column. fold df. lia.
      * apply Forall_forall. intros i Hi. apply in_range in Hi. lia.
  - intros (h & H20 & Hlast & -> & Hl & Hfirst & Hc & Hy & Hbefore).
    assert (Hcols : 0 < n_cols df) by lia.
    unfold range. rewrite Nat.sub_0_r.
    rewrite (seq_split_at 0 (Nat.min 20 (n_rows df)) h) by lia.
    rewrite a5b_find_state_row_first; auto; try lia.
    + cbn [bind]. rewrite (a5b_build_year_map_header_last df h c); auto.
    + apply Forall_forall. intros i Hi. apply in_seq in Hi.
      split; [lia|]. apply Hfirst. lia.
Qed.

Lemma X9_witness :
  A5b.normalize_a5b header_last_sheet = Raise (IndexError_iat 2 2).
Proof.
  apply (proj2 (X9_a5b_index_error_when_header_is_last header_last_sheet 2 2)).
  exists 1. split; [lia|]. split; [reflexivity|]. split; [reflexivity|].
  split; [vm_compute; reflexivity|]. split.
  { intros i Hi. destruct i as [|i]; [vm_compute; intros E; discriminate E|lia]. }
  split; [vm_compute; lia|]. split; [vm_compute; reflexivity|].
  intros j Hj. assert (j = 1) by lia. subst j. vm_compute; reflexivity.
Defined.

Lemma lower_char_n c : lower_char c = "n"%char -> c = "n"%char \/ c = "N"%char.
Proof. by_char c. Qed.

Lemma lower_char_a c : lower_char c = "a"%char -> c = "a"%char \/ c = "A"%char.
Proof. by_char c. Qed.

Lemma a5b_clean_nan_text t :
  lower t = txt "nan" ->
  A5b.clean_percentage_like (PyStr t) = Ok (Some S754_nan) /\
  clean_percentage_like (PyStr t) = Ok None.
Proof.
  destruct t as [|c1 [|c2 [|c3 [|c4 t]]]]; try discriminate.
  intros [= H1 H2 H3].
  apply lower_char_n in H1. apply lower_char_a in H2. apply lower_char_n in H3.
  destruct H1, H2, H3; subst; split; vm_compute; reflexivity.
Qed.

Lemma clean_strip s :
  clean_percentage_like (PyStr (strip s)) = clean_percentage_like (PyStr s) /\
  A5b.clean_percentage_like (PyStr (strip s)) = A5b.clean_percentage_like (PyStr s).
Proof.
  unfold clean_percentage_like, A5b.clean_percentage_like, py_str.
  now rewrite strip_idem.
Qed.

(** X10. The cleaner of [normalize_census_a5b.py] agrees with the one of
    [normalize_census_a5a.py] on every value but a text that, trimmed,
    reads [nan] in any letter case: there the a5a cleaner returns [None]
    and the a5b cleaner returns the float NaN. *)
Theorem X10_a5b_cleaner_keeps_nan_text (v : cell) :
  ((forall s, v = PyStr s -> lower (strip s) <> txt "nan") ->
   A5b.clean_percentage_like v = clean_percentage_like v) /\
  (forall s, v = PyStr s -> lower (strip s) = txt "nan" ->
   clean_percentage_like v = Ok None /\
   A5b.clean_percentage_like v = Ok (Some S754_nan)).
Proof.
  split.
  - intros H. destruct v as [|b|n|x|s]; try reflexivity.
    unfold A5b.clean_percentage_like, clean_percentage_like. cbv zeta.
    destruct (text_eqb (lower (strip (py_str (PyStr s)))) (txt "nan")) eqn:E.
    + apply text_eqb_eq in E. now destruct (H s eq_refl).
    + now rewrite orb_false_r.
  - intros s -> H. destruct (clean_strip s) as [<- <-].
    destruct (a5b_clean_nan_text _ H). auto.
Qed.

Lemma X10_witness :
  clean_percentage_like (str " NaN ") = Ok None /\
  A5b.clean_percentage_like (str " NaN ") = Ok (Some S754_nan).
Proof.
  apply (proj2 (X10_a5b_cleaner_keeps_nan_text (str " NaN ")) (txt " NaN ")).
  - reflexivity.
  - vm_compute; reflexivity.
Defined.

Lemma a5b_build_year_map_NoDup df h ym :
  A5b.build_year_map df h = Ok ym -> NoDup (map fst ym).
Proof.
  unfold A5b.build_year_map.
  apply for_each_invariant with (P := fun ym : year_map => NoDup (map fst ym)).
  - constructor.
  - intros s j s' _ Hs Hstep. bind_inv Hstep as v Hv. cbv zeta in Hstep.
    destruct (A5b.is_year_cell _); [|now injection Hstep as <-].
    bind_inv Hstep as y Hy. bind_inv Hstep as cols Hcols. injection Hstep as <-.
    now apply dict_set_NoDup.
Qed.

Lemma a5b_extract_year_cases df i st entry rs :
  A5b.extract_year df i st [] entry = Ok rs ->
  rs = [] \/
  exists col x,
    resolve [Total; Citizen] (snd entry) = Some col /\ col < n_cols df /\
    A5b.clean_percentage_like (values df i col) = Ok (Some x) /\
    rs = [ {| year := fst entry; state := st; turnout := x |} ].
Proof.
  destruct entry as [y [t c]]. unfold A5b.extract_year.
  rewrite a5b_col_idx_resolve.
  destruct (resolve [Total; Citizen] (t, c)) as [col|] eqn:E;
    [|intros [= <-]; auto].
  destruct (Nat.leb_spec (n_cols df) col) as [Hc|Hc]; [intros [= <-]; auto|].
  intros H. bind_inv H as v Hv. apply iat_Ok in Hv as (_ & _ & ->).
  bind_inv H as o Ho. destruct o as [x|]; injection H as <-; auto.
  right. exists col, x. auto.
Qed.

Lemma one_record_per_year (P : Z * (option nat * option nat) -> list record -> Prop) :
  (forall entry rs, P entry rs ->
     rs = [] \/ exists rec, rs = [rec] /\ year rec = fst entry) ->
  forall ym per, Forall2 P ym per ->
  NoDup (map fst ym) ->
  NoDup (map year (concat per)) /\
  (forall y, In y (map year (concat per)) -> In y (map fst ym)).
Proof.
  intros HP ym per HF. induction HF as [|entry rs ym' per' He _ IH]; simpl.
  - intros _. split; [constructor | intros y []].
  - intros Hn. inversion Hn as [|? ? Hnot Hn']; subst.
    destruct (IH Hn') as [IH1 IH2].
    destruct (HP _ _ He) as [->|(rec & -> & Hy)]; simpl.
    + split; auto.
    + rewrite Hy. split.
      * constructor; auto.
      * intros y [<-|Hin]; auto.
Qed.

(** X11. In [normalize_census_a5b.py] a data row gives at most one
    record for a year of the year map, and the value of a record is the
    cleaned cell of the column chosen under the order total, then citizen:
    the total column when one is mapped, otherwise the citizen column. *)
Theorem X11_a5b_row_records
    (df : DataFrame) (h i : nat) (ym : year_map) (recs : list record) :
  A5b.build_year_map df h = Ok ym ->
  A5b.parse_row df ym i [] = Ok recs ->
  NoDup (map year recs) /\
  Forall (fun rec =>
            exists cols col,
              In (year rec, cols) ym /\
              resolve [Total; Citizen] cols = Some col /\ col < n_cols df /\
              A5b.clean_percentage_like (values df i col)
              = Ok (Some (turnout rec)) /\
              state rec = strip (py_str (values df i 0))) recs.
Proof.
  intros Hym Hrow. apply a5b_build_year_map_NoDup in Hym.
  unfold A5b.parse_row in Hrow. bind_inv Hrow as v Hv.
  apply iat_Ok in Hv as (_ & _ & ->). cbv zeta in Hrow.
  destruct (A5b.skip_state _);
    [injection Hrow as <-; split; constructor|].
  set (st := strip (py_str (values df i 0))) in *.
  rewrite (for_each_collect _ _ (a5b_extract_year_acc df i st)) in Hrow.
  bind_inv Hrow as ys Hys. injection Hrow as <-. simpl.
  apply collect_Ok in Hys as (per & HF & ->). split.
  - apply (one_record_per_year
             (fun entry rs => A5b.extract_year df i st [] entry = Ok rs)) with (ym := ym);
      auto.
    intros entry rs H. apply a5b_extract_year_cases in H
      as [->|(col & x & _ & _ & _ & ->)]; auto.
    right. eexists. split; reflexivity.
  - apply Forall_concat. clear Hym.
    induction HF as [|entry rs ym' per' He _ IH]; constructor.
    + apply a5b_extract_year_cases in He
        as [->|(col & x & Hres & Hcol & Hclean & ->)]; constructor;
        [|constructor].
      destruct entry as [y cols]. exists cols, col. simpl.
      repeat split; auto.
    + eapply Forall_impl; [|exact IH]. cbv beta.
      intros rs' Hrs. eapply Forall_impl; [|exact Hrs]. cbv beta.
      intros rec (cols & col & Hin & Hrest). exists cols, col.
      split; [now right | exact Hrest].
Qed.

Lemma X11_witness :
  NoDup (map year
    (records_or_nil
       (A5b.parse_row (dropna_cols (dropna_rows registration_sheet))
          [(2020%Z, (Some 1, Some 2)); (2016%Z, (Some 3, Some 4))] 4 []))).
Proof.
  apply (X11_a5b_row_records (dropna_cols (dropna_rows registration_sheet)) 1 4
           [(2020%Z, (Some 1, Some 2)); (2016%Z, (Some 3, Some 4))]
           (records_or_nil
              (A5b.parse_row (dropna_cols (dropna_rows registration_sheet))
                 [(2020%Z, (Some 1, Some 2)); (2016%Z, (Some 3, Some 4))] 4 []))).
  - vm_compute; reflexivity.
  - vm_compute; reflexivity.
Defined.

(** *** [pick_column] *)

Lemma text_eqb_refl a : text_eqb a a = true.
Proof. now apply text_eqb_eq. Qed.

Lemma text_eqb_neq a b : text_eqb a b = false <-> a <> b.
Proof.
  split.
  - intros H E. apply text_eqb_eq in E. congruence.
  - intros H. destruct (text_eqb a b) eqn:E; auto.
    apply text_eqb_eq in E. contradiction.
Qed.

Lemma tdict_get_set {V} k k' (v : V) d :
  tdict_get k (tdict_set k' v d) =
  if text_eqb k' k then Some v else tdict_get k d.
Proof.
  induction d as [|[k0 v0] d IH]; simpl; auto.
  destruct (text_eqb k0 k') eqn:E0; simpl.
  - apply text_eqb_eq in E0. subst k0. now destruct (text_eqb k' k).
  - rewrite IH. destruct (text_eqb k0 k) eqn:E1; auto.
    destruct (text_eqb k' k) eqn:E2; auto.
    apply text_eqb_eq in E1. apply text_eqb_eq in E2.
    apply text_eqb_neq in E0. congruence.
Qed.

Lemma tdict_of_snoc {V} (pairs : list (text * V)) p :
  tdict_of (pairs ++ [p]) = tdict_set (fst p) (snd p) (tdict_of pairs).
Proof. unfold tdict_of. now rewrite fold_left_app. Qed.

Lemma tdict_get_of_None {V} k (pairs : list (text * V)) :
  tdict_get k (tdict_of pairs) = None <->
  forall kv, In kv pairs -> fst kv <> k.
Proof.
  induction pairs as [|p ps IH] using rev_ind.
  - simpl. split; [intros _ kv [] | reflexivity].
  - rewrite tdict_of_snoc, tdict_get_set.
    destruct (text_eqb (fst p) k) eqn:E.
    + apply text_eqb_eq in E. split; [discriminate|].
      intros H. exfalso. apply (H p); auto. apply in_or_app. right. now left.
    + apply text_eqb_neq in E. rewrite IH. split.
      * intros H kv Hin. apply in_app_or in Hin as [Hin|[<-|[]]]; auto.
      * intros H kv Hin. apply H. apply in_or_app. auto.
Qed.

(** [dict(pairs)[k]] is the value of the last pair with the key [k]. *)
Lemma tdict_get_of_Some {V} k (v : V) (pairs : list (text * V)) :
  tdict_get k (tdict_of pairs) = Some v <->
  exists l1 l2, pairs = l1 ++ (k, v) :: l2 /\
                forall kv, In kv l2 -> fst kv <> k.
Proof.
  induction pairs as [|p ps IH] using rev_ind.
  - simpl. split; [discriminate|].
    intros (l1 & l2 & E & _). destruct l1; discriminate.
  - rewrite tdict_of_snoc, tdict_get_set.
    destruct (text_eqb (fst p) k) eqn:E.
    + apply text_eqb_eq in E. split.
      * intros [= <-]. exists ps, []. split; [|intros kv []].
        destruct p; simpl in *; subst; reflexivity.
      * intros (l1 & l2 & E' & Hl2).
        destruct l2 as [|q l2] using rev_ind.
        -- apply app_inj_tail in E' as [_ ->]. reflexivity.
        -- clear IHl2. exfalso.
           change (l1 ++ (k, v) :: l2 ++ [q])
             with (l1 ++ ((k, v) :: l2) ++ [q]) in E'.
           rewrite app_assoc in E'. apply app_inj_tail in E' as [_ ->].
           apply (Hl2 q); auto. apply in_or_app. right. now left.
    + apply text_eqb_neq in E. rewrite IH. split.
      * intros (l1 & l2 & -> & Hl2). exists l1, (l2 ++ [p]). split.
        -- now rewrite <- app_assoc.
        -- intros kv Hin. apply in_app_or in Hin as [Hin|[<-|[]]]; auto.
      * intros (l1 & l2 & E' & Hl2).
        destruct l2 as [|q l2] using rev_ind.
        -- apply app_inj_tail in E' as [_ ->]. simpl in E. contradiction.
        -- clear IHl2.
           change (l1 ++ (k, v) :: l2 ++ [q])
             with (l1 ++ ((k, v) :: l2) ++ [q]) in E'.
           rewrite app_assoc in E'. apply app_inj_tail in E' as [-> ->].
           exists l1, l2. split; auto.
           intros kv Hin. apply Hl2. apply in_or_app. auto.
Qed.

Lemma find_none_iff {A} (p : A -> bool) l :
  find p l = None <-> forall x, In x l -> p x = false.
Proof.
  split; [apply find_none|].
  induction l as [|x l IH]; simpl; auto. intros H.
  rewrite (H x) by auto. auto.
Qed.

Lemma find_first {A} (p : A -> bool) l1 x l2 :
  (forall y, In y l1 -> p y = false) -> p x = true ->
  find p (l1 ++ x :: l2) = Some x.
Proof.
  intros H Hx. induction l1 as [|y l1 IH]; simpl.
  - now rewrite Hx.
  - rewrite (H y) by now left. apply IH. intros z Hz. apply H. now right.
Qed.

Lemma contains_incl needle : forall hay,
  contains needle hay = true -> incl needle hay.
Proof.
  induction hay as [|c hay IH]; simpl; intros H.
  - rewrite orb_false_r in H. apply startswith_iff in H as (r & E).
    destruct needle; [intros x []|discriminate].
  - apply orb_true_iff in H as [H|H].
    + apply startswith_iff in H as (r & E). rewrite E.
      intros x Hx. apply in_or_app. auto.
    + intros x Hx. right. now apply IH.
Qed.

Lemma lower_char_idem c : lower_char (lower_char c) = lower_char c.
Proof. by_char c. Qed.

Lemma contains_lower tok s : contains tok (lower s) = true -> lower tok = tok.
Proof.
  intros H. apply contains_incl in H. unfold lower.
  rewrite <- (map_id tok) at 2. apply map_ext_in. intros ch Hch.
  apply H in Hch. apply in_map_iff in Hch as (x & <- & _).
  apply lower_char_idem.
Qed.

Lemma pick_column_exact columns k c :
  tdict_get k (tdict_of (map (fun c => (lower c, c)) columns)) = Some c <->
  exists l1 l2, columns = l1 ++ c :: l2 /\ lower c = k /\
                forall c', In c' l2 -> lower c' <> k.
Proof.
  rewrite tdict_get_of_Some. split.
  - intros (p1 & p2 & E & Hp2).
    apply map_eq_app in E as (l1 & r & -> & <- & E).
    apply map_eq_cons in E as (c' & l2 & -> & [= <- <-] & <-).
    exists l1, l2. repeat split; auto.
    intros c2 Hc2. apply (Hp2 (lower c2, c2)).
    apply in_map_iff. eauto.
  - intros (l1 & l2 & -> & <- & Hl2).
    exists (map (fun c => (lower c, c)) l1), (map (fun c => (lower c, c)) l2).
    split; [now rewrite map_app|].
    intros kv Hin. apply in_map_iff in Hin as (c' & <- & Hc'). simpl. auto.
Qed.

Lemma pick_column_no_exact columns k :
  tdict_get k (tdict_of (map (fun c => (lower c, c)) columns)) = None <->
  forall c, In c columns -> lower c <> k.
Proof.
  rewrite tdict_get_of_None. split.
  - intros H c Hc. apply (H (lower c, c)). apply in_map_iff. eauto.
  - intros H kv Hin. apply in_map_iff in Hin as (c & <- & Hc). simpl. auto.
Qed.

(** X12. What [pick_column] returns is one of the columns, and it
    matches a candidate: its name in lower case is the candidate's in lower
    case, or it holds, in lower case, a candidate that is itself in lower
    case (the fall-back compares the candidate as written).  It returns
    [None] exactly when no column matches any candidate in either way. *)
Theorem X12_pick_column_result (columns candidates : list text) :
  (forall c, A5b.pick_column columns candidates = Some c ->
     In c columns /\
     exists cand, In cand candidates /\
       (lower c = lower cand \/
        (contains cand (lower c) = true /\ lower cand = cand))) /\
  (A5b.pick_column columns candidates = None <->
   forall c cand, In c columns -> In cand candidates ->
     lower c <> lower cand /\ contains cand (lower c) = false).
Proof.
  unfold A5b.pick_column. cbv zeta.
  set (m := tdict_of (map (fun c => (lower c, c)) columns)).
  destruct (find _ candidates) as [cand|] eqn:Ef.
  - apply find_some in Ef as [Hcand Hget].
    destruct (tdict_get (lower cand) m) as [c0|] eqn:Eg; [|discriminate].
    pose proof Eg as Eg'. apply pick_column_exact in Eg'
      as (l1 & l2 & -> & Hl & _).
    split.
    + intros c [= <-]. split; [apply in_elt|]. exists cand. auto.
    + split; [discriminate|]. intros H. exfalso.
      destruct (H c0 cand) as [Hne _]; auto. apply in_elt.
  - assert (Hnone : forall cand, In cand candidates ->
                      forall c, In c columns -> lower c <> lower cand).
    { intros cand Hcand. apply pick_column_no_exact. fold m.
      apply (find_none _ _ Ef) in Hcand.
      destruct (tdict_get (lower cand) m); [discriminate|reflexivity]. }
    split.
    + intros c Hc. apply find_some in Hc as [Hin Hex].
      split; auto. apply existsb_exists in Hex as (tok & Htok & Hcont).
      exists tok. split; auto. right. split; auto.
      now apply contains_lower in Hcont.
    + rewrite find_none_iff. split.
      * intros H c cand Hc Hcand. split; [now apply Hnone|].
        specialize (H c Hc).
        destruct (contains cand (lower c)) eqn:E; auto.
        assert (Hex : existsb (fun tok => contains tok (lower c)) candidates = true)
          by (apply existsb_exists; eauto).
        congruence.
      * intros H c Hc.
        destruct (existsb _ candidates) eqn:E; auto.
        apply existsb_exists in E as (tok & Htok & Hcont).
        destruct (H c tok Hc Htok). congruence.
Qed.

Lemma X12_witness :
  In (txt "Turnout Rate") sample_columns /\
  exists cand, In cand [txt "VEP"; txt "rate"] /\
    (lower (txt "Turnout Rate") = lower cand \/
     (contains cand (lower (txt "Turnout Rate")) = true /\ lower cand = cand)).
Proof.
  apply (proj1 (X12_pick_column_result sample_columns [txt "VEP"; txt "rate"])
           (txt "Turnout Rate")).
  vm_compute; reflexivity.
Defined.

(** X13. An exact match goes by the order of the candidates, not of the
    columns, and among the columns whose names agree with the candidate in
    lower case [pick_column] returns the last one. *)
Theorem X13_pick_column_exact_match
    (columns candidates before after l1 l2 : list text) (cand c : text) :
  candidates = before ++ cand :: after ->
  (forall x c', In x before -> In c' columns -> lower c' <> lower x) ->
  columns = l1 ++ c :: l2 ->
  lower c = lower cand ->
  (forall c', In c' l2 -> lower c' <> lower cand) ->
  A5b.pick_column columns candidates = Some c.
Proof.
  intros -> Hbefore Hcols Hc Hl2. unfold A5b.pick_column. cbv zeta.
  set (m := tdict_of (map (fun c => (lower c, c)) columns)).
  assert (Hget : tdict_get (lower cand) m = Some c).
  { apply pick_column_exact. exists l1, l2. auto. }
  rewrite (find_first _ before cand after).
  - exact Hget.
  - intros x Hx.
    assert (Hn : tdict_get (lower x) m = None)
      by (apply pick_column_no_exact; intros c' Hc'; now apply Hbefore).
    now rewrite Hn.
  - now rewrite Hget.
Qed.

Lemma X13_witness :
  A5b.pick_column sample_columns [txt "year"; txt "state"; txt "turnout rate"]
  = Some (txt "STATE").
Proof.
  apply (X13_pick_column_exact_match sample_columns
           [txt "year"; txt "state"; txt "turnout rate"]
           [txt "year"] [txt "turnout rate"]
           [txt "State"] [txt "Turnout Rate"] (txt "state") (txt "STATE")).
  - reflexivity.
  - intros x c' [<-|[]] [<-|[<-|[<-|[]]]]; vm_compute; intros E; discriminate E.
  - reflexivity.
  - reflexivity.
  - intros c' [<-|[]]. vm_compute; intros E; discriminate E.
Defined.

(** ** [normalize_turnout.py] *)

(** *** The characters of a [float()] literal *)

Lemma float_char_space c : isspace_num c = true -> float_char c = true.
Proof. unfold float_char. now intros ->. Qed.

Lemma float_char_decimal c : isdecimal_char c = true -> float_char c = true.
Proof. unfold float_char. intros ->. now rewrite orb_true_r. Qed.

Lemma float_char_underscore c : is_code 95 c = true -> float_char c = true.
Proof. by_char c. Qed.

Lemma float_char_sign c :
  is_code 43 c || is_code 45 c = true -> float_char c = true.
Proof. by_char c. Qed.

Lemma float_char_point c : is_code 46 c = true -> float_char c = true.
Proof. by_char c. Qed.

Lemma float_char_exp c : is_exp_mark c = true -> float_char c = true.
Proof. by_char c. Qed.

Lemma float_char_letter c :
  In (lower_char c) (txt "infinity") \/ In (lower_char c) (txt "nan") ->
  float_char c = true.
Proof.
  intros H. unfold float_char.
  assert (E : existsb (fun l => (code (lower_char c) =? code l)%N)
                      (txt "infinityae") = true).
  { apply existsb_exists. exists (lower_char c). split.
    - destruct H as [H|H]; simpl in H; simpl; intuition.
    - apply N.eqb_refl. }
  rewrite E. apply orb_true_r.
Qed.

Lemma ungroup_chars : forall s prev u c,
  ungroup prev s = Some u -> In c s -> is_code 95 c = true \/ In c u.
Proof.
  induction s as [|d s IH]; intros prev u c H Hin; [destruct Hin|].
  simpl in H. destruct (is_code 95 d) eqn:Ed.
  - destruct prev as [p|]; [|discriminate].
    destruct (isdecimal_char p); [|discriminate].
    destruct Hin as [<-|Hin]; auto. eapply IH; eauto.
  - assert (H' : option_map (cons d) (ungroup (Some d) s) = Some u).
    { destruct prev as [p|]; auto. destruct (_ && _); [discriminate|auto]. }
    destruct (ungroup (Some d) s) as [u'|] eqn:Eu; [|discriminate].
    injection H' as <-. destruct Hin as [<-|Hin]; [right; now left|].
    destruct (IH _ _ _ Eu Hin); auto. right. now right.
Qed.

Lemma split_sign_chars s neg body c :
  split_sign s = (neg, body) -> In c s ->
  is_code 43 c || is_code 45 c = true \/ In c body.
Proof.
  destruct s as [|d s]; simpl; [intros _ []|].
  destruct (is_code 43 d) eqn:E1.
  - intros [= _ <-] [<-|Hin]; auto. left. now rewrite E1.
  - destruct (is_code 45 d) eqn:E2.
    + intros [= _ <-] [<-|Hin]; auto. left. rewrite E2. apply orb_true_r.
    + intros [= _ <-] Hin. auto.
Qed.

Lemma span_spec p : forall s a b,
  span p s = (a, b) -> s = a ++ b /\ forallb p a = true.
Proof.
  induction s as [|c s IH]; simpl; intros a b H.
  - injection H as <- <-. auto.
  - destruct (p c) eqn:E.
    + destruct (span p s) as [a' b'] eqn:Es. injection H as <- <-.
      destruct (IH _ _ eq_refl) as [-> Ha]. simpl. now rewrite E.
    + injection H as <- <-. auto.
Qed.

Lemma parse_exponent_chars s e c :
  parse_exponent s = Some e -> In c s -> float_char c = true.
Proof.
  destruct s as [|d s]; simpl; [intros _ []|].
  destruct (is_exp_mark d) eqn:Ed; [|discriminate].
  destruct (split_sign s) as [neg ds] eqn:Es.
  destruct (nonempty ds && forallb isdecimal_char ds) eqn:E; [|discriminate].
  intros _ [<-|Hin]; [now apply float_char_exp|].
  apply andb_true_iff in E as [_ E]. rewrite forallb_forall in E.
  destruct (split_sign_chars _ _ _ _ Es Hin) as [H|H].
  - now apply float_char_sign.
  - apply float_char_decimal. auto.
Qed.

Lemma parse_decimal_chars s me c :
  parse_decimal s = Some me -> In c s -> float_char c = true.
Proof.
  unfold parse_decimal. destruct (span isdecimal_char s) as [ip r1] eqn:E1.
  apply span_spec in E1 as [-> Hip]. rewrite forallb_forall in Hip.
  intros H Hin. apply in_app_or in Hin as [Hin|Hin];
    [apply float_char_decimal; auto|].
  destruct r1 as [|d r]; [destruct Hin|].
  destruct (is_code 46 d) eqn:Ed.
  - destruct (span isdecimal_char r) as [fp r2] eqn:E2.
    apply span_spec in E2 as [-> Hfp]. rewrite forallb_forall in Hfp.
    destruct (nonempty (ip ++ fp)); [|discriminate].
    destruct (parse_exponent r2) as [e|] eqn:Ee; [|discriminate].
    destruct Hin as [<-|Hin]; [now apply float_char_point|].
    apply in_app_or in Hin as [Hin|Hin]; [apply float_char_decimal; auto|].
    eapply parse_exponent_chars; eauto.
  - destruct (nonempty (ip ++ [])); [|discriminate].
    destruct (parse_exponent (d :: r)) as [e|] eqn:Ee; [|discriminate].
    eapply parse_exponent_chars; eauto.
Qed.

Lemma lower_word_chars body w c :
  lower body = w -> In c body -> In (lower_char c) w.
Proof. intros <- Hin. unfold lower. now apply in_map. Qed.

(** Every character of a text that [float()] converts is one of
    [float_char]. *)
Lemma py_float_of_text_chars s x :
  py_float_of_text s = Ok x -> forallb float_char s = true.
Proof.
  unfold py_float_of_text. intros H. apply forallb_forall. intros c Hin.
  destruct (strip_by_split isspace_num s) as (ws1 & ws2 & Es & H1 & H2).
  rewrite forallb_forall in H1, H2.
  rewrite Es in Hin. apply in_app_or in Hin as [Hin|Hin];
    [apply float_char_space; auto|].
  apply in_app_or in Hin as [Hin|Hin]; [|apply float_char_space; auto].
  clear Es. revert H.
  destruct (ungroup None (strip_by isspace_num s)) as [u|] eqn:Eu;
    [|discriminate].
  destruct (ungroup_chars _ _ _ _ Eu Hin) as [Hu|Hu];
    [intros _; now apply float_char_underscore|].
  destruct (split_sign u) as [neg body] eqn:Eb.
  destruct (split_sign_chars _ _ _ _ Eb Hu) as [Hs|Hb];
    [intros _; now apply float_char_sign|].
  destruct (text_eqb (lower body) (txt "inf")) eqn:Einf.
  { intros _. apply text_eqb_eq in Einf. apply float_char_letter. left.
    apply (lower_word_chars _ _ _ Einf) in Hb. simpl in Hb. simpl. intuition. }
  destruct (text_eqb (lower body) (txt "infinity")) eqn:Einfinity.
  { intros _. apply text_eqb_eq in Einfinity. apply float_char_letter. left.
    apply (lower_word_chars _ _ _ Einfinity) in Hb. exact Hb. }
  cbn [orb].
  destruct (text_eqb (lower body) (txt "nan")) eqn:Enan.
  { intros _. apply text_eqb_eq in Enan. apply float_char_letter. right.
    apply (lower_word_chars _ _ _ Enan) in Hb. exact Hb. }
  destruct (parse_decimal body) as [[m e]|] eqn:Ep; [|discriminate].
  intros _. eapply parse_decimal_chars; eauto.
Qed.

Lemma remove_char_In c d s : In d (remove_char c s) <-> In d s /\ d <> c.
Proof.
  unfold remove_char. rewrite filter_In. split; intros [H1 H2]; split; auto.
  - intros ->. rewrite N.eqb_refl in H2. discriminate.
  - apply negb_true_iff. apply N.eqb_neq. intros E. apply code_inj in E. auto.
Qed.

Lemma strip_In c s : In c s -> isspace_char c = false -> In c (strip s).
Proof.
  intros Hin Hc.
  destruct (strip_by_split isspace_char s) as (ws1 & ws2 & Es & H1 & H2).
  rewrite forallb_forall in H1, H2. fold (strip s) in Es.
  rewrite Es in Hin. apply in_app_or in Hin as [Hin|Hin].
  - apply H1 in Hin. congruence.
  - apply in_app_or in Hin as [Hin|Hin]; auto. apply H2 in Hin. congruence.
Qed.

Lemma py_float_cases s :
  (exists x, py_float_of_text s = Ok x /\ Turnout.py_float s = Turnout.Done x) \/
  ((forall x, py_float_of_text s <> Ok x) /\
   Turnout.py_float s = Turnout.Fail (Turnout.Py (ValueError_float s))).
Proof.
  unfold Turnout.py_float.
  destruct (py_float_of_text s) as [x|e|]; [left; eauto| |];
    right; split; auto; discriminate.
Qed.

(** X14. [clean_percentage] returns [None] exactly for a text that is
    empty once trimmed.  For any other text it returns what [float()]
    gives for the trimmed text without its percent signs, and raises that
    call's [ValueError] otherwise; a text that holds a character outside
    the alphabet of [float()] literals and is neither white space nor a
    percent sign, a thousands separator for instance, always raises. *)
Theorem X14_clean_percentage_outcomes (v : text) :
  (Turnout.clean_percentage (Some v) = Turnout.Done None <-> strip v = []) /\
  (strip v <> [] ->
   (exists x, py_float_of_text (remove_char "%"%char (strip v)) = Ok x /\
              Turnout.clean_percentage (Some v) = Turnout.Done (Some x)) \/
   Turnout.clean_percentage (Some v)
   = Turnout.Fail (Turnout.Py
                     (ValueError_float (remove_char "%"%char (strip v))))) /\
  (forall c, In c v -> isspace_char c = false -> float_char c = false ->
   c <> "%"%char ->
   Turnout.clean_percentage (Some v)
   = Turnout.Fail (Turnout.Py
                     (ValueError_float (remove_char "%"%char (strip v))))).
Proof.
  assert (Hcases : strip v <> [] ->
    Turnout.clean_percentage (Some v) =
    Turnout.and_then (Turnout.py_float (remove_char "%"%char (strip v)))
                     (fun x => Turnout.Done (Some x))).
  { intros Hne. unfold Turnout.clean_percentage.
    destruct v as [|c v]; [now destruct Hne|]. simpl negb. simpl orb.
    destruct (text_eqb _ _) eqn:E; [apply text_eqb_eq in E; contradiction|].
    reflexivity. }
  split; [|split].
  - split.
    + intros H. destruct (list_eq_dec ascii_dec (strip v) []) as [E|E]; auto.
      rewrite (Hcases E) in H.
      destruct (py_float_cases (remove_char "%"%char (strip v)))
        as [(x & _ & Hx)|[_ Hx]]; rewrite Hx in H; discriminate.
    + intros E. unfold Turnout.clean_percentage. rewrite E.
      now rewrite orb_true_r.
  - intros Hne. rewrite (Hcases Hne).
    destruct (py_float_cases (remove_char "%"%char (strip v)))
      as [(x & Hx & Hx')|[_ Hx]].
    + rewrite Hx'. left. exists x. auto.
    + rewrite Hx. right. reflexivity.
  - intros c Hin Hsp Hc Hpc.
    assert (Hs : In c (strip v)) by (apply strip_In; auto).
    assert (Hne : strip v <> []) by (intros E; rewrite E in Hs; destruct Hs).
    rewrite (Hcases Hne).
    destruct (py_float_cases (remove_char "%"%char (strip v)))
      as [(x & Hx & _)|[_ Hx]]; [|now rewrite Hx].
    apply py_float_of_text_chars in Hx. rewrite forallb_forall in Hx.
    rewrite Hx in Hc; [discriminate|]. apply remove_char_In. auto.
Qed.

Lemma X14_witness :
  Turnout.clean_percentage (Some (txt "1,234.5%"))
  = Turnout.Fail (Turnout.Py (ValueError_float (txt "1,234.5"))).
Proof.
  apply (proj2 (proj2 (X14_clean_percentage_outcomes (txt "1,234.5%")))
           ","%char).
  - simpl; auto.
  - vm_compute; reflexivity.
  - vm_compute; reflexivity.
  - discriminate.
Defined.

(** *** Loops over the rows of a file *)

Lemma each_invariant {A S} (P : S -> Prop) (f : S -> A -> Turnout.outcome S) :
  forall l s out,
  P s ->
  (forall s x s', In x l -> P s -> f s x = Turnout.Done s' -> P s') ->
  Turnout.each f l s = Turnout.Done out -> P out.
Proof.
  induction l as [|x r IH]; simpl; intros s out Hs Hf H.
  - now injection H as <-.
  - destruct (f s x) as [s'|e] eqn:E; simpl in H; [|discriminate].
    eapply IH; [| |exact H]; eauto.
Qed.

Lemma each_Fail {A S} (f : S -> A -> Turnout.outcome S) e :
  forall l s, Turnout.each f l s = Turnout.Fail e ->
  exists x s', In x l /\ f s' x = Turnout.Fail e.
Proof.
  induction l as [|x r IH]; simpl; intros s H; [discriminate|].
  destruct (f s x) as [s'|e'] eqn:E; simpl in H.
  - destruct (IH _ H) as (y & s'' & Hin & Hy). eauto.
  - injection H as <-. eauto.
Qed.

Lemma each_length {A B} (f : list B -> A -> Turnout.outcome (list B)) :
  (forall s x s', f s x = Turnout.Done s' -> length s' <= S (length s)) ->
  forall l s out, Turnout.each f l s = Turnout.Done out ->
  length out <= length s + length l.
Proof.
  intros Hf. induction l as [|x r IH]; simpl; intros s out H.
  - injection H as <-. lia.
  - destruct (f s x) as [s'|e] eqn:E; simpl in H; [|discriminate].
    apply IH in H. apply Hf in E. lia.
Qed.

Lemma index_where_None {A} (p : A -> bool) l :
  Turnout.index_where p l = None <-> forall x, In x l -> p x = false.
Proof.
  induction l as [|x l IH]; simpl.
  - split; auto. intros _ x [].
  - destruct (p x) eqn:E.
    + split; [discriminate|]. intros H. rewrite (H x) in E by auto.
      discriminate.
    + destruct (Turnout.index_where p l) as [i|]; simpl.
      * split; [discriminate|]. intros H.
        assert (Hn : forall y, In y l -> p y = false) by auto.
        apply IH in Hn. discriminate.
      * split; auto. intros _ y [<-|Hy]; auto. now apply IH.
Qed.

Lemma index_where_Some {A} (p : A -> bool) d : forall l i,
  Turnout.index_where p l = Some i ->
  i < length l /\ p (nth i l d) = true /\
  forall j, j < i -> p (nth j l d) = false.
Proof.
  induction l as [|x l IH]; simpl; intros i H; [discriminate|].
  destruct (p x) eqn:E.
  - injection H as <-. repeat split; auto; try lia.
  - destruct (Turnout.index_where p l) as [i'|]; [|discriminate].
    injection H as <-. destruct (IH _ eq_refl) as (Hi & Hp & Hbefore).
    repeat split; auto; try lia.
    intros [|j] Hj; auto. apply Hbefore. lia.
Qed.

Lemma clean_percentage_Fail v e :
  Turnout.clean_percentage (Some v) = Turnout.Fail e ->
  e = Turnout.Py (ValueError_float (remove_char "%"%char (strip v))) /\
  forall x, py_float_of_text (remove_char "%"%char (strip v)) <> Ok x.
Proof.
  unfold Turnout.clean_percentage. destruct (_ || _); [discriminate|].
  destruct (py_float_cases (remove_char "%"%char (strip v)))
    as [(x & _ & Hx)|[Hn Hx]]; rewrite Hx; simpl; [discriminate|].
  intros [= <-]. auto.
Qed.

(** *** [process_2016_2020] *)

Lemma row_2016_2020_Done y idx records row out :
  Turnout.row_2016_2020 y idx records row = Turnout.Done out ->
  out = records \/
  exists t,
    out = records ++ [ {| year := y; state := strip (Turnout.field row 0);
                          turnout := t |} ] /\
    idx < length row /\
    strip (Turnout.field row 0) <> [] /\
    strip (Turnout.field row 0) <> txt "United States" /\
    startswith (txt "Note:") (strip (Turnout.field row 0)) = false /\
    startswith (txt "*") (strip (Turnout.field row 0)) = false /\
    Turnout.clean_percentage (Some (strip (Turnout.field row idx)))
    = Turnout.Done (Some t).
Proof.
  unfold Turnout.row_2016_2020.
  destruct (Nat.leb_spec (length row) (Nat.max 0 idx)) as [Hl|Hl];
    [intros [= <-]; auto|].
  cbv zeta. destruct (_ || _) eqn:Hskip; [intros [= <-]; auto|].
  destruct (Turnout.clean_percentage _) as [[t|]|e] eqn:Hc; simpl;
    try discriminate; intros [= <-]; auto.
  right. exists t.
  apply orb_false_iff in Hskip as [Hskip Hstar].
  apply orb_false_iff in Hskip as [Hskip Hnote].
  apply orb_false_iff in Hskip as [Hne Hus].
  repeat split; auto; try lia.
  - intros E. rewrite E in Hne. discriminate.
  - now apply text_eqb_neq.
Qed.

Lemma row_2016_2020_Fail y idx records row e :
  Turnout.row_2016_2020 y idx records row = Turnout.Fail e ->
  idx < length row /\
  e = Turnout.Py (ValueError_float
                    (remove_char "%"%char (strip (Turnout.field row idx)))) /\
  forall x, py_float_of_text
              (remove_char "%"%char (strip (Turnout.field row idx))) <> Ok x.
Proof.
  unfold Turnout.row_2016_2020.
  destruct (Nat.leb_spec (length row) (Nat.max 0 idx)) as [Hl|Hl];
    [discriminate|].
  cbv zeta. destruct (_ || _); [discriminate|].
  destruct (Turnout.clean_percentage _) as [[t|]|e'] eqn:Hc; simpl;
    try discriminate.
  intros [= <-]. apply clean_percentage_Fail in Hc as [-> Hn].
  rewrite strip_idem in *. split; [lia|]. auto.
Qed.

(** X15. The records of [process_2016_2020] all carry the year passed
    in, and the trimmed first field of a data row as their state: a text
    that is not empty, is not [United States], and begins neither with
    [Note:] nor with an asterisk.  A data row gives at most one record. *)
Theorem X15_records_of_process_2016_2020
    (file_path : text) (rows : list (list text)) (y : Z) (recs : list record) :
  Turnout.process_2016_2020 file_path rows y = Turnout.Done recs ->
  Forall (fun rec =>
            year rec = y /\
            state rec <> [] /\ strip (state rec) = state rec /\
            state rec <> txt "United States" /\
            startswith (txt "Note:") (state rec) = false /\
            startswith (txt "*") (state rec) = false /\
            exists row, In row (skipn 2 rows) /\
                        state rec = strip (Turnout.field row 0)) recs /\
  length recs <= length rows - 2.
Proof.
  unfold Turnout.process_2016_2020.
  destruct rows as [|r0 [|headers data]]; try discriminate.
  destruct (Turnout.index_where _ headers) as [idx|]; [|discriminate].
  intros H. split.
  - revert H. apply each_invariant; [constructor|].
    intros s row s' Hin Hs Hstep.
    apply row_2016_2020_Done in Hstep
      as [->|(t & -> & _ & Hne & Hus & Hnote & Hstar & _)]; auto.
    apply Forall_app. split; auto. constructor; [|constructor]. simpl.
    repeat split; auto.
    + apply strip_idem.
    + exists row. auto.
  - apply each_length in H; [simpl in *; lia|].
    intros s row s' Hstep.
    apply row_2016_2020_Done in Hstep as [->|(t & -> & _)]; auto.
    rewrite length_app. simpl. lia.
Qed.

Lemma X15_witness :
  Turnout.process_2016_2020 (txt "2020.csv") rows_2020 2020
  = Turnout.Done records_2020 /\
  length records_2020 <= length rows_2020 - 2.
Proof.
  split; [vm_compute; reflexivity|].
  apply (X15_records_of_process_2016_2020 (txt "2020.csv") rows_2020 2020
           records_2020).
  vm_compute; reflexivity.
Defined.

(** The failures of [process_2016_2020] on the rows read: [StopIteration]
    exactly for fewer than two rows, the [ValueError] for a missing turnout
    column exactly when no name of the second row is a known one, and
    otherwise the [ValueError] of [float()] on a turnout cell. *)
Lemma process_2016_2020_failures
    (file_path : text) (rows : list (list text)) (y : Z) :
  (Turnout.process_2016_2020 file_path rows y = Turnout.Fail Turnout.StopIteration
   <-> length rows < 2) /\
  (forall msg,
     Turnout.process_2016_2020 file_path rows y
     = Turnout.Fail (Turnout.Py (ValueError_msg msg)) <->
     exists r0 headers data,
       rows = r0 :: headers :: data /\
       (forall h, In h headers -> ~ In h Turnout.possible_turnout_columns) /\
       msg = Turnout.no_turnout_column_message file_path headers) /\
  (forall e,
     Turnout.process_2016_2020 file_path rows y = Turnout.Fail e ->
     e = Turnout.StopIteration \/
     (exists msg, e = Turnout.Py (ValueError_msg msg)) \/
     exists row idx,
       In row (skipn 2 rows) /\ idx < length row /\
       In (nth idx (nth 1 rows []) []) Turnout.possible_turnout_columns /\
       e = Turnout.Py (ValueError_float
             (remove_char "%"%char (strip (Turnout.field row idx)))) /\
       forall x, py_float_of_text
                   (remove_char "%"%char (strip (Turnout.field row idx)))
                 <> Ok x).
Proof.
  assert (Hin : forall h : text,
            existsb (text_eqb h) Turnout.possible_turnout_columns = true <->
            In h Turnout.possible_turnout_columns).
  { intros h. rewrite existsb_exists. split.
    - intros (x & Hx & E). apply text_eqb_eq in E. now subst.
    - intros H. exists h. split; auto. apply text_eqb_refl. }
  unfold Turnout.process_2016_2020.
  destruct rows as [|r0 [|headers data]].
  - split; [|split].
    + split; [intros _; simpl; lia | reflexivity].
    + intros msg. split; [discriminate|].
      intros (? & ? & ? & E & _). discriminate.
    + intros e [= <-]. auto.
  - split; [|split].
    + split; [intros _; simpl; lia | reflexivity].
    + intros msg. split; [discriminate|].
      intros (? & ? & ? & E & _). discriminate.
    + intros e [= <-]. auto.
  - destruct (Turnout.index_where _ headers) as [idx|] eqn:Ei.
    + apply (index_where_Some _ []) in Ei as (Hidx & Hp & _).
      apply Hin in Hp.
      assert (Hfail : forall e,
        Turnout.each (Turnout.row_2016_2020 y idx) data [] = Turnout.Fail e ->
        exists row,
          In row data /\ idx < length row /\
          e = Turnout.Py (ValueError_float
                (remove_char "%"%char (strip (Turnout.field row idx)))) /\
          forall x, py_float_of_text
                      (remove_char "%"%char (strip (Turnout.field row idx)))
                    <> Ok x).
      { intros e H. apply each_Fail in H as (row & s & Hrow & H).
        apply row_2016_2020_Fail in H as (Hl & -> & Hn). eauto. }
      split; [|split].
      * split; [|simpl; lia].
        intros H. apply Hfail in H as (row & _ & _ & E & _). discriminate.
      * intros msg. split.
        -- intros H. apply Hfail in H as (row & _ & _ & E & _). discriminate.
        -- intros (r0' & headers' & data' & [= <- <- <-] & Hnone & _).
           exfalso. apply (Hnone (nth idx headers [])); auto.
           now apply nth_In.
      * intros e H. apply Hfail in H as (row & Hrow & Hl & -> & Hn).
        right. right. exists row, idx. simpl. auto.
    + assert (Hnone : forall h, In h headers ->
                        ~ In h Turnout.possible_turnout_columns).
      { intros h Hh Hp. apply Hin in Hp.
        rewrite index_where_None in Ei. rewrite (Ei h Hh) in Hp.
        discriminate. }
      split; [|split].
      * split; [discriminate|simpl; lia].
      * intros msg. split.
        -- intros [= <-]. exists r0, headers, data. auto.
        -- intros (r0' & headers' & data' & [= <- <- <-] & _ & ->).
           reflexivity.
      * intros e [= <-]. right. left. eauto.
Qed.

(** *** [process_1980_2014] *)

Lemma py_int_limited_Ok s z : py_int_limited s = Ok z -> py_int s = Ok z.
Proof.
  unfold py_int_limited. destruct (split_sign _) as [neg body].
  destruct body as [|c body]; auto.
  destruct (is_code 95 c); auto.
  destruct (scan_int false (c :: body) 0) as [[n [|]]|]; auto.
  destruct (int_max_str_digits <? n); [discriminate|auto].
Qed.

Lemma scan_int_bound : forall s b d n b',
  scan_int b s d = Some (n, b') -> n <= d + length s.
Proof.
  induction s as [|c s IH]; simpl; intros b d n b' H.
  - injection H as <- _. lia.
  - destruct (is_code 95 c).
    + destruct b; [discriminate|]. apply IH in H. lia.
    + destruct (isdecimal_char c).
      * apply IH in H. lia.
      * injection H as <- _. lia.
Qed.

Lemma isdigit_no_sign_mark c :
  isdigit_char c = true ->
  is_code 43 c = false /\ is_code 45 c = false /\ is_code 95 c = false.
Proof. by_char c; repeat split; reflexivity. Qed.

(** Below the limit on the number of digits [int()] treats a text of
    digit characters as [py_int] does. *)
Lemma py_int_limited_digits s :
  isdigit s = true -> length s <= int_max_str_digits ->
  py_int_limited s = py_int s.
Proof.
  unfold isdigit. intros H Hlen. apply andb_true_iff in H as [Hne Hd].
  unfold py_int_limited. rewrite strip_by_nospace.
  2:{ eapply forallb_impl; [|exact Hd]. intros c Hc.
      apply isdigit_not_space_num in Hc. now rewrite Hc. }
  destruct s as [|c s]; [discriminate|].
  simpl in Hd. apply andb_true_iff in Hd as [Hc Hd].
  destruct (isdigit_no_sign_mark c Hc) as (H43 & H45 & H95).
  unfold split_sign. rewrite H43, H45, H95.
  destruct (scan_int false (c :: s) 0) as [[n [|]]|] eqn:E; auto.
  apply scan_int_bound in E.
  destruct (Nat.ltb_spec int_max_str_digits n); auto. simpl in *. lia.
Qed.

Lemma digits_val_nonneg s :
  forallb isdecimal_char s = true -> (0 <= digits_val s)%Z.
Proof.
  unfold digits_val.
  assert (H : forall acc, (0 <= acc)%Z -> forallb isdecimal_char s = true ->
            (0 <= fold_left (fun acc c => acc * 10 + digit_val c) s acc)%Z).
  { induction s as [|c s IH]; simpl; intros acc Hacc Hs; auto.
    apply andb_true_iff in Hs as [Hc Hs]. apply IH; auto.
    apply digit_val_range in Hc. lia. }
  apply H. lia.
Qed.

Lemma py_int_of_digits s y :
  isdigit s = true -> Turnout.py_int_of s = Turnout.Done y ->
  forallb isdecimal_char s = true /\ y = digits_val s.
Proof.
  unfold Turnout.py_int_of. intros Hd H.
  destruct (py_int_limited s) as [z|e|] eqn:E; try discriminate.
  injection H as <-. apply py_int_limited_Ok in E.
  unfold isdigit in Hd. apply andb_true_iff in Hd as [Hne Hd].
  rewrite py_int_digits in E; auto.
  - destruct (forallb isdecimal_char s); [|discriminate].
    injection E as <-. auto.
  - intros ->. discriminate.
Qed.

Lemma row_1980_2014_Done idx records row out :
  Turnout.row_1980_2014 idx records row = Turnout.Done out ->
  out = records \/
  exists t,
    out = records ++ [ {| year := digits_val (strip (Turnout.field row 0));
                          state := strip (Turnout.field row 3);
                          turnout := t |} ] /\
    3 < length row /\ idx < length row /\
    strip (Turnout.field row 0) <> [] /\
    forallb isdecimal_char (strip (Turnout.field row 0)) = true /\
    strip (Turnout.field row 3) <> txt "United States" /\
    Turnout.clean_percentage (Some (strip (Turnout.field row idx)))
    = Turnout.Done (Some t).
Proof.
  unfold Turnout.row_1980_2014.
  destruct (Nat.leb_spec (length row) (Nat.max (Nat.max 0 3) idx)) as [Hl|Hl];
    [intros [= <-]; auto|].
  cbv zeta. destruct (_ || _) eqn:Hskip; [intros [= <-]; auto|].
  apply orb_false_iff in Hskip as [Hskip Hus].
  apply orb_false_iff in Hskip as [Hne Hdig].
  apply negb_false_iff in Hne. apply negb_false_iff in Hdig.
  destruct (Turnout.clean_percentage _) as [[t|]|e] eqn:Hc; simpl;
    try discriminate; [|intros [= <-]; auto].
  destruct (Turnout.py_int_of _) as [y|e] eqn:Hy; simpl; [|discriminate].
  intros [= <-]. apply py_int_of_digits in Hy as [Hdec ->]; auto.
  right. exists t. repeat split; auto; try lia.
  - intros E. rewrite E in Hne. discriminate.
  - now apply text_eqb_neq.
Qed.

(** X17. The records of [process_1980_2014] come one at most from a
    data row with more than three fields: the year is the value of the
    row's trimmed first field, a non-empty text of decimal digits, and is
    never negative; the state is the trimmed fourth field and is not
    [United States]. *)
Theorem X17_records_of_process_1980_2014
    (rows : list (list text)) (recs : list record) :
  Turnout.process_1980_2014 rows = Turnout.Done recs ->
  Forall (fun rec =>
            (0 <= year rec)%Z /\
            strip (state rec) = state rec /\
            state rec <> txt "United States" /\
            exists row,
              In row (skipn 2 rows) /\ 3 < length row /\
              state rec = strip (Turnout.field row 3) /\
              strip (Turnout.field row 0) <> [] /\
              forallb isdecimal_char (strip (Turnout.field row 0)) = true /\
              year rec = digits_val (strip (Turnout.field row 0))) recs /\
  length recs <= length rows - 2.
Proof.
  unfold Turnout.process_1980_2014.
  destruct rows as [|r0 [|headers data]]; try discriminate.
  destruct (Turnout.index_where _ headers) as [idx|]; [|discriminate].
  intros H. split.
  - revert H. apply each_invariant; [constructor|].
    intros s row s' Hin Hs Hstep.
    apply row_1980_2014_Done in Hstep
      as [->|(t & -> & Hl & _ & Hne & Hdec & Hus & _)]; auto.
    apply Forall_app. split; auto. constructor; [|constructor]. simpl.
    split; [now apply digits_val_nonneg|].
    split; [apply strip_idem|]. split; [exact Hus|].
    exists row. repeat split; auto.
  - apply each_length in H; [simpl in *; lia|].
    intros s row s' Hstep.
    apply row_1980_2014_Done in Hstep as [->|(t & -> & _)]; auto.
    rewrite length_app. simpl. lia.
Qed.

Lemma X17_witness :
  Turnout.process_1980_2014 rows_1980_2014 = Turnout.Done records_1980_2014 /\
  length records_1980_2014 <= length rows_1980_2014 - 2.
Proof.
  split; [vm_compute; reflexivity|].
  apply (X17_records_of_process_1980_2014 rows_1980_2014 records_1980_2014).
  vm_compute; reflexivity.
Defined.

Lemma each_Fail_at {A S} (f : S -> A -> Turnout.outcome S) x :
  (forall s, exists e, f s x = Turnout.Fail e) ->
  forall l s, In x l -> exists e, Turnout.each f l s = Turnout.Fail e.
Proof.
  intros Hx. induction l as [|y l IH]; simpl; intros s Hin; [destruct Hin|].
  destruct (f s y) as [s'|e] eqn:E; simpl; [|eauto].
  destruct Hin as [->|Hin]; [|auto].
  destruct (Hx s) as (e & He). congruence.
Qed.

(** X18. A year written with a digit character that is not a decimal
    digit, a superscript footnote mark for instance, passes the test
    [year.isdigit()] and then makes [int(year)] raise: on a data row whose
    state and turnout are otherwise accepted, the row raises [ValueError],
    and [process_1980_2014] fails for the whole file. *)
Theorem X18_digit_year_that_int_refuses
    (r0 headers : list text) (data : list (list text)) (idx : nat)
    (row : list text) (t : float) :
  Turnout.index_where (fun header => text_eqb header (txt "VEP Highest Office"))
                      headers = Some idx ->
  In row data ->
  3 < length row -> idx < length row ->
  isdigit (strip (Turnout.field row 0)) = true ->
  forallb isdecimal_char (strip (Turnout.field row 0)) = false ->
  length (strip (Turnout.field row 0)) <= int_max_str_digits ->
  strip (Turnout.field row 3) <> txt "United States" ->
  Turnout.clean_percentage (Some (strip (Turnout.field row idx)))
  = Turnout.Done (Some t) ->
  (forall records,
     Turnout.row_1980_2014 idx records row
     = Turnout.Fail (Turnout.Py (ValueError_int (strip (Turnout.field row 0))))) /\
  exists e, Turnout.process_1980_2014 (r0 :: headers :: data) = Turnout.Fail e.
Proof.
  intros Hidx Hin H3 Hl Hdig Hdec Hlen Hus Hclean.
  assert (Hrow : forall records,
    Turnout.row_1980_2014 idx records row
    = Turnout.Fail (Turnout.Py (ValueError_int (strip (Turnout.field row 0))))).
  { intros records. unfold Turnout.row_1980_2014.
    destruct (Nat.leb_spec (length row) (Nat.max (Nat.max 0 3) idx)); [lia|].
    cbv zeta. rewrite Hdig.
    assert (Hne : nonempty (strip (Turnout.field row 0)) = true).
    { unfold isdigit in Hdig. now apply andb_true_iff in Hdig as [? _]. }
    rewrite Hne. apply text_eqb_neq in Hus. rewrite Hus. cbn [negb orb].
    rewrite Hclean. cbn [Turnout.and_then].
    unfold Turnout.py_int_of. rewrite py_int_limited_digits by auto.
    rewrite py_int_digits.
    - now rewrite Hdec.
    - intros E. rewrite E in Hne. discriminate.
    - unfold isdigit in Hdig. now apply andb_true_iff in Hdig as [_ ?]. }
  split; [exact Hrow|].
  unfold Turnout.process_1980_2014. rewrite Hidx.
  apply each_Fail_at with (x := row); auto.
  intros s. eauto.
Qed.

Lemma X18_witness :
  exists e, Turnout.process_1980_2014 rows_1980_2014_footnoted = Turnout.Fail e.
Proof.
  apply (X18_digit_year_that_int_refuses
           [txt ""; txt "Turnout Rates"]
           [txt "Year"; txt "ICPSR"; txt "Alpha"; txt "State";
            txt "VEP Highest Office"]
           [ [txt "2014"; txt "41"; txt "AL"; txt "Alabama"; txt "33.2%"];
             [footnoted_year; txt "81"; txt "AK"; txt "Alaska"; txt "54.8%"] ]
           4
           [footnoted_year; txt "81"; txt "AK"; txt "Alaska"; txt "54.8%"]
           (S754_finite false 7712414361871974 (-47))).
  - vm_compute; reflexivity.
  - right; left; reflexivity.
  - simpl; lia.
  - simpl; lia.
  - vm_compute; reflexivity.
  - vm_compute; reflexivity.
  - vm_compute; lia.
  - vm_compute; intros E; discriminate E.
  - vm_compute; reflexivity.
Defined.

(** *** [process_2024] *)

Lemma in_skipn_incl {A} n (l : list A) x : In x (skipn n l) -> In x l.
Proof.
  intros H. rewrite <- (firstn_skipn n l). apply in_or_app. now right.
Qed.

Lemma tdict_set_None_absent {V} k (d : list (text * option V)) : forall keys,
  ~ In k keys -> tdict_get k d = None ->
  tdict_get k (fold_left (fun d key => tdict_set key None d) keys d) = None.
Proof.
  intros keys. revert d. induction keys as [|key keys IH]; simpl; intros d Hk Hd;
    auto.
  apply IH; [tauto|]. rewrite tdict_get_set.
  destruct (text_eqb key k) eqn:E; auto.
  apply text_eqb_eq in E. tauto.
Qed.

(** A name that is not one of the reader's field names is not a key of
    the row. *)
Lemma dict_row_absent fieldnames row k :
  ~ In k fieldnames -> Turnout.row_get (Turnout.dict_row fieldnames row) k = None.
Proof.
  intros Hk. unfold Turnout.row_get, Turnout.dict_row.
  rewrite tdict_set_None_absent; auto.
  - intros Hin. apply Hk. eapply in_skipn_incl; eauto.
  - apply tdict_get_of_None. intros [a b] Hin. simpl. intros ->.
    apply in_combine_l in Hin. contradiction.
Qed.

Lemma clean_percentage_blank :
  Turnout.clean_percentage (Some (strip [])) = Turnout.Done None.
Proof. reflexivity. Qed.

Lemma row_2024_Done fieldnames sk tk records row out :
  Turnout.row_2024 fieldnames sk tk records row = Turnout.Done out ->
  out = records \/
  exists st t,
    out = records ++ [ {| year := 2024; state := st; turnout := t |} ] /\
    st <> [] /\ strip st = st /\ st <> txt "United States" /\
    In sk fieldnames /\ In tk fieldnames.
Proof.
  unfold Turnout.row_2024. destruct row as [|c row]; [intros [= <-]; auto|].
  cbv zeta. set (d := Turnout.dict_row fieldnames (c :: row)).
  destruct (in_dec (list_eq_dec ascii_dec) sk fieldnames) as [Hsk|Hsk].
  2:{ unfold d. rewrite (dict_row_absent _ _ _ Hsk). simpl.
      intros [= <-]. auto. }
  destruct (_ || _) eqn:Hskip; [intros [= <-]; auto|].
  destruct (in_dec (list_eq_dec ascii_dec) tk fieldnames) as [Htk|Htk].
  2:{ unfold d. rewrite (dict_row_absent _ _ _ Htk).
      cbn [Turnout.or_empty]. rewrite clean_percentage_blank. simpl.
      intros [= <-]. auto. }
  destruct (Turnout.clean_percentage _) as [[t|]|e]; simpl; try discriminate;
    intros [= <-]; auto.
  right. eexists _, t. split; [reflexivity|].
  apply orb_false_iff in Hskip as [Hne Hus].
  repeat split; auto.
  - intros E. rewrite E in Hne. discriminate.
  - apply strip_idem.
  - now apply text_eqb_neq.
Qed.


(** The entries of [key_map]: a key is the trimmed lower-case form of a
    field name, its value the trimmed name. *)
Lemma key_map_2024_Some fields k v :
  tdict_get k (key_map_2024 fields) = Some v ->
  strip v = v /\ lower v = k /\ exists f, In f fields /\ v = strip f.
Proof.
  unfold key_map_2024. intros H.
  apply tdict_get_of_Some in H as (l1 & l2 & E & _).
  assert (Hin : In (k, v) (map (fun name => (lower (strip name), strip name))
                               (map strip fields)))
    by (rewrite E; apply in_elt).
  apply in_map_iff in Hin as (name & [= <- <-] & Hname).
  apply in_map_iff in Hname as (f & <- & Hf).
  rewrite !strip_idem. repeat split; auto. exists f. auto.
Qed.

Lemma key_map_2024_None fields k :
  tdict_get k (key_map_2024 fields) = None <->
  forall f, In f fields -> lower (strip f) <> k.
Proof.
  unfold key_map_2024. rewrite tdict_get_of_None. split.
  - intros H f Hf. specialize (H (lower (strip (strip f)), strip (strip f))).
    rewrite strip_idem in H. apply H.
    apply in_map_iff. exists (strip f). rewrite strip_idem. split; auto.
    now apply in_map.
  - intros H kv Hin. apply in_map_iff in Hin as (name & <- & Hname).
    apply in_map_iff in Hname as (f & <- & Hf). simpl.
    rewrite strip_idem. auto.
Qed.

Lemma process_2024_unfold fields data :
  Turnout.process_2024 (fields :: data) =
  let state_key := tdict_get (txt "state") (key_map_2024 fields) in
  let turnout_key :=
    match find (fun k => Turnout.truthy (tdict_get k (key_map_2024 fields)))
               Turnout.vep_keys with
    | Some k => tdict_get k (key_map_2024 fields)
    | None => None
    end in
  match state_key, turnout_key with
  | Some sk, Some tk =>
      if nonempty sk && nonempty tk
      then Turnout.each (Turnout.row_2024 fields sk tk) data []
      else Turnout.Fail (Turnout.Py (ValueError_msg
                           (Turnout.missing_columns_message state_key turnout_key)))
  | _, _ =>
      Turnout.Fail (Turnout.Py (ValueError_msg
                      (Turnout.missing_columns_message state_key turnout_key)))
  end.
Proof. reflexivity. Qed.

Lemma lower_nonempty v k : lower v = k -> k <> [] -> nonempty v = true.
Proof. intros <- H. destruct v; [now destruct H|reflexivity]. Qed.

(** What [process_2024] does once the header is read: it fails for a
    missing column, or runs the loop with the two keys found. *)
Lemma process_2024_cases fields data :
  (exists msg,
     Turnout.process_2024 (fields :: data)
     = Turnout.Fail (Turnout.Py (ValueError_msg msg)) /\
     ((forall f, In f fields -> lower (strip f) <> txt "state") \/
      (forall f, In f fields -> ~ In (lower (strip f)) Turnout.vep_keys))) \/
  (exists sk tk,
     Turnout.process_2024 (fields :: data)
     = Turnout.each (Turnout.row_2024 fields sk tk) data [] /\
     strip sk = sk /\ lower sk = txt "state" /\
     strip tk = tk /\ In (lower tk) Turnout.vep_keys /\
     (exists f, In f fields /\ sk = strip f) /\
     (exists f, In f fields /\ tk = strip f)).
Proof.
  rewrite process_2024_unfold. cbv zeta.
  destruct (tdict_get (txt "state") (key_map_2024 fields)) as [sk|] eqn:Es.
  2:{ left. eexists. split; [reflexivity|]. left.
      now apply key_map_2024_None. }
  destruct (find _ Turnout.vep_keys) as [k|] eqn:Ef.
  - apply find_some in Ef as [Hk Ht].
    destruct (tdict_get k (key_map_2024 fields)) as [tk|] eqn:Et;
      [|discriminate].
    apply key_map_2024_Some in Es as (Hs1 & Hs2 & Hs3).
    apply key_map_2024_Some in Et as (Ht1 & Ht2 & Ht3).
    rewrite (lower_nonempty sk (txt "state")) by (auto; discriminate).
    simpl in Ht. rewrite Ht. simpl.
    right. exists sk, tk. subst k. repeat split; auto.
  - left. eexists. split; [reflexivity|]. right.
    intros f Hf Hin0. pose proof Hin0 as Hin.
    apply (find_none _ _ Ef) in Hin.
    destruct (tdict_get (lower (strip f)) (key_map_2024 fields)) as [v|] eqn:Ev.
    + apply key_map_2024_Some in Ev as (_ & Hv & _). simpl in Hin.
      destruct v; [|discriminate]. simpl in Hv.
      rewrite <- Hv in Hin0. simpl in Hin0.
      destruct Hin0 as [Hk|[Hk|[Hk|[]]]]; discriminate.
    + rewrite key_map_2024_None in Ev. now apply (Ev f).
Qed.

(** X19. The records of [process_2024] all carry the year 2024 and a
    state that is trimmed, not empty and not [United States]; a row of the
    file gives at most one record. *)
Theorem X19_records_of_process_2024
    (rows : list (list text)) (recs : list record) :
  Turnout.process_2024 rows = Turnout.Done recs ->
  Forall (fun rec =>
            year rec = 2024%Z /\ state rec <> [] /\
            strip (state rec) = state rec /\
            state rec <> txt "United States") recs /\
  length recs <= length rows - 1.
Proof.
  destruct rows as [|fields data]; [discriminate|].
  destruct (process_2024_cases fields data)
    as [(msg & -> & _)|(sk & tk & -> & _)]; [discriminate|].
  intros H. split.
  - revert H. apply each_invariant; [constructor|].
    intros s row s' _ Hs Hstep.
    apply row_2024_Done in Hstep
      as [->|(st & t & -> & Hne & Hst & Hus & _)]; auto.
    apply Forall_app. split; [exact Hs|]. constructor; [|constructor].
    simpl. auto.
  - apply each_length in H; [simpl in *; lia|].
    intros s row s' Hstep.
    apply row_2024_Done in Hstep as [->|(st & t & -> & _)]; auto.
    rewrite length_app. simpl. lia.
Qed.

Lemma X19_witness :
  Turnout.process_2024 rows_2024 = Turnout.Done records_2024 /\
  length records_2024 <= length rows_2024 - 1.
Proof.
  split; [vm_compute; reflexivity|].
  apply (X19_records_of_process_2024 rows_2024 records_2024).
  vm_compute; reflexivity.
Defined.

(** X20. [process_2024] finds its two columns by the trimmed names of
    the header and then reads each row by those trimmed names, while the
    rows are keyed by the names as written.  So it returns a record only
    when the header holds, exactly as written and without white space
    around it, a name that reads [state] in lower case and a name that
    reads as one of the three turnout keys; with a padded name every row
    is passed over and the result is empty. *)
Theorem X20_process_2024_reads_rows_by_trimmed_names
    (fields : list text) (data : list (list text)) (recs : list record) :
  Turnout.process_2024 (fields :: data) = Turnout.Done recs ->
  recs <> [] ->
  exists sk tk,
    In sk fields /\ strip sk = sk /\ lower sk = txt "state" /\
    In tk fields /\ strip tk = tk /\ In (lower tk) Turnout.vep_keys.
Proof.
  destruct (process_2024_cases fields data)
    as [(msg & -> & _)|(sk & tk & -> & Hs1 & Hs2 & Ht1 & Ht2 & _)];
    [discriminate|].
  intros H Hne. exists sk, tk.
  assert (Hin : recs = [] \/ (In sk fields /\ In tk fields)).
  { revert H.
    apply each_invariant
      with (P := fun recs : list record =>
                   recs = [] \/ (In sk fields /\ In tk fields)); [now left|].
    intros s row s' _ Hs Hstep.
    apply row_2024_Done in Hstep
      as [->|(st & t & -> & _ & _ & _ & Hsk & Htk)]; auto. }
  destruct Hin as [->|[Hsk Htk]]; [now destruct Hne|].
  repeat split; auto.
Qed.

Lemma X20_witness :
  exists sk tk,
    In sk (nth 0 rows_2024 []) /\ strip sk = sk /\ lower sk = txt "state" /\
    In tk (nth 0 rows_2024 []) /\ strip tk = tk /\
    In (lower tk) Turnout.vep_keys.
Proof.
  apply (X20_process_2024_reads_rows_by_trimmed_names
           (nth 0 rows_2024 []) (skipn 1 rows_2024) records_2024).
  - vm_compute; reflexivity.
  - vm_compute; intros E; discriminate E.
Defined.


(** ** Rows and year maps, once more *)

Lemma extract_year_one df r st entry rs :
  extract_year df r st [] entry = Ok rs ->
  rs = [] \/ exists rec, rs = [rec] /\ year rec = fst entry.
Proof.
  destruct entry as [y [t c]]. unfold extract_year.
  destruct (col_idx t c) as [col|]; [|intros [= <-]; auto].
  destruct (n_cols df <=? col); [intros [= <-]; auto|].
  intros H. bind_inv H as v Hv. bind_inv H as o Ho.
  destruct o as [x|]; injection H as <-; auto.
  right. eexists. split; reflexivity.
Qed.

(** X22. In a detected block a data row gives at most one record for a
    year, even when the anchor row names the year in several cells: the
    years of the row's records are pairwise distinct and are keys of the
    block's year map, in the order of the map. *)
Theorem X22_row_gives_one_record_per_year
    (df : DataFrame) (blocks : list block) (a : nat) (ym : year_map)
    (r : nat) (recs : list record) :
  find_header_blocks df = Ok blocks ->
  In (a, ym) blocks ->
  parse_row df ym r [] = Ok recs ->
  NoDup (map year recs) /\
  (forall y, In y (map year recs) -> In y (map fst ym)) /\
  length recs <= length ym.
Proof.
  intros Hb Hin Hrow.
  assert (Hnd : NoDup (map fst ym)).
  { apply find_header_blocks_detected in Hb.
    destruct (detected_In _ _ _ _ _ Hb Hin) as (_ & years & _ & _ & Hym).
    unfold build_year_map in Hym.
    apply dict_fold_last in Hym as (Hnd & _); [exact Hnd|constructor]. }
  unfold parse_row in Hrow. bind_inv Hrow as v Hv. cbv zeta in Hrow.
  destruct (skip_state (state_label v)).
  { injection Hrow as <-. simpl. split; [constructor|].
    split; [intros y []|lia]. }
  rewrite (for_each_collect _ _ (extract_year_acc df r (state_label v))) in Hrow.
  bind_inv Hrow as ys Hys. injection Hrow as <-. simpl.
  apply collect_Ok in Hys as (per & HF & ->).
  destruct (one_record_per_year
              (fun entry rs => extract_year df r (state_label v) [] entry = Ok rs)
              (extract_year_one df r (state_label v)) ym per HF Hnd)
    as [H1 H2].
  split; [exact H1|]. split; [exact H2|].
  clear - HF. induction HF as [|entry rs ym' per' He _ IH]; simpl; auto.
  rewrite length_app.
  apply extract_year_one in He as [->|(rec & -> & _)]; simpl; lia.
Qed.

Lemma X22_witness :
  NoDup (map year
           (records_or_nil
              (parse_row repeated_year_frame [(2020%Z, (Some 3, None))] 2 []))).
Proof.
  apply (X22_row_gives_one_record_per_year repeated_year_frame
           [(0, [(2020%Z, (Some 3, None))])] 0 [(2020%Z, (Some 3, None))] 2
           (records_or_nil
              (parse_row repeated_year_frame [(2020%Z, (Some 3, None))] 2 []))).
  - vm_compute; reflexivity.
  - now left.
  - vm_compute; reflexivity.
Defined.

(** X23. The pair of columns that [normalize_census_a5b.py] maps a year
    at column [j] to has one of six shapes: the two columns are never the
    same, and the total column is taken from column [j + 1] only when no
    citizen column is mapped.  In particular, under sub-headers in the
    order citizen, total, the year is mapped to the citizen column alone,
    so that the extraction, which prefers the total column, reads the
    citizen one. *)
Theorem X23_a5b_column_pairs
    (df : DataFrame) (h j : nat) (cols : option nat * option nat) :
  A5b.subheader_columns df h j = Ok cols ->
  In cols [ (None, None); (Some j, None); (Some j, Some (j + 1));
            (None, Some j); (None, Some (j + 1)); (Some (j + 1), None) ] /\
  (forall s0 s1,
     A5b.subheader df (h + 1) j = Ok s0 ->
     A5b.subheader df (h + 1) (j + 1) = Ok s1 ->
     startswith (txt "citizen") (lower s0) = true ->
     startswith (txt "total") (lower s1) = true ->
     cols = (None, Some j) /\ a5b_col_idx (fst cols) (snd cols) = Some j).
Proof.
  unfold A5b.subheader_columns. intros H.
  bind_inv H as s0 H0. bind_inv H as s1 H1. cbv zeta in H.
  assert (Hexcl : startswith (txt "citizen") (lower s0) = true ->
                  startswith (txt "total") (lower s0) = false).
  { intros Hc. apply startswith_iff in Hc as (r & ->).
    reflexivity. }
  split.
  - destruct (startswith (txt "total") (lower s0)),
             (startswith (txt "citizen") (lower s1)),
             (startswith (txt "citizen") (lower s0)),
             (startswith (txt "total") (lower s1));
      injection H as <-; simpl; tauto.
  - intros s0' s1' E0 E1 Hc Ht.
    assert (s0' = s0) by congruence. assert (s1' = s1) by congruence.
    subst s0' s1'.
    rewrite (Hexcl Hc), Hc in H. cbn iota in H.
    injection H as <-. auto.
Qed.

Lemma X23_witness :
  In (None, Some 1)
     [ (None, None); (Some 1, None); (Some 1, Some (1 + 1));
       (None, Some 1); (None, Some (1 + 1)); (Some (1 + 1), @None nat) ].
Proof.
  refine (proj1 (X23_a5b_column_pairs
                   (dropna_cols (dropna_rows reversed_sheet)) 0 1
                   (None, Some 1) _)).
  vm_compute; reflexivity.
Defined.

(** A header whose first name is followed by a space: the rows are read
    by the trimmed name, and none gives a record. *)
Example padded_header_gives_no_record :
  Turnout.process_2024 rows_2024_padded = Turnout.Done [].
Proof. vm_compute. reflexivity. Qed.

(** The registration sheet with sub-headers in the order citizen, total:
    the record holds the citizen column's value. *)
Example reversed_sheet_reads_citizen_column :
  option_map (map turnout)
    (match A5b.normalize_a5b reversed_sheet with
     | Ok recs => Some recs
     | _ => None
     end)
  = match py_float_of_text (txt "68.0") with
    | Ok x => Some [x]
    | _ => None
    end.
Proof. vm_compute. reflexivity. Qed.

(** ** The files of [normalize_turnout.py], from [open()] on *)

Lemma for_rows_each {S} (f : S -> list text -> Turnout.outcome S) ending :
  forall rows s,
  for_rows f rows ending s = after_reading (Turnout.each f rows s) ending.
Proof.
  induction rows as [|row rest IH]; intros s; simpl; auto.
  destruct (f s row) as [s'|e]; simpl; auto.
Qed.

(** With at least two rows read, the file-level function is the function
    on the rows, followed by the end of the reading. *)
Lemma process_2016_2020_file_rows file_path r0 headers data ending y :
  process_2016_2020_file file_path (Opened (r0 :: headers :: data) ending) y
  = match Turnout.index_where
            (fun header => existsb (text_eqb header)
                                   Turnout.possible_turnout_columns) headers
    with
    | None =>
        Failed (Raised (Turnout.Py (ValueError_msg
          (Turnout.no_turnout_column_message file_path headers))))
    | Some idx =>
        after_reading
          (Turnout.process_2016_2020 file_path (r0 :: headers :: data) y) ending
    end.
Proof.
  unfold process_2016_2020_file, Turnout.process_2016_2020. simpl.
  destruct (Turnout.index_where _ headers); auto. apply for_rows_each.
Qed.

Lemma process_2016_2020_file_none file_path rows y :
  process_2016_2020_file file_path (Opened rows None) y
  = after_reading (Turnout.process_2016_2020 file_path rows y) None.
Proof.
  destruct rows as [|r0 [|headers data]]; try reflexivity.
  rewrite process_2016_2020_file_rows. unfold Turnout.process_2016_2020.
  destruct (Turnout.index_where _ headers); reflexivity.
Qed.

(** X16. The ways [process_2016_2020] can fail, from [open()] on.  It
    raises the error of the reading ([OSError] when the file cannot be
    opened; otherwise what the reader raises after its last row) exactly
    when the file cannot be opened, or the reader raises before two rows
    are read, or it raises after rows on which the function would have
    returned.  It raises [StopIteration] exactly when the file ends
    before two rows are read, and the [ValueError] for a missing turnout
    column exactly when two rows are read and no name of the second is
    one of the four known names.  Any other failure is the [ValueError] of
    [float()] on the turnout cell, trimmed and without its percent signs,
    of a data row that was read. *)
Theorem X16_failures_of_process_2016_2020
    (file_path : text) (file : csv_file) (y : Z) :
  (forall e,
     process_2016_2020_file file_path file y = Failed (ReadError e) <->
     (file = Unopened /\ e = OSError) \/
     exists rows, file = Opened rows (Some e) /\
       (length rows < 2 \/
        exists recs,
          Turnout.process_2016_2020 file_path rows y = Turnout.Done recs)) /\
  (process_2016_2020_file file_path file y
   = Failed (Raised Turnout.StopIteration) <->
   exists rows, file = Opened rows None /\ length rows < 2) /\
  (forall msg,
     process_2016_2020_file file_path file y
     = Failed (Raised (Turnout.Py (ValueError_msg msg))) <->
     exists r0 headers data ending,
       file = Opened (r0 :: headers :: data) ending /\
       (forall h, In h headers -> ~ In h Turnout.possible_turnout_columns) /\
       msg = Turnout.no_turnout_column_message file_path headers) /\
  (forall e,
     process_2016_2020_file file_path file y = Failed e ->
     (exists e', e = ReadError e') \/
     e = Raised Turnout.StopIteration \/
     (exists msg, e = Raised (Turnout.Py (ValueError_msg msg))) \/
     exists rows ending row idx,
       file = Opened rows ending /\
       In row (skipn 2 rows) /\ idx < length row /\
       In (nth idx (nth 1 rows []) []) Turnout.possible_turnout_columns /\
       e = Raised (Turnout.Py (ValueError_float
             (remove_char "%"%char (strip (Turnout.field row idx))))) /\
       forall x, py_float_of_text
                   (remove_char "%"%char (strip (Turnout.field row idx)))
                 <> Ok x).
Proof.
  destruct file as [|rows ending].
  { (* open() fails *)
    split; [|split; [|split]].
    - intros e. split.
      + intros [= <-]. left. auto.
      + intros [[_ ->]|(rows & E & _)]; [reflexivity|discriminate].
    - split; [discriminate|]. intros (rows & E & _). discriminate.
    - intros msg. split; [discriminate|].
      intros (? & ? & ? & ? & E & _). discriminate.
    - intros e [= <-]. left. eauto. }
  destruct rows as [|r0 [|headers data]].
  - (* no row *)
    split; [|split; [|split]].
    + intros e. split.
      * destruct ending as [e'|]; simpl; [|discriminate].
        intros [= <-]. right. exists []. split; [reflexivity|]. left. simpl. lia.
      * intros [[E _]|(rows & [= <- ->] & _)]; [discriminate|reflexivity].
    + split.
      * destruct ending as [e'|]; simpl; [discriminate|].
        intros _. exists []. split; auto.
      * intros (rows & [= <- ->] & _). reflexivity.
    + intros msg. split.
      * destruct ending; discriminate.
      * intros (? & ? & ? & ? & E & _). discriminate.
    + intros e. destruct ending as [e'|]; simpl; intros [= <-]; eauto.
  - (* one row *)
    split; [|split; [|split]].
    + intros e. split.
      * destruct ending as [e'|]; simpl; [|discriminate].
        intros [= <-]. right. exists [r0]. split; [reflexivity|]. left. simpl. lia.
      * intros [[E _]|(rows & [= <- ->] & _)]; [discriminate|reflexivity].
    + split.
      * destruct ending as [e'|]; simpl; [discriminate|].
        intros _. exists [r0]. split; auto.
      * intros (rows & [= <- ->] & _). reflexivity.
    + intros msg. split.
      * destruct ending; discriminate.
      * intros (? & ? & ? & ? & E & _). discriminate.
    + intros e. destruct ending as [e'|]; simpl; intros [= <-]; eauto.
  - (* two rows and more *)
    rewrite process_2016_2020_file_rows.
    destruct (process_2016_2020_failures file_path (r0 :: headers :: data) y)
      as (Hstop & Hmsg & Hother).
    destruct (Turnout.index_where _ headers) as [idx|] eqn:Ei.
    + assert (Hfound : exists h, In h headers /\
                                 In h Turnout.possible_turnout_columns).
      { apply (index_where_Some _ []) in Ei as (Hidx & Hp & _).
        exists (nth idx headers []). split; [now apply nth_In|].
        apply existsb_exists in Hp as (x & Hx & E).
        apply text_eqb_eq in E. now subst. }
      destruct Hfound as (h & Hh & Hp).
      destruct (Turnout.process_2016_2020 file_path (r0 :: headers :: data) y)
        as [recs|e0] eqn:Ep; simpl.
      * split; [|split; [|split]].
        -- intros e. split.
           ++ destruct ending as [e'|]; [|discriminate].
              intros [= <-]. right. exists (r0 :: headers :: data).
              split; auto. right. eauto.
           ++ intros [[E _]|(rows & [= <- ->] & _)]; [discriminate|reflexivity].
        -- split; [destruct ending; discriminate|].
           intros (rows & [= <- ->] & Hl). simpl in Hl. lia.
        -- intros msg. split; [destruct ending; discriminate|].
           intros (? & ? & ? & ? & [= <- <- <- <-] & Hnone & _).
           exfalso. now apply (Hnone h).
        -- intros e. destruct ending as [e'|]; [|discriminate].
           intros [= <-]. left. eauto.
      * split; [|split; [|split]].
        -- intros e. split; [discriminate|].
           intros [[E _]|(rows & [= <- ->] & [Hl|(recs & E)])];
             [discriminate|simpl in Hl; lia|congruence].
        -- split.
           ++ intros [= ->]. pose proof (proj1 Hstop eq_refl) as Hl.
              simpl in Hl. lia.
           ++ intros (rows & [= <- ->] & Hl). simpl in Hl. lia.
        -- intros msg. split.
           ++ intros [= ->].
              destruct (proj1 (Hmsg msg) eq_refl)
                as (? & ? & ? & [= <- <- <-] & Hnone & _).
              exfalso. now apply (Hnone h).
           ++ intros (? & ? & ? & ? & [= <- <- <- <-] & Hnone & _).
              exfalso. now apply (Hnone h).
        -- intros e [= <-].
           destruct (Hother e0 eq_refl) as [->|[(msg & ->)|(row & i & Hrow)]].
           ++ right. left. reflexivity.
           ++ right. right. left. exists msg. reflexivity.
           ++ right. right. right.
              destruct Hrow as (Hin & Hl & Hp' & -> & Hn).
              exists (r0 :: headers :: data), ending, row, i.
              repeat split; auto.
    + assert (Hnone : forall h, In h headers ->
                        ~ In h Turnout.possible_turnout_columns).
      { intros h Hh Hp. rewrite index_where_None in Ei.
        specialize (Ei h Hh).
        assert (Ht : existsb (text_eqb h) Turnout.possible_turnout_columns = true)
          by (apply existsb_exists; exists h; split; auto; apply text_eqb_refl).
        congruence. }
      split; [|split; [|split]].
      * intros e. split; [discriminate|].
        intros [[E _]|(rows & [= <- ->] & [Hl|(recs & E)])];
          [discriminate|simpl in Hl; lia|].
        unfold Turnout.process_2016_2020 in E. rewrite Ei in E. discriminate.
      * split; [discriminate|].
        intros (rows & [= <- ->] & Hl). simpl in Hl. lia.
      * intros msg. split.
        -- intros [= <-]. exists r0, headers, data, ending. auto.
        -- intros (? & ? & ? & ? & [= <- <- <- <-] & _ & ->). reflexivity.
      * intros e [= <-]. right. right. left. eauto.
Qed.

Lemma X16_witness :
  process_2016_2020_file (txt "2020.csv") file_2020_undecodable 2020
  = Failed (ReadError UnicodeDecodeError).
Proof.
  apply (proj1 (X16_failures_of_process_2016_2020
                  (txt "2020.csv") file_2020_undecodable 2020)
               UnicodeDecodeError).
  right. eexists. split; [reflexivity|].
  right. eexists. vm_compute. reflexivity.
Defined.




(** A turnout cell that is not a number fails the file, whatever the
    reader would do after it. *)
Example bad_turnout_cell_fails_2020 :
  forall ending,
    process_2016_2020_file (txt "2020.csv") (Opened rows_2020_bad ending) 2020
    = Failed (Raised (Turnout.Py (ValueError_float (txt "N/A")))).
Proof. intros ending. vm_compute. reflexivity. Qed.

Example bad_turnout_cell_fails_2024 :
  forall ending,
    process_2024_file (Opened rows_2024_bad ending)
    = Failed (Raised (Turnout.Py (ValueError_float (txt "n/a")))).
Proof. intros ending. vm_compute. reflexivity. Qed.
